(** * Recipe Wizard: the gram converter and the line annotator

    A shallow embedding of the conversion core of [baking.py]
    ([load_ingredients_db], [get_conversion_factors], [convert_to_grams],
    [convert_recipe_to_grams]) together with the Python built-ins the code
    relies on, and the properties of the specification proved or refuted
    against it.

    Conventions of the embedding.
    - A Python [str] is a list of code points.  The development covers the
      code points below 256 (Latin-1), represented by [ascii]; on those the
      character classes below are the ones of CPython 3.
    - A Python [float] is an IEEE 754 binary64 number, represented by the
      primitive type [float]; decimal literals of the source text are kept
      as exact rationals and rounded to the nearest binary64 number when
      they are used, as the Python compiler does.
    - An exception is a value of type [exn]; a computation that may raise
      returns [result]. *)

From Stdlib Require Import String Ascii List ZArith QArith Floats Bool Lia.
Import ListNotations.

Set Implicit Arguments.

Local Close Scope Q_scope.
Local Open Scope string_scope.
Local Open Scope list_scope.

(** ** Python strings *)

Module PyStr.

Definition str : Type := list ascii.

Definition of_string (s : string) : str := list_ascii_of_string s.
Coercion of_string : string >-> str.

Definition ord (c : ascii) : N := N_of_ascii c.

Definition newline : ascii := ascii_of_N 10.

Definition between (lo hi : N) (c : ascii) : bool :=
  ((lo <=? ord c) && (ord c <=? hi))%N.

(** [str.isspace] on one character, which is also the class [\s] of [re]
    and the set removed by [str.strip]. *)
Definition isspace (c : ascii) : bool :=
  between 9 13 c || between 28 32 c || (ord c =? 133)%N || (ord c =? 160)%N.

(** The class [\d] of [re]: decimal digits. *)
Definition isdecimal (c : ascii) : bool := between 48 57 c.

(** The class [\w] of [re]: alphanumeric characters and the underscore. *)
Definition isword (c : ascii) : bool :=
  between 48 57 c || between 65 90 c || (ord c =? 95)%N || between 97 122 c
  || (ord c =? 170)%N || between 178 179 c || (ord c =? 181)%N
  || between 185 186 c || between 188 190 c || between 192 214 c
  || between 216 246 c || between 248 255 c.

Definition lower_char (c : ascii) : ascii :=
  if between 65 90 c || between 192 214 c || between 216 222 c
  then ascii_of_N (ord c + 32)
  else c.

(** [s.lower()] *)
Definition lower (s : str) : str := map lower_char s.

Fixpoint lstrip (s : str) : str :=
  match s with
  | c :: s' => if isspace c then lstrip s' else s
  | [] => []
  end.

Definition rstrip (s : str) : str := rev (lstrip (rev s)).

(** [s.strip()] *)
Definition strip (s : str) : str := rstrip (lstrip s).

Definition eqb (s t : str) : bool :=
  if list_eq_dec ascii_dec s t then true else false.

(** [x in l] for a list of strings. *)
Definition mem (x : str) (l : list str) : bool := existsb (eqb x) l.

(** [c in s] for a one-character string [c]. *)
Definition contains (c : ascii) (s : str) : bool := existsb (Ascii.eqb c) s.

(** [s.split(sep)] for a one-character separator. *)
Fixpoint split (sep : ascii) (s : str) : list str :=
  match s with
  | [] => [[]]
  | c :: s' =>
      if Ascii.eqb c sep then [] :: split sep s'
      else match split sep s' with
           | piece :: pieces => (c :: piece) :: pieces
           | [] => [[c]]
           end
  end.

(** [s.split(sep, 1)] for a one-character separator. *)
Fixpoint split1 (sep : ascii) (s : str) : list str :=
  match s with
  | [] => [[]]
  | c :: s' =>
      if Ascii.eqb c sep then [[]; s']
      else match split1 sep s' with
           | piece :: pieces => (c :: piece) :: pieces
           | [] => [[c]]
           end
  end.

(** [sep.join(pieces)] *)
Fixpoint join (sep : str) (pieces : list str) : str :=
  match pieces with
  | [] => []
  | [piece] => piece
  | piece :: rest => piece ++ sep ++ join sep rest
  end.

Fixpoint startswith (prefix s : str) : bool :=
  match prefix, s with
  | [], _ => true
  | p :: prefix', c :: s' => Ascii.eqb p c && startswith prefix' s'
  | _ :: _, [] => false
  end.

(** [s.replace(old, new, 1)]: the first occurrence of [old], scanning from
    the left, is replaced; [s] is returned when there is none. *)
Fixpoint replace1 (old new s : str) : str :=
  if startswith old s then new ++ skipn (length old) s
  else match s with
       | [] => []
       | c :: s' => c :: replace1 old new s'
       end.

(** [s[i:j]] for [0 <= i <= j]. *)
Definition slice (i j : nat) (s : str) : str := firstn (j - i) (skipn i s).

(** The lookup [d.get(key)] in a dictionary written as a literal: the
    entries in source order. *)
Fixpoint lookup {V : Type} (key : str) (d : list (str * V)) : option V :=
  match d with
  | [] => None
  | (k, v) :: d' => if eqb key k then Some v else lookup key d'
  end.

End PyStr.
Import PyStr.

(** ** Exceptions *)

Inductive exn : Type := ValueError | ZeroDivisionError.

Inductive result (A : Type) : Type :=
| Ok (a : A)
| Raise (e : exn).
Arguments Ok {A} a.
Arguments Raise {A} e.

Definition bind {A B : Type} (r : result A) (k : A -> result B) : result B :=
  match r with
  | Ok a => k a
  | Raise e => Raise e
  end.

Notation "x <- r ;; k" := (bind r (fun x => k))
  (at level 61, r at next level, right associativity).

(** ** Python floats *)

Module PyFloat.

Local Open Scope Z_scope.

(** The binary64 number nearest to [(-1)^neg * m * 10^x], ties to even.
    Outside [-400 - digits .. 400] the power of ten is not computed: the
    result is an infinity or a zero there. [digits] bounds the number of
    decimal digits of [m] from above. *)
Definition decimal (neg : bool) (m : Z) (x : Z) (digits : Z) : float :=
  match m with
  | Zpos p =>
      if 400 <? x then (if neg then neg_infinity else infinity)
      else if x + digits <? -400 then (if neg then neg_zero else zero)
      else
        SF2Prim
          match x with
          | Zneg k =>
              SFdiv prec emax (S754_finite neg p 0)
                    (S754_finite false (10 ^ k)%positive 0)
          | _ => binary_round prec emax neg (p * Z.to_pos (10 ^ x))%positive 0
          end
  | _ => if neg then neg_zero else zero
  end.

(** A numeric literal of the source text, read as a float. *)
Definition of_Q (q : Q) : float :=
  SF2Prim
    match Qnum q with
    | Z0 => S754_zero false
    | Zpos n => SFdiv prec emax (S754_finite false n 0) (S754_finite false (Qden q) 0)
    | Zneg n => SFdiv prec emax (S754_finite true n 0) (S754_finite false (Qden q) 0)
    end.

(** [x / y] on floats. *)
Definition truediv (x y : float) : result float :=
  if PrimFloat.eqb y zero then Raise ZeroDivisionError else Ok (x / y)%float.

(** *** [float(s)] *)

(** The white space [float] ignores around a number. *)
Definition float_space (c : ascii) : bool :=
  between 9 13 c || Ascii.eqb c " " || (ord c =? 133)%N || (ord c =? 160)%N.

Fixpoint drop_spaces (s : str) : str :=
  match s with
  | c :: s' => if float_space c then drop_spaces s' else s
  | [] => []
  end.

Definition isdigit (c : ascii) : bool := between 48 57 c.

Definition is_underscore (c : ascii) : bool := Ascii.eqb c "_".

(** Underscores are allowed between two digits only, and are dropped. *)
Fixpoint drop_underscores (prev : ascii) (s : str) : option str :=
  match s with
  | [] => if is_underscore prev then None else Some []
  | c :: s' =>
      if is_underscore c then
        if isdigit prev then drop_underscores c s' else None
      else if is_underscore prev && negb (isdigit c) then None
      else option_map (cons c) (drop_underscores c s')
  end.

Fixpoint span_digits (s : str) : str * str :=
  match s with
  | c :: s' =>
      if isdigit c then let (ds, rest) := span_digits s' in (c :: ds, rest)
      else ([], s)
  | [] => ([], [])
  end.

Definition digit_value (c : ascii) : Z := Z.of_N (ord c) - 48.

Definition digits_value (ds : str) : Z :=
  fold_left (fun acc c => 10 * acc + digit_value c) ds 0.

Definition parse_sign (s : str) : bool * str :=
  match s with
  | c :: s' =>
      if Ascii.eqb c "-" then (true, s')
      else if Ascii.eqb c "+" then (false, s')
      else (false, s)
  | [] => (false, [])
  end.

(** The exponent part: nothing, or [e] or [E], an optional sign and at
    least one digit, up to the end of the text. *)
Definition parse_exponent (s : str) : option Z :=
  match s with
  | [] => Some 0
  | c :: s' =>
      if Ascii.eqb c "e" || Ascii.eqb c "E" then
        let (neg, ds) := parse_sign s' in
        match span_digits ds with
        | ((_ :: _) as es, []) =>
            Some (if neg then - digits_value es else digits_value es)
        | _ => None
        end
      else None
  end.

Definition float_of_str (s : str) : result float :=
  let s := rev (drop_spaces (rev (drop_spaces s))) in
  match drop_underscores Ascii.zero s with
  | None => Raise ValueError
  | Some s =>
      let (neg, body) := parse_sign s in
      let word := lower body in
      if PyStr.eqb word "inf" || PyStr.eqb word "infinity" then
        Ok (if neg then neg_infinity else infinity)
      else if PyStr.eqb word "nan" then Ok nan
      else
        let (ip, r1) := span_digits body in
        let (fp, r2) :=
          match r1 with
          | c :: r => if Ascii.eqb c "." then span_digits r else ([], r1)
          | [] => ([], [])
          end in
        match ip ++ fp, parse_exponent r2 with
        | (_ :: _) as ds, Some x =>
            let n := Z.of_nat (List.length ds) in
            Ok (decimal neg (digits_value ds)
                        (x - Z.of_nat (List.length fp)) n)
        | _, _ => Raise ValueError
        end
  end.

(** *** [round(x, 1)] *)

(** The integer nearest to [num / den], ties to even, for [0 < den]. *)
Definition div_nearest_even (num den : Z) : Z :=
  let q := num / den in
  match 2 * (num mod den) ?= den with
  | Lt => q
  | Gt => q + 1
  | Eq => if Z.even q then q else q + 1
  end.

(** The value is rounded to one decimal place on its exact binary value,
    and the resulting decimal is read back as a float; infinities and NaN
    are returned as they are. *)
Definition round1 (x : float) : float :=
  match Prim2SF x with
  | S754_finite s m e =>
      let tenths :=
        match e with
        | Zneg k => div_nearest_even (Zpos m * 10) (Zpos (2 ^ k))
        | _ => Zpos m * 10 * 2 ^ e
        end in
      decimal s tenths (-1) 400
  | _ => x
  end.

(** *** [repr(x)] *)

Fixpoint digits_of (fuel : nat) (n : Z) (acc : str) : str :=
  match fuel with
  | O => acc
  | S fuel' =>
      let acc' := ascii_of_N (Z.to_N (48 + n mod 10)) :: acc in
      if n <? 10 then acc' else digits_of fuel' (n / 10) acc'
  end.

(** The decimal digits of [0 <= n], most significant first. *)
Definition str_of_Z (n : Z) : str :=
  digits_of (S (Z.to_nat (Z.log2 n))) n [].

Fixpoint leading_zeros (fuel : nat) (num den : Z) (j : Z) : Z :=
  match fuel with
  | O => j
  | S fuel' =>
      if den <=? num * 10 then j else leading_zeros fuel' (num * 10) den (j + 1)
  end.

(** The [p] with [10^(p-1) <= num / den < 10^p], for a positive binary64
    value [num / den]. *)
Definition decimal_exponent (num den : Z) : Z :=
  if den <=? num then Z.of_nat (List.length (str_of_Z (num / den)))
  else 1 - leading_zeros 400 num den 1.

Section Shortest.
(** [x] is positive and finite, [num / den] is its exact value and [p]
    its decimal exponent. *)
Variables (x : float) (num den p : Z).

Definition reads_back (D k : Z) : bool :=
  PrimFloat.eqb (decimal false D (p - k) 20) x.

(** The two [k]-digit decimals that enclose [x], as integers scaled by
    [10^(k-p)], and the remainder that locates [x] between them. *)
Definition enclose (k : Z) : Z * Z * Z :=
  let sc := k - p in
  let n' := if 0 <=? sc then num * 10 ^ sc else num in
  let d' := if 0 <=? sc then den else den * 10 ^ (- sc) in
  (n' / d', n' mod d', d').

Definition closest (lo r d' : Z) : Z :=
  match 2 * r ?= d' with
  | Lt => lo
  | Gt => lo + 1
  | Eq => if Z.even lo then lo else lo + 1
  end.

(** A [k]-digit decimal that reads back as [x], the closest to [x] when
    both neighbours do. *)
Definition candidate (k : Z) : option Z :=
  let '(lo, r, d') := enclose k in
  match reads_back lo k, reads_back (lo + 1) k with
  | true, true => Some (closest lo r d')
  | true, false => Some lo
  | false, true => Some (lo + 1)
  | false, false => None
  end.

(** The shortest decimal that reads back as [x]: at most 17 digits. *)
Fixpoint shortest (more : nat) (k : Z) : Z * Z :=
  match more with
  | O => let '(lo, r, d') := enclose k in (closest lo r d', k)
  | S more' =>
      match candidate k with
      | Some D => (D, k)
      | None => shortest more' (k + 1)
      end
  end.
End Shortest.

Fixpoint rstrip_zeros (rev_ds : str) : str :=
  match rev_ds with
  | c :: ((_ :: _) as rest) => if Ascii.eqb c "0" then rstrip_zeros rest else rev_ds
  | _ => rev_ds
  end.

Definition zeros (n : Z) : str := repeat "0"%char (Z.to_nat n).

(** The layout of [repr]: [ds] are the significant digits and the value
    is [0.ds * 10^decpt]. *)
Definition layout (ds : str) (decpt : Z) : str :=
  let n := Z.of_nat (List.length ds) in
  if (-4 <? decpt) && (decpt <=? 16) then
    if decpt <=? 0 then ("0." : str) ++ zeros (- decpt) ++ ds
    else if n <=? decpt then ds ++ zeros (decpt - n) ++ (".0" : str)
    else firstn (Z.to_nat decpt) ds ++ ("." : str) ++ skipn (Z.to_nat decpt) ds
  else
    let e := decpt - 1 in
    let es := str_of_Z (Z.abs e) in
    match ds with
    | [] => []
    | [d] => [d]
    | d :: rest => d :: ("." : str) ++ rest
    end
    ++ ("e" : str) ++ (if e <? 0 then ("-" : str) else ("+" : str))
    ++ (if Z.abs e <? 10 then ("0" : str) ++ es else es).

Definition repr (x : float) : str :=
  match Prim2SF x with
  | S754_nan => "nan"
  | S754_infinity s => if s then "-inf" else "inf"
  | S754_zero s => if s then "-0.0" else "0.0"
  | S754_finite s m e =>
      let num := match e with Zneg _ => Zpos m | _ => Zpos m * 2 ^ e end in
      let den := match e with Zneg k => Zpos (2 ^ k) | _ => 1 end in
      let p := decimal_exponent num den in
      let (D, k) := shortest (abs x) num den p 16 1 in
      let ds := str_of_Z D in
      let decpt := p - k + Z.of_nat (List.length ds) in
      (if s then ("-" : str) else []) ++ layout (rev (rstrip_zeros (rev ds))) decpt
  end.

End PyFloat.

(** ** Arithmetic

    [convert_to_grams] only adds, subtracts, multiplies and divides by the
    constant 10, on whatever numbers it is given.  It is embedded once,
    over an interface of these operations, and read at two instances:
    [binary64], the floats Python computes with, and [exact], the rational
    numbers, where no operation rounds. An [int] argument or literal that
    meets a float is converted to the float of the same value, which is
    what [literal] does at [binary64]. *)

Record arith (num : Type) : Type := Arith {
  literal : Q -> num;
  add : num -> num -> num;
  sub : num -> num -> num;
  mul : num -> num -> num;
  div : num -> num -> num
}.

Definition binary64 : arith float :=
  {| literal := PyFloat.of_Q;
     add := PrimFloat.add;
     sub := PrimFloat.sub;
     mul := PrimFloat.mul;
     div := PrimFloat.div |}.

Definition exact : arith Q :=
  {| literal := fun q => q;
     add := Qplus;
     sub := Qminus;
     mul := Qmult;
     div := Qdiv |}.

(** ** The tables *)

(** An entry of the ingredient database; ["unit"] is present for the
    ingredients that are counted. *)
Record ingredient_entry : Type := Entry {
  density : Q;
  temp_factor : Q;
  special_unit : option str
}.

Definition volume (d t : Q) : ingredient_entry := Entry d t None.
Definition counted (d t : Q) (u : str) : ingredient_entry := Entry d t (Some u).

Definition load_ingredients_db : list (str * ingredient_entry) :=
  [ ("all-purpose flour" : str, volume 120 0.02);
    ("bread flour" : str, volume 127 0.02);
    ("cake flour" : str, volume 112 0.02);
    ("whole wheat flour" : str, volume 130 0.02);
    ("granulated sugar" : str, volume 200 0.005);
    ("brown sugar" : str, volume 220 0.01);
    ("powdered sugar" : str, volume 125 0.005);
    ("butter" : str, volume 227 0.05);
    ("vegetable oil" : str, volume 224 0.01);
    ("milk" : str, volume 242 0.02);
    ("heavy cream" : str, volume 238 0.02);
    ("water" : str, volume 237 0.01);
    ("salt" : str, volume 288 0.001);
    ("baking powder" : str, volume 192 0.005);
    ("baking soda" : str, volume 220 0.005);
    ("cocoa powder" : str, volume 106 0.02);
    ("honey" : str, volume 340 0.03);
    ("maple syrup" : str, volume 322 0.03);
    ("rolled oats" : str, volume 85 0.01);
    ("chopped nuts" : str, volume 113 0.01);
    ("chocolate chips" : str, volume 170 0.01);
    ("eggs" : str, counted 50 0.02 "each");
    ("vanilla extract" : str, counted 4.2 0.01 "teaspoon");
    ("yeast" : str, counted 3 0.005 "teaspoon") ].

Definition get_conversion_factors : list (str * Q) :=
  [ ("cup" : str, 1%Q);
    ("cups" : str, 1%Q);
    ("tablespoon" : str, 0.0625%Q);
    ("tablespoons" : str, 0.0625%Q);
    ("tbsp" : str, 0.0625%Q);
    ("teaspoon" : str, 0.0208333%Q);
    ("teaspoons" : str, 0.0208333%Q);
    ("tsp" : str, 0.0208333%Q);
    ("fluid ounce" : str, 0.125%Q);
    ("fluid ounces" : str, 0.125%Q);
    ("fl oz" : str, 0.125%Q);
    ("milliliter" : str, 0.00422675%Q);
    ("milliliters" : str, 0.00422675%Q);
    ("ml" : str, 0.00422675%Q);
    ("liter" : str, 4.22675%Q);
    ("liters" : str, 4.22675%Q);
    ("l" : str, 4.22675%Q);
    ("pint" : str, 2%Q);
    ("pints" : str, 2%Q);
    ("pt" : str, 2%Q);
    ("quart" : str, 4%Q);
    ("quarts" : str, 4%Q);
    ("qt" : str, 4%Q);
    ("gallon" : str, 16%Q);
    ("gallons" : str, 16%Q);
    ("gal" : str, 16%Q) ].

(** ** The gram converter *)

Section Converter.
Context {num : Type} (A : arith num).

Local Notation "x + y" := (add A x y).
Local Notation "x - y" := (sub A x y).
Local Notation "x * y" := (mul A x y).
Local Notation "x / y" := (div A x y).
Local Notation "# q" := (literal A q%Q) (at level 1, format "# q").

(** [density * (1 + temp_factor * (temperature - 20) / 10)] *)
Definition adjusted_density (e : ingredient_entry) (temperature : num) : num :=
  let density := #(density e) in
  let temp_factor := #(temp_factor e) in
  let temp_diff := temperature - #20 in
  let density_adjustment := #1 + (temp_factor * temp_diff / #10) in
  density * density_adjustment.

(** [None] is Python's [None]. No operation of the function raises. *)
Definition convert_to_grams (quantity : num) (unit ingredient : str)
           (temperature : num) : option num :=
  let ingredients_db := load_ingredients_db in
  let volume_to_cups := get_conversion_factors in
  let ingredient := strip (lower ingredient) in
  let unit := strip (lower unit) in
  match lookup ingredient ingredients_db with
  | None => None
  | Some entry =>
      let adjusted_density := adjusted_density entry temperature in
      if match special_unit entry with
         | Some special_unit =>
             PyStr.eqb unit special_unit || PyStr.eqb unit (special_unit ++ ("s" : str))
         | None => false
         end
      then Some (quantity * adjusted_density)
      else
        match lookup unit volume_to_cups with
        | Some factor =>
            let cups := quantity * #factor in
            Some (cups * adjusted_density)
        | None =>
            if mem unit ["gram" : str; "g" : str; "grams" : str] then
              Some quantity
            else if mem unit ["kilogram" : str; "kg" : str; "kilograms" : str] then
              Some (quantity * #1000)
            else if mem unit ["ounce" : str; "oz" : str; "ounces" : str] then
              Some (quantity * #28.35)
            else if mem unit ["pound" : str; "lb" : str; "pounds" : str] then
              Some (quantity * #453.59)
            else None
        end
  end.
End Converter.

(** ** Regular expressions

    The fragment of [re] that the ingredient pattern uses, with the
    backtracking order of the [re] engine: a greedy repetition tries the
    longest run first, a lazy one the shortest, an optional part is tried
    before it is skipped, alternatives are tried from left to right. *)

Module Re.

Inductive regex : Type :=
| Repeat1 (greedy : bool) (p : ascii -> bool)
| Literal (s : str)
| Seq (r1 r2 : regex)
| Alt (r1 r2 : regex)
| Optional (r : regex)
| Group (i : nat) (r : regex)
| Eol.

(** The spans of the capturing groups that have matched, latest first. *)
Definition spans : Type := list (nat * (nat * nat)).

Section Run.
Context {R : Type}.

(** [p+]: the longest run first. *)
Fixpoint repeat_greedy (p : ascii -> bool) (pos : nat) (s : str)
         (k : nat -> str -> option R) : option R :=
  match s with
  | c :: s' =>
      if p c then
        match repeat_greedy p (S pos) s' k with
        | Some x => Some x
        | None => k (S pos) s'
        end
      else None
  | [] => None
  end.

(** [p+?]: the shortest run first. *)
Fixpoint repeat_lazy (p : ascii -> bool) (pos : nat) (s : str)
         (k : nat -> str -> option R) : option R :=
  match s with
  | c :: s' =>
      if p c then
        match k (S pos) s' with
        | Some x => Some x
        | None => repeat_lazy p (S pos) s' k
        end
      else None
  | [] => None
  end.

(** [run r pos s g k]: match [r] at offset [pos], where [s] is the text
    from [pos] on, then continue with [k]; the first success in
    backtracking order. *)
Fixpoint run (r : regex) (pos : nat) (s : str) (g : spans)
         (k : nat -> str -> spans -> option R) : option R :=
  match r with
  | Repeat1 true p => repeat_greedy p pos s (fun pos' s' => k pos' s' g)
  | Repeat1 false p => repeat_lazy p pos s (fun pos' s' => k pos' s' g)
  | Literal l =>
      if startswith l s then k (pos + List.length l) (skipn (List.length l) s) g
      else None
  | Seq r1 r2 => run r1 pos s g (fun pos' s' g' => run r2 pos' s' g' k)
  | Alt r1 r2 =>
      match run r1 pos s g k with
      | Some x => Some x
      | None => run r2 pos s g k
      end
  | Optional r' =>
      match run r' pos s g k with
      | Some x => Some x
      | None => k pos s g
      end
  | Group i r' =>
      run r' pos s g (fun pos' s' g' => k pos' s' ((i, (pos, pos')) :: g'))
  | Eol =>
      match s with
      | [] => k pos s g
      | [c] => if Ascii.eqb c newline then k pos s g else None
      | _ => None
      end
  end.
End Run.

(** A match object: [m.start()], [m.end()] and the spans of the groups. *)
Record match_object : Type := Match {
  m_start : nat;
  m_end : nat;
  m_spans : spans
}.

(** [re.match] at offset [pos]; the text after the match is returned too. *)
Definition match_at (r : regex) (pos : nat) (s : str) : option (match_object * str) :=
  run r pos s [] (fun pos' s' g => Some (Match pos pos' g, s')).

(** [re.search] from offset [pos]: the leftmost start that matches. *)
Fixpoint search (r : regex) (pos : nat) (s : str) : option (match_object * str) :=
  match match_at r pos s with
  | Some m => Some m
  | None =>
      match s with
      | [] => None
      | _ :: s' => search r (S pos) s'
      end
  end.

(** [re.finditer]: the successive matches, each search starting where
    the previous match ended. [fuel] bounds their number. *)
Fixpoint finditer_from (fuel : nat) (r : regex) (pos : nat) (s : str) : list match_object :=
  match fuel with
  | O => []
  | S fuel' =>
      match search r pos s with
      | Some (m, rest) => m :: finditer_from fuel' r (m_end m) rest
      | None => []
      end
  end.

Definition finditer (r : regex) (s : str) : list match_object :=
  finditer_from (S (List.length s)) r 0 s.

Fixpoint span_of (i : nat) (g : spans) : option (nat * nat) :=
  match g with
  | [] => None
  | (j, sp) :: g' => if Nat.eqb i j then Some sp else span_of i g'
  end.

(** [m.group(0)] *)
Definition group0 (s : str) (m : match_object) : str := slice (m_start m) (m_end m) s.

(** [m.group(i)] for a group that took part in the match. *)
Definition group (s : str) (m : match_object) (i : nat) : str :=
  match span_of i (m_spans m) with
  | Some (a, b) => slice a b s
  | None => []
  end.

End Re.

(** ** The line annotator *)

(** The class [[\d./\s]]. *)
Definition quantity_char (c : ascii) : bool :=
  isdecimal c || Ascii.eqb c "." || Ascii.eqb c "/" || isspace c.

(** The class [.]: any character but the line break. *)
Definition any_char (c : ascii) : bool := negb (Ascii.eqb c newline).

(** [([\d./\s]+)\s+(\w+(?:\s+\w+)?)\s+(?:of\s+)?(.+?)(?:,|$|\n)] *)
Definition ingredient_pattern : Re.regex :=
  let Seq := Re.Seq in
  Seq (Re.Group 1 (Re.Repeat1 true quantity_char))
 (Seq (Re.Repeat1 true isspace)
 (Seq (Re.Group 2 (Seq (Re.Repeat1 true isword)
                       (Re.Optional (Seq (Re.Repeat1 true isspace)
                                         (Re.Repeat1 true isword)))))
 (Seq (Re.Repeat1 true isspace)
 (Seq (Re.Optional (Seq (Re.Literal "of") (Re.Repeat1 true isspace)))
 (Seq (Re.Group 3 (Re.Repeat1 false any_char))
      (Re.Alt (Re.Literal ",") (Re.Alt Re.Eol (Re.Literal [newline])))))))).

(** The quantity parser: the body of the [try] block that turns the text
    of the first group into a float (lines 201 to 213). *)
Definition parse_quantity (quantity_str : str) : result float :=
  let float := PyFloat.float_of_str in
  if contains "/" quantity_str then
    if contains " " quantity_str then
      match split1 " " quantity_str with
      | [whole; fraction] =>
          match split "/" fraction with
          | [num; denom] =>
              w <- float whole ;;
              n <- float num ;;
              d <- float denom ;;
              q <- PyFloat.truediv n d ;;
              Ok (w + q)%float
          | _ => Raise ValueError
          end
      | _ => Raise ValueError
      end
    else
      match split "/" quantity_str with
      | [num; denom] =>
          n <- float num ;;
          d <- float denom ;;
          PyFloat.truediv n d
      | _ => Raise ValueError
      end
  else float quantity_str.

(** [f"{full_match} ({grams}g)"] *)
Definition annotation (grams : float) : str :=
  (" (" : str) ++ PyFloat.repr grams ++ ("g)" : str).

(** The [try] block for one match: the new value of [modified_line], or
    the exception that leaves the block. *)
Definition try_annotate (temperature : float) (line modified_line : str)
           (m : Re.match_object) : result str :=
  let quantity_str := strip (Re.group line m 1) in
  let unit := Re.group line m 2 in
  let ingredient := Re.group line m 3 in
  quantity <- parse_quantity quantity_str ;;
  match convert_to_grams binary64 quantity unit ingredient temperature with
  | Some grams =>
      let grams := PyFloat.round1 grams in
      let full_match := Re.group0 line m in
      let replacement := full_match ++ annotation grams in
      Ok (replace1 full_match replacement modified_line)
  | None => Ok modified_line
  end.

(** One turn of the loop over the matches: [except: pass] keeps the line
    as it was. *)
Definition annotate_match (temperature : float) (line modified_line : str)
           (m : Re.match_object) : str :=
  match try_annotate temperature line modified_line m with
  | Ok modified_line' => modified_line'
  | Raise _ => modified_line
  end.

(** The body of the loop over the lines. *)
Definition convert_line (temperature : float) (line : str) : str :=
  match strip line with
  | [] => line
  | _ :: _ =>
      let matches := Re.finditer ingredient_pattern line in
      fold_left (annotate_match temperature line) matches line
  end.

Definition convert_recipe_to_grams (recipe_text : str) (temperature : float) : str :=
  let lines := split newline (strip recipe_text) in
  let converted_lines := map (convert_line temperature) lines in
  join [newline] converted_lines.

(** * The page *)

Unset Implicit Arguments.

(** ** The single-ingredient converter

    The right column of the page: the ingredient and the unit are chosen
    from two sorted lists, the temperature on a slider from 15 to 35, and
    the button shows the rounded result or an error. *)

Module Page.

(** [a < b] on strings: the order of the code points. *)
Fixpoint ltb (a b : str) : bool :=
  match a, b with
  | _, [] => false
  | [], _ :: _ => true
  | x :: a', y :: b' =>
      if (ord x <? ord y)%N then true
      else if (ord y <? ord x)%N then false
      else ltb a' b'
  end.

Fixpoint insert (x : str) (l : list str) : list str :=
  match l with
  | [] => [x]
  | y :: l' => if ltb x y then x :: l else y :: insert x l'
  end.

(** [sorted(l)]: a stable sort. *)
Definition sorted (l : list str) : list str :=
  fold_left (fun acc x => insert x acc) l [].

Definition ingredients : list str := sorted (map fst load_ingredients_db).

Definition units : list str :=
  sorted (map fst get_conversion_factors
          ++ ["gram" : str; "g" : str; "ounce" : str; "oz" : str; "pound" : str; "lb" : str]).

(** The values of [st.slider(..., 15, 35, 20)]. *)
Definition slider : list Z := map Z.of_nat (seq 15 21).

(** The [int] of a slider, as a float.  The source subtracts 20 from it on
    integers; on the range of the slider that is the difference of the
    floats. *)
Definition of_int (z : Z) : float := PyFloat.of_Q (inject_Z z).

Inductive display : Type :=
| Markdown (html : str)
| Error (message : str).

Definition dquote : str := [ascii_of_N 34].

(** The body of [if st.button("Convert to Grams", ...)]. *)
Definition convert_button (quantity : float) (unit selected_ingredient : str)
           (convert_temp : Z) : display :=
  match convert_to_grams binary64 quantity unit selected_ingredient (of_int convert_temp) with
  | Some grams =>
      let grams_rounded := PyFloat.round1 grams in
      Markdown (("<div class=" : str) ++ dquote ++ ("converter-result" : str) ++ dquote
                ++ (">" : str) ++ PyFloat.repr quantity ++ (" " : str) ++ unit
                ++ (" of " : str) ++ selected_ingredient ++ (" = " : str)
                ++ PyFloat.repr grams_rounded ++ ("g</div>" : str))
  | None =>
      Error (("Cannot convert " : str) ++ selected_ingredient
             ++ (" with the selected unit. Please try another unit." : str))
  end.

(** *** The recipe generator

    The left column of the page.  [st.session_state] holds the
    conversation, a list of messages with a role and a content, and the
    saved recipes, a dictionary from a key to a name and a recipe, in the
    order of insertion. *)
Record session : Type := Session {
  chat_history : list (str * str);
  recipe_db : list (str * (str * str))
}.

(** The state of a new session. *)
Definition initial : session := Session [] [].

(** [d[key] = value] *)
Fixpoint setitem {V : Type} (key : str) (value : V) (d : list (str * V)) : list (str * V) :=
  match d with
  | [] => [(key, value)]
  | (k, v) :: d' =>
      if PyStr.eqb k key then (k, value) :: d' else (k, v) :: setitem key value d'
  end.

(** [str(n)] for the length of a dictionary. *)
Definition str_of_len (n : nat) : str := PyFloat.str_of_Z (Z.of_nat n).

(** The body of [if recipe_button and recipe_input] on a run of the page
    in which the button was pressed; [recipe_output] is the text that
    [generate_recipe] returned. *)
Definition generate_button (recipe_input recipe_output : str) (kitchen_temp : Z)
           (state : session) : session :=
  match recipe_input with
  | [] => state
  | _ :: _ =>
      let converted_recipe := convert_recipe_to_grams recipe_output (of_int kitchen_temp) in
      let recipe_key :=
        ("recipe_" : str) ++ str_of_len (List.length (recipe_db state) + 1) in
      Session (chat_history state
               ++ [("user" : str, ("Generate recipe for " : str) ++ recipe_input);
                   ("assistant" : str, converted_recipe)])
              (setitem recipe_key (recipe_input, converted_recipe) (recipe_db state))
  end.

(** One press of the button: the text typed, the text generated for it
    and the temperature on the slider. *)
Record press : Type := Press {
  recipe_input : str;
  recipe_output : str;
  kitchen_temp : Z
}.

(** The state of a session after a series of presses. *)
Definition after (presses : list press) : session :=
  fold_left (fun state p =>
               generate_button (recipe_input p) (recipe_output p) (kitchen_temp p) state)
            presses initial.

(** What a press with a text adds to the saved recipes and to the
    conversation. *)
Definition saved (p : press) : str * str :=
  (recipe_input p, convert_recipe_to_grams (recipe_output p) (of_int (kitchen_temp p))).

Definition messages (p : press) : list (str * str) :=
  [("user" : str, ("Generate recipe for " : str) ++ recipe_input p);
   ("assistant" : str, snd (saved p))].

Definition has_text (p : press) : bool :=
  match recipe_input p with
  | [] => false
  | _ :: _ => true
  end.

Definition recipe_key (i : nat) : str := ("recipe_" : str) ++ str_of_len i.

(** The saved recipes of a series of presses, numbered from [i]. *)
Fixpoint numbered (i : nat) (l : list press) : list (str * (str * str)) :=
  match l with
  | [] => []
  | p :: l' => (recipe_key i, saved p) :: numbered (S i) l'
  end.

End Page.

Set Implicit Arguments.

(** * Notions used in the statements *)

(** [old in s] for strings. *)
Fixpoint occurs (old s : str) : bool :=
  startswith old s
  || match s with
     | [] => false
     | _ :: s' => occurs old s'
     end.



(** ** The shape of a regular expression *)

Module ReShape.
Import Re.

(** A regular expression that consumes at least one character. *)
Fixpoint nonempty (r : regex) : bool :=
  match r with
  | Repeat1 _ _ => true
  | Literal l => negb (Nat.eqb (List.length l) 0)
  | Seq r1 r2 => nonempty r1 || nonempty r2
  | Alt r1 r2 => nonempty r1 && nonempty r2
  | Optional _ => false
  | Group _ r' => nonempty r'
  | Eol => false
  end.

(** The groups of a regular expression, the last to close first. *)
Fixpoint closing_order (r : regex) : list nat :=
  match r with
  | Seq r1 r2 => closing_order r2 ++ closing_order r1
  | Group i r' => i :: closing_order r'
  | _ => []
  end.

Fixpoint groupless (r : regex) : bool :=
  match r with
  | Seq r1 r2 | Alt r1 r2 => groupless r1 && groupless r2
  | Optional r' => groupless r'
  | Group _ _ => false
  | _ => true
  end.

(** No group under an alternative or an optional part: every group takes
    part in every match. *)
Fixpoint groups_mandatory (r : regex) : bool :=
  match r with
  | Seq r1 r2 => groups_mandatory r1 && groups_mandatory r2
  | Alt r1 r2 => groupless r1 && groupless r2
  | Optional r' => groupless r'
  | Group _ r' => groups_mandatory r'
  | _ => true
  end.

End ReShape.

(** * More notions used in the statements *)

Unset Implicit Arguments.

(** ** Names for the units the converter knows *)

Definition volume_units : list str := map fst get_conversion_factors.

Definition mass_units : list str :=
  ["gram" : str; "g" : str; "grams" : str;
   "kilogram" : str; "kg" : str; "kilograms" : str;
   "ounce" : str; "oz" : str; "ounces" : str;
   "pound" : str; "lb" : str; "pounds" : str].

(** The test on the counted unit of an entry. *)
Definition counted_match (e : ingredient_entry) (u : str) : bool :=
  match special_unit e with
  | Some su => PyStr.eqb u su || PyStr.eqb u (su ++ ("s" : str))
  | None => false
  end.

(** A text of white space only. *)
Definition blank (s : str) : Prop := Forall (fun c => isspace c = true) s.

(** [a] occurs in [s]: [a in s]. *)
Definition substring (a s : str) : Prop := exists pre post : str, s = pre ++ a ++ post.

(** [annotated P s s']: the text [s'] is the text [s] with annotations
    inserted, of numbers that satisfy [P]; nothing else differs. *)
Inductive annotated (P : float -> Prop) : str -> str -> Prop :=
| annotated_refl (s : str) : annotated P s s
| annotated_insert (s pre post : str) (grams : float) :
    annotated P s (pre ++ post) -> P grams ->
    annotated P s (pre ++ annotation grams ++ post).
Module FloatSign.
Local Open Scope Z_scope.

(** The sign bit of a float, as [math.copysign(1.0, x) < 0] reads it; a
    NaN carries none here. *)
Definition sf_signbit (x : spec_float) : bool :=
  match x with
  | S754_zero s | S754_infinity s | S754_finite s _ _ => s
  | S754_nan => false
  end.

Definition signbit (x : float) : bool := sf_signbit (Prim2SF x).

(** A rounded number has the sign it was given. *)
Definition signed (s : bool) (y : spec_float) : Prop :=
  y <> S754_nan /\ sf_signbit y = s.

End FloatSign.

(** ** What a match is made of *)

Module ReParse.
Import Re.

(** [derives r pos w rest g g']: the text [w], found at offset [pos] and
    followed by [rest], is an instance of [r], and matching it turns the
    recorded groups [g] into [g']. *)
Inductive derives : regex -> nat -> str -> str -> spans -> spans -> Prop :=
| d_repeat (greedy : bool) (p : ascii -> bool) pos c w rest g :
    Forall (fun x => p x = true) (c :: w) ->
    derives (Repeat1 greedy p) pos (c :: w) rest g g
| d_literal l pos rest g : derives (Literal l) pos l rest g g
| d_seq r1 r2 pos w1 w2 rest g g1 g2 :
    derives r1 pos w1 (w2 ++ rest) g g1 ->
    derives r2 (pos + List.length w1) w2 rest g1 g2 ->
    derives (Seq r1 r2) pos (w1 ++ w2) rest g g2
| d_left r1 r2 pos w rest g g' :
    derives r1 pos w rest g g' -> derives (Alt r1 r2) pos w rest g g'
| d_right r1 r2 pos w rest g g' :
    derives r2 pos w rest g g' -> derives (Alt r1 r2) pos w rest g g'
| d_some r pos w rest g g' :
    derives r pos w rest g g' -> derives (Optional r) pos w rest g g'
| d_none r pos rest g : derives (Optional r) pos [] rest g g
| d_group i r pos w rest g g' :
    derives r pos w rest g g' ->
    derives (Group i r) pos w rest g ((i, (pos, pos + List.length w)) :: g')
| d_eol pos rest g :
    rest = [] \/ rest = [newline] -> derives Eol pos [] rest g g.

End ReParse.

(** ** The anatomy of a match of the ingredient pattern *)

Module Anatomy.

Definition all (p : ascii -> bool) (s : str) : Prop := Forall (fun c => p c = true) s.

Definition word_or_space (c : ascii) : bool := isword c || isspace c.

(** The parts of a match: the quantity, white space, the unit, white
    space, an optional "of" with its white space, the ingredient and what
    ends it. *)
Record parts : Type := Parts {
  quantity : str;
  gap1 : str;
  unit_text : str;
  gap2 : str;
  of_text : str;
  ingredient : str;
  ending : str
}.

Definition text_of (x : parts) : str :=
  quantity x ++ gap1 x ++ unit_text x ++ gap2 x ++ of_text x ++ ingredient x ++ ending x.

Definition well_formed (x : parts) (rest : str) : Prop :=
  quantity x <> [] /\ all quantity_char (quantity x)
  /\ gap1 x <> [] /\ all isspace (gap1 x)
  /\ (exists c w, unit_text x = c :: w /\ isword c = true /\ all word_or_space w)
  /\ gap2 x <> [] /\ all isspace (gap2 x)
  /\ (of_text x = [] \/ exists ws, of_text x = ("of" : str) ++ ws /\ ws <> [] /\ all isspace ws)
  /\ ingredient x <> [] /\ all any_char (ingredient x)
  /\ (ending x = ("," : str)
      \/ ending x = [newline]
      \/ (ending x = [] /\ (rest = [] \/ rest = [newline]))).

End Anatomy.

(** ** The order in which a pattern is tried *)

Module ReOrder.

(** The text [s] is empty or starts with a character outside [p]. *)
Definition stops (p : ascii -> bool) (s : str) : Prop :=
  match s with
  | [] => True
  | c :: _ => p c = false
  end.

End ReOrder.

(** The characters of an ingredient that ends at the end of the line:
    any character but the line break and the comma. *)
Definition ingredient_char (c : ascii) : bool :=
  any_char c && negb (Ascii.eqb c ",").

(** What ends the ingredient: [(?:,|$|\n)]. *)
Definition pattern_ending : Re.regex :=
  Re.Alt (Re.Literal ",") (Re.Alt Re.Eol (Re.Literal [newline])).

Set Implicit Arguments.

(** * Properties *)

Unset Implicit Arguments.

(** ** The embedding on examples

    What the definitions above compute on a few inputs, to be compared
    with the interpreter. *)

Definition printed (s : str) : string := string_of_list_ascii s.

Example strip_example : printed (strip "  2 cups 	") = "2 cups".
Proof. reflexivity. Qed.

Example split_example :
  map printed (split "/" "1/2/") = ["1"; "2"; ""]
  /\ map printed (split1 " " "1 1/2 x") = ["1"; "1/2 x"]
  /\ map printed (split "/" "") = [""].
Proof. repeat split. Qed.

Example replace1_example :
  printed (replace1 "ab" "ab!" "xababab") = "xab!abab"
  /\ printed (replace1 "ab" "ab!" "xyz") = "xyz".
Proof. split; reflexivity. Qed.

Example float_example :
  PyFloat.float_of_str " 1.5 " = Ok 1.5%float
  /\ PyFloat.float_of_str "1_0" = Ok 10%float
  /\ PyFloat.float_of_str ".5" = Ok 0.5%float
  /\ PyFloat.float_of_str "1." = Ok 1%float
  /\ PyFloat.float_of_str "1e400" = Ok infinity
  /\ PyFloat.float_of_str "" = Raise ValueError
  /\ PyFloat.float_of_str "." = Raise ValueError
  /\ PyFloat.float_of_str "1/2" = Raise ValueError
  /\ PyFloat.float_of_str "1 2" = Raise ValueError.
Proof. repeat (split; [vm_compute; reflexivity |]). vm_compute. reflexivity. Qed.

Example repr_example :
  printed (PyFloat.repr (PyFloat.of_Q 0.1 + PyFloat.of_Q 0.2)) = "0.30000000000000004"
  /\ printed (PyFloat.repr 120) = "120.0"
  /\ printed (PyFloat.repr (PyFloat.of_Q 1e16)) = "1e+16"
  /\ printed (PyFloat.repr (PyFloat.of_Q 1e-5)) = "1e-05"
  /\ printed (PyFloat.repr (0 / 0)) = "nan".
Proof. repeat (split; [vm_compute; reflexivity |]). vm_compute. reflexivity. Qed.

(** [round] works on the binary value: 0.25 is a tie and goes to the even
    digit, 0.35 and 0.45 are not the decimals they print as. *)
Example round1_example :
  printed (PyFloat.repr (PyFloat.round1 (PyFloat.of_Q 0.25))) = "0.2"
  /\ printed (PyFloat.repr (PyFloat.round1 (PyFloat.of_Q 0.35))) = "0.3"
  /\ printed (PyFloat.repr (PyFloat.round1 (PyFloat.of_Q 0.45))) = "0.5"
  /\ printed (PyFloat.repr (PyFloat.round1 (PyFloat.of_Q 364.452))) = "364.5".
Proof. repeat (split; [vm_compute; reflexivity |]). vm_compute. reflexivity. Qed.

(** The two-word unit is tried first, and "of" is then part of it. *)
Example pattern_example :
  let groups (line : str) :=
    map (fun m => (printed (Re.group line m 1), printed (Re.group line m 2),
                   printed (Re.group line m 3), printed (Re.group0 line m)))
        (Re.finditer ingredient_pattern line) in
  groups "1 1/2 cups milk, 3/4 cup honey"
  = [("1 1/2", "cups", "milk", "1 1/2 cups milk,");
     (" 3/4", "cup", "honey", " 3/4 cup honey")]
  /\ groups "2 fluid ounces of water" = [("2", "fluid ounces", "water", "2 fluid ounces of water")]
  /\ groups "2 cups of water" = [("2", "cups of", "water", "2 cups of water")]
  /\ groups "Mix well." = [].
Proof. cbv zeta. repeat (split; [vm_compute; reflexivity |]). vm_compute. reflexivity. Qed.

Example annotate_example :
  printed (convert_recipe_to_grams "1 1/2 cups milk, 3/4 cup honey" 22%float)
  = "1 1/2 cups milk, (364.5g) 3/4 cup honey (256.5g)"
  /\ printed (convert_recipe_to_grams "3 each eggs" 22%float) = "3 each eggs (150.6g)"
  /\ printed (convert_recipe_to_grams "2 cups of water" 20%float) = "2 cups of water".
Proof. repeat (split; [vm_compute; reflexivity |]). vm_compute. reflexivity. Qed.

(** ** Strings and dictionaries *)

Lemma eqb_eq (s t : str) : PyStr.eqb s t = true <-> s = t.
Proof.
  unfold PyStr.eqb. destruct (list_eq_dec ascii_dec s t); split; congruence.
Qed.

Lemma eqb_refl (s : str) : PyStr.eqb s s = true.
Proof. now apply eqb_eq. Qed.

Lemma lookup_absent {V : Type} (key : str) (d : list (str * V)) :
  ~ In key (map fst d) -> lookup key d = None.
Proof.
  induction d as [| [k v] d IH]; cbn [lookup map fst In]; intros H.
  - reflexivity.
  - destruct (PyStr.eqb key k) eqn:E.
    + apply eqb_eq in E. subst. exfalso. auto.
    + apply IH. auto.
Qed.

Lemma lookup_present {V : Type} (key : str) (v : V) (d : list (str * V)) :
  lookup key d = Some v -> In (key, v) d.
Proof.
  induction d as [| [k w] d IH]; cbn [lookup In]; intros H.
  - discriminate.
  - destruct (PyStr.eqb key k) eqn:E.
    + apply eqb_eq in E. left. congruence.
    + right. auto.
Qed.

(** The keys of the ingredient table are distinct, lower-case and
    trimmed: looking up the name of an entry finds that entry. *)
Lemma ingredient_lookup (name : str) (e : ingredient_entry) :
  In (name, e) load_ingredients_db ->
  lookup (strip (lower name)) load_ingredients_db = Some e.
Proof.
  intros H. cbv [load_ingredients_db In] in H.
  repeat (destruct H as [H | H]; [injection H as <- <-; vm_compute; reflexivity |]).
  contradiction.
Qed.

(** ** Floats *)

Module FloatFacts.
Local Open Scope Z_scope.

Lemma digits2_pos_shift (m : positive) :
  Zpos (digits2_pos (4503599627370496 * m)) = Zpos (digits2_pos m) + 52.
Proof. cbn [Pos.mul digits2_pos]. lia. Qed.

(** Multiplying a binary64 number by one is exact: the product of the
    mantissas is shifted back by the 52 bits of the mantissa of one. *)
Lemma SFmul_one_r (x : spec_float) :
  valid_binary x = true ->
  SFmul prec emax x (S754_finite false 4503599627370496 (-52)) = x.
Proof.
  destruct x as [s | s | | s m e]; cbn [SFmul SpecFloat.valid_binary]; intros H;
    rewrite ?xorb_false_r; try reflexivity.
  unfold bounded, canonical_mantissa in H.
  apply andb_true_iff in H. destruct H as [Hc He].
  apply Z.eqb_eq in Hc.
  rewrite Pos.mul_comm.
  unfold binary_round_aux, shr_fexp.
  cbn [Zdigits2 shr_record_of_loc].
  rewrite digits2_pos_shift.
  replace (Zpos (digits2_pos m) + 52 + (e + -52)) with (Zpos (digits2_pos m) + e) by lia.
  rewrite Hc.
  replace (e - (e + -52)) with 52 by lia.
  cbn [shr iter_pos Pos.mul shr_1 orb shr_m loc_of_shr_record round_nearest_even].
  replace (e + -52 + 52) with e by lia.
  cbn [Zdigits2 shr_record_of_loc]. rewrite Hc, Z.sub_diag.
  cbn [shr shr_m].
  rewrite He. reflexivity.
Qed.

Lemma mul_one_r (x : float) : (x * 1)%float = x.
Proof.
  apply Prim2SF_inj. rewrite mul_spec.
  change (Prim2SF 1) with (S754_finite false 4503599627370496 (-52)).
  apply SFmul_one_r, Prim2SF_valid.
Qed.

End FloatFacts.

(** ** The gram converter *)

Lemma convert_unknown {num : Type} (A : arith num) (q : num) (unit ingredient : str) (T : num) :
  ~ In (strip (lower ingredient)) (map fst load_ingredients_db) ->
  convert_to_grams A q unit ingredient T = None.
Proof.
  intros H. unfold convert_to_grams. now rewrite (lookup_absent _ _ H).
Qed.

(** C1. For every entry of the ingredient table and every quantity [q]
    (positive or not), the converter called with the unit ["cup"] at
    temperature 20 returns [q] times the density of the entry, as a
    binary64 product; one cup of all-purpose flour weighs 120. *)
Theorem cup_at_baseline :
  (forall (name : str) (e : ingredient_entry) (q : float),
      In (name, e) load_ingredients_db ->
      convert_to_grams binary64 q "cup" name 20%float
      = Some (q * PyFloat.of_Q (density e))%float)
  /\ convert_to_grams binary64 1%float "cup" "all-purpose flour" 20%float = Some 120%float.
Proof.
  split; [| vm_compute; reflexivity].
  intros name e q H. cbv [load_ingredients_db In] in H.
  repeat (destruct H as [H | H];
          [injection H as <- <-; vm_compute; now rewrite FloatFacts.mul_one_r |]).
  contradiction.
Qed.

(** C1 at two and a half cups of butter. *)
Lemma cup_at_baseline_witness :
  In ("butter" : str, volume 227 0.05) load_ingredients_db
  /\ convert_to_grams binary64 2.5%float "cup" "butter" 20%float
     = Some (2.5 * PyFloat.of_Q 227)%float.
Proof.
  split.
  - cbv [load_ingredients_db In]. do 7 right. left. reflexivity.
  - apply (proj1 cup_at_baseline ("butter" : str) (volume 227 0.05) 2.5%float).
    cbv [load_ingredients_db In]. do 7 right. left. reflexivity.
Defined.

(** C5. An ingredient whose trimmed, lower-case name is not a key of the
    ingredient table is not convertible, whatever the quantity, the unit
    and the temperature: the converter returns [None], and it is a total
    function, so that nothing is raised.  In particular one cup of
    unobtainium at 20 degrees is not convertible. *)
Theorem unknown_ingredient_not_convertible :
  (forall (q : float) (unit ingredient : str) (T : float),
      ~ In (strip (lower ingredient)) (map fst load_ingredients_db) ->
      convert_to_grams binary64 q unit ingredient T = None)
  /\ convert_to_grams binary64 1%float "cup" "unobtainium" 20%float = None.
Proof.
  split; [| vm_compute; reflexivity].
  intros q unit ingredient T H. now apply convert_unknown.
Qed.

(** Membership in a table of strings, decided by evaluation. *)
Ltac absent_key :=
  let H := fresh in
  intros H; cbv in H;
  repeat (destruct H as [H | H]; [discriminate H |]); exact H.

(** C5 at three kilograms of unobtainium, written with capitals and spaces. *)
Lemma unknown_ingredient_not_convertible_witness :
  ~ In (strip (lower " Unobtainium ")) (map fst load_ingredients_db)
  /\ convert_to_grams binary64 3%float "kg" " Unobtainium " 25%float = None.
Proof.
  split.
  - absent_key.
  - apply (proj1 unknown_ingredient_not_convertible). absent_key.
Defined.

(** C10. The ingredient is looked up before the unit is examined: for an
    ingredient that is not in the table, a quantity in grams is not
    converted either, and [None] is returned rather than the quantity. *)
Theorem unknown_ingredient_blocks_grams (q : float) (ingredient : str) (T : float) :
  ~ In (strip (lower ingredient)) (map fst load_ingredients_db) ->
  convert_to_grams binary64 q "g" ingredient T = None
  /\ convert_to_grams binary64 q "g" ingredient T <> Some q.
Proof.
  intros H. rewrite (convert_unknown binary64 q "g" ingredient T H).
  split; [reflexivity | discriminate].
Qed.

(** C10 at five grams of unobtainium. *)
Lemma unknown_ingredient_blocks_grams_witness :
  ~ In (strip (lower "unobtainium")) (map fst load_ingredients_db)
  /\ convert_to_grams binary64 5%float "g" "unobtainium" 20%float = None
  /\ convert_to_grams binary64 5%float "g" "unobtainium" 20%float <> Some 5%float.
Proof.
  split.
  - absent_key.
  - apply (unknown_ingredient_blocks_grams 5%float "unobtainium" 20%float). absent_key.
Defined.

(** The converter on a known ingredient, once the names are normalised. *)
Lemma convert_known {num : Type} (A : arith num) (q : num) (unit name : str) (T : num)
      (e : ingredient_entry) :
  In (name, e) load_ingredients_db ->
  convert_to_grams A q unit name T =
  let u := strip (lower unit) in
  if match special_unit e with
     | Some su => PyStr.eqb u su || PyStr.eqb u (su ++ ("s" : str))
     | None => false
     end
  then Some (mul A q (adjusted_density A e T))
  else
    match lookup u get_conversion_factors with
    | Some factor => Some (mul A (mul A q (literal A factor)) (adjusted_density A e T))
    | None =>
        if mem u ["gram" : str; "g" : str; "grams" : str] then Some q
        else if mem u ["kilogram" : str; "kg" : str; "kilograms" : str] then
          Some (mul A q (literal A 1000))
        else if mem u ["ounce" : str; "oz" : str; "ounces" : str] then
          Some (mul A q (literal A 28.35))
        else if mem u ["pound" : str; "lb" : str; "pounds" : str] then
          Some (mul A q (literal A 453.59))
        else None
    end.
Proof.
  intros H. unfold convert_to_grams. now rewrite (ingredient_lookup _ _ H).
Qed.

(** C6. For an ingredient with a counted unit, a quantity given in that
    unit, or in that unit followed by "s", is multiplied by the adjusted
    density directly, at every temperature; this comes before the reading
    of the unit as a volume: "teaspoon" is a key of the volume table, and
    two teaspoons of vanilla extract still weigh 2 * 4.2. *)
Theorem counted_unit_first :
  (forall (name : str) (e : ingredient_entry) (su unit : str) (q T : float),
      In (name, e) load_ingredients_db ->
      special_unit e = Some su ->
      strip (lower unit) = su \/ strip (lower unit) = su ++ ("s" : str) ->
      convert_to_grams binary64 q unit name T
      = Some (q * (PyFloat.of_Q (density e)
                   * (1 + PyFloat.of_Q (temp_factor e) * (T - 20) / 10)))%float)
  /\ lookup "teaspoon" get_conversion_factors = Some 0.0208333%Q
  /\ convert_to_grams binary64 2%float "teaspoon" "vanilla extract" 20%float
     = Some (2 * PyFloat.of_Q 4.2)%float.
Proof.
  split; [| split; vm_compute; reflexivity].
  intros name e su unit q T Hin Hsu Hunit.
  rewrite (convert_known binary64 q unit name T e Hin). cbv zeta.
  rewrite Hsu.
  replace (PyStr.eqb _ su || PyStr.eqb _ (su ++ ("s" : str))) with true.
  - reflexivity.
  - symmetry. apply orb_true_iff.
    destruct Hunit as [-> | ->]; [left | right]; apply eqb_refl.
Qed.

(** C6 at three eggs, counted in "Eachs", at 25 degrees. *)
Lemma counted_unit_first_witness :
  In ("eggs" : str, counted 50 0.02 "each") load_ingredients_db
  /\ special_unit (counted 50 0.02 "each") = Some ("each" : str)
  /\ (strip (lower " Eachs ") = ("each" : str)
      \/ strip (lower " Eachs ") = ("each" : str) ++ ("s" : str))
  /\ convert_to_grams binary64 3%float " Eachs " "eggs" 25%float
     = Some (3 * (PyFloat.of_Q 50 * (1 + PyFloat.of_Q 0.02 * (25 - 20) / 10)))%float.
Proof.
  assert (Hin : In ("eggs" : str, counted 50 0.02 "each") load_ingredients_db).
  { cbv [load_ingredients_db In]. do 21 right. left. reflexivity. }
  split; [exact Hin | split; [reflexivity | split]].
  - right. vm_compute. reflexivity.
  - apply (proj1 counted_unit_first ("eggs" : str) (counted 50 0.02 "each")
                 ("each" : str) (" Eachs " : str) 3%float 25%float Hin eq_refl).
    right. vm_compute. reflexivity.
Defined.

(** C7. For a known ingredient and a unit of mass the result is the
    quantity itself for grams, and the quantity times 1000, 28.35 or
    453.59 for kilograms, ounces and pounds; neither the temperature nor
    the density of the ingredient occurs in it. *)
Theorem mass_units_fixed (name : str) (e : ingredient_entry) (q T : float) (unit : str) :
  In (name, e) load_ingredients_db ->
  (In (strip (lower unit)) ["g" : str; "gram" : str; "grams" : str] ->
   convert_to_grams binary64 q unit name T = Some q)
  /\ (In (strip (lower unit)) ["kg" : str; "kilogram" : str; "kilograms" : str] ->
      convert_to_grams binary64 q unit name T = Some (q * 1000)%float)
  /\ (In (strip (lower unit)) ["oz" : str; "ounce" : str; "ounces" : str] ->
      convert_to_grams binary64 q unit name T = Some (q * PyFloat.of_Q 28.35)%float)
  /\ (In (strip (lower unit)) ["lb" : str; "pound" : str; "pounds" : str] ->
      convert_to_grams binary64 q unit name T = Some (q * PyFloat.of_Q 453.59)%float).
Proof.
  intros Hin. rewrite (convert_known binary64 q unit name T e Hin). cbv zeta.
  cbv [load_ingredients_db In] in Hin.
  repeat (destruct Hin as [Hin | Hin];
          [injection Hin as <- <-;
           repeat split; intros Hu; cbv [In] in Hu;
           repeat (destruct Hu as [Hu | Hu]; [rewrite <- Hu; vm_compute; reflexivity |]);
           contradiction |]).
  contradiction.
Qed.

(** C7 at two ounces of salt at 31 degrees. *)
Lemma mass_units_fixed_witness :
  In ("salt" : str, volume 288 0.001) load_ingredients_db
  /\ In (strip (lower " OZ")) ["oz" : str; "ounce" : str; "ounces" : str]
  /\ convert_to_grams binary64 2%float " OZ" "salt" 31%float
     = Some (2 * PyFloat.of_Q 28.35)%float.
Proof.
  assert (Hin : In ("salt" : str, volume 288 0.001) load_ingredients_db).
  { cbv [load_ingredients_db In]. do 12 right. left. reflexivity. }
  assert (Hu : In (strip (lower " OZ")) ["oz" : str; "ounce" : str; "ounces" : str]).
  { left. vm_compute. reflexivity. }
  split; [exact Hin | split; [exact Hu |]].
  exact (proj1 (proj2 (proj2 (mass_units_fixed ("salt" : str) (volume 288 0.001)
                                               2%float 31%float (" OZ" : str) Hin))) Hu).
Defined.

(** *** Temperature *)





(** ** The quantity parser *)

Lemma contains_app (c : ascii) (a b : str) :
  contains c (a ++ b) = contains c a || contains c b.
Proof. apply existsb_app. Qed.

Lemma contains_cons (c d : ascii) (s : str) :
  contains c (d :: s) = Ascii.eqb c d || contains c s.
Proof. reflexivity. Qed.

Lemma contains_cons_same (c : ascii) (s : str) : contains c (c :: s) = true.
Proof. cbn [contains existsb]. now rewrite Ascii.eqb_refl. Qed.

Lemma contains_false_cons (sep c : ascii) (s : str) :
  contains sep (c :: s) = false -> Ascii.eqb c sep = false /\ contains sep s = false.
Proof.
  cbn [contains existsb]. rewrite Ascii.eqb_sym. intros H.
  now apply orb_false_iff in H.
Qed.

Lemma split_absent (sep : ascii) (a : str) :
  contains sep a = false -> split sep a = [a].
Proof.
  induction a as [| c a IH]; intros H; cbn [split].
  - reflexivity.
  - apply contains_false_cons in H. destruct H as [-> H]. now rewrite (IH H).
Qed.

Lemma split_at (sep : ascii) (a r : str) :
  contains sep a = false -> split sep (a ++ sep :: r) = a :: split sep r.
Proof.
  induction a as [| c a IH]; intros H; cbn [split app].
  - now rewrite Ascii.eqb_refl.
  - apply contains_false_cons in H. destruct H as [-> H]. now rewrite (IH H).
Qed.

Lemma split1_at (sep : ascii) (a r : str) :
  contains sep a = false -> split1 sep (a ++ sep :: r) = [a; r].
Proof.
  induction a as [| c a IH]; intros H; cbn [split1 app].
  - now rewrite Ascii.eqb_refl.
  - apply contains_false_cons in H. destruct H as [-> H]. now rewrite (IH H).
Qed.

(** C4. The parser maps "1 1/2" to 1.5, "3/4" to 0.75 and "2" to 2.0, and
    raises on "1/0".  A mixed number [a b/c], where [a], [b] and [c] are
    read by [float] as [wa], [nb] and [dc], parses to [wa + nb / dc], and a
    plain fraction [a/b] to [na / db]; both raise [ZeroDivisionError] when
    the denominator is zero. *)
Theorem quantity_parser :
  parse_quantity "1 1/2" = Ok 1.5%float
  /\ parse_quantity "3/4" = Ok 0.75%float
  /\ parse_quantity "2" = Ok 2%float
  /\ parse_quantity "1/0" = Raise ZeroDivisionError
  /\ (forall (a b c : str) (wa nb dc : float),
         contains " " a = false -> contains "/" b = false -> contains "/" c = false ->
         PyFloat.float_of_str a = Ok wa ->
         PyFloat.float_of_str b = Ok nb ->
         PyFloat.float_of_str c = Ok dc ->
         parse_quantity (a ++ (" " : str) ++ b ++ ("/" : str) ++ c)
         = if PrimFloat.eqb dc 0 then Raise ZeroDivisionError
           else Ok (wa + nb / dc)%float)
  /\ (forall (a b : str) (na db : float),
         contains " " a = false -> contains " " b = false ->
         contains "/" a = false -> contains "/" b = false ->
         PyFloat.float_of_str a = Ok na ->
         PyFloat.float_of_str b = Ok db ->
         parse_quantity (a ++ ("/" : str) ++ b)
         = if PrimFloat.eqb db 0 then Raise ZeroDivisionError
           else Ok (na / db)%float).
Proof.
  do 4 (split; [vm_compute; reflexivity |]).
  split.
  - intros a b c wa nb dc Ha Hb Hc Fa Fb Fc. unfold parse_quantity.
    change ((" " : str) ++ b ++ ("/" : str) ++ c) with (" "%char :: b ++ "/"%char :: c).
    replace (contains "/" (a ++ " "%char :: b ++ "/"%char :: c)) with true.
    2:{ rewrite contains_app. change (" "%char :: b ++ "/"%char :: c)
          with ((" "%char :: b) ++ "/"%char :: c).
        rewrite contains_app, contains_cons_same. now rewrite !orb_true_r. }
    replace (contains " " (a ++ " "%char :: b ++ "/"%char :: c)) with true.
    2:{ rewrite contains_app, contains_cons_same. now rewrite orb_true_r. }
    rewrite (split1_at _ _ _ Ha), (split_at _ _ _ Hb), (split_absent _ _ Hc).
    rewrite Fa, Fb, Fc. cbn [bind]. unfold PyFloat.truediv.
    change PrimFloat.zero with 0%float.
    now destruct (PrimFloat.eqb dc 0).
  - intros a b na db Ha Hb Ha' Hb' Fa Fb. unfold parse_quantity.
    change (("/" : str) ++ b) with ("/"%char :: b).
    replace (contains "/" (a ++ "/"%char :: b)) with true.
    2:{ rewrite contains_app, contains_cons_same. now rewrite orb_true_r. }
    replace (contains " " (a ++ "/"%char :: b)) with false.
    2:{ rewrite contains_app, contains_cons, Ha, Hb. reflexivity. }
    rewrite (split_at _ _ _ Ha'), (split_absent _ _ Hb').
    rewrite Fa, Fb. cbn [bind]. reflexivity.
Qed.

(** C4 at the mixed number "2 5/8". *)
Lemma quantity_parser_witness :
  contains " " "2" = false /\ contains "/" "5" = false /\ contains "/" "8" = false
  /\ PyFloat.float_of_str "2" = Ok 2%float
  /\ PyFloat.float_of_str "5" = Ok 5%float
  /\ PyFloat.float_of_str "8" = Ok 8%float
  /\ parse_quantity "2 5/8" = Ok 2.625%float.
Proof.
  do 6 (split; [vm_compute; reflexivity |]).
  exact (proj1 (proj2 (proj2 (proj2 (proj2 quantity_parser))))
               ("2" : str) ("5" : str) ("8" : str) 2%float 5%float 8%float
               eq_refl eq_refl eq_refl eq_refl eq_refl eq_refl).
Defined.

(** ** The regular expression engine *)

Module ReFacts.
Import Re ReShape.


Section Inversion.
Context {R : Type}.


Lemma repeat_greedy_inv (p : ascii -> bool) (s : str) :
  forall (pos : nat) (k : nat -> str -> option R) (x : R),
    repeat_greedy p pos s k = Some x ->
    exists n, 1 <= n /\ n <= List.length s /\ k (pos + n) (skipn n s) = Some x.
Proof.
  induction s as [| c s IH]; intros pos k x; cbn [repeat_greedy].
  - discriminate.
  - destruct (p c); [| discriminate].
    destruct (repeat_greedy p (S pos) s k) as [y |] eqn:E.
    + intros [= ->]. destruct (IH _ _ _ E) as (n & H1 & H2 & H3).
      exists (S n). cbn [List.length skipn].
      rewrite Nat.add_succ_r. auto with arith.
    + intros H. exists 1. cbn [List.length skipn].
      rewrite Nat.add_1_r. auto with arith.
Qed.

Lemma repeat_lazy_inv (p : ascii -> bool) (s : str) :
  forall (pos : nat) (k : nat -> str -> option R) (x : R),
    repeat_lazy p pos s k = Some x ->
    exists n, 1 <= n /\ n <= List.length s /\ k (pos + n) (skipn n s) = Some x.
Proof.
  induction s as [| c s IH]; intros pos k x; cbn [repeat_lazy].
  - discriminate.
  - destruct (p c); [| discriminate].
    destruct (k (S pos) s) as [y |] eqn:E.
    + intros [= ->]. exists 1. cbn [List.length skipn].
      rewrite Nat.add_1_r. auto with arith.
    + intros H. destruct (IH _ _ _ H) as (n & H1 & H2 & H3).
      exists (S n). cbn [List.length skipn].
      rewrite Nat.add_succ_r. auto with arith.
Qed.

Lemma groupless_mandatory (r : regex) :
  groupless r = true -> groups_mandatory r = true /\ closing_order r = [].
Proof.
  induction r as [| | r1 IH1 r2 IH2 | | |  |];
    cbn [groupless groups_mandatory closing_order]; intros H;
    try discriminate; auto.
  apply andb_true_iff in H. destruct H as [H1 H2].
  destruct (IH1 H1) as [-> ->]. destruct (IH2 H2) as [-> ->]. auto.
Qed.

(** What a successful run tells: the continuation succeeded after [n]
    characters, with the groups of [r] recorded on top of [g]. *)
Lemma run_inv (r : regex) :
  forall (pos : nat) (s : str) (g : spans) (k : nat -> str -> spans -> option R) (x : R),
    run r pos s g k = Some x ->
    exists (n : nat) (g' : spans),
      (nonempty r = true -> 1 <= n)
      /\ n <= List.length s
      /\ (groups_mandatory r = true -> map fst g' = closing_order r ++ map fst g)
      /\ k (pos + n) (skipn n s) g' = Some x.
Proof.
  induction r as [greedy p | l | r1 IH1 r2 IH2 | r1 IH1 r2 IH2 | r IH | i r IH |];
    intros pos s g k x; cbn [run nonempty groups_mandatory closing_order].
  - intros H.
    assert (exists n, 1 <= n /\ n <= List.length s
                      /\ k (pos + n) (skipn n s) g = Some x) as (n & H1 & H2 & H3).
    { destruct greedy;
        [apply repeat_greedy_inv in H | apply repeat_lazy_inv in H]; exact H. }
    exists n, g. auto.
  - destruct (startswith l s) eqn:E; [| discriminate]. intros H.
    exists (List.length l), g. split; [| split; [| split]]; auto.
    + destruct l; cbn; [discriminate | auto with arith].
    + clear H. revert s E. induction l as [| a l IHl]; intros [| c s]; cbn;
        try discriminate; auto with arith.
      intros E. apply andb_true_iff in E. destruct E as [_ E].
      apply IHl in E. auto with arith.
  - intros H. apply IH1 in H. destruct H as (n1 & g1 & N1 & L1 & G1 & H).
    apply IH2 in H. destruct H as (n2 & g2 & N2 & L2 & G2 & H).
    exists (n1 + n2), g2. rewrite length_skipn in L2.
    split; [| split; [| split]].
    + intros E. apply orb_true_iff in E.
      destruct E as [E | E]; [apply N1 in E | apply N2 in E]; lia.
    + lia.
    + intros E. apply andb_true_iff in E. destruct E as [E1 E2].
      rewrite (G2 E2), (G1 E1). now rewrite app_assoc.
    + rewrite skipn_skipn in H. now rewrite Nat.add_assoc, (Nat.add_comm n1 n2).
  - intros H.
    assert (exists r', (r' = r1 \/ r' = r2) /\ run r' pos s g k = Some x) as (r' & Hr & H').
    { destruct (run r1 pos s g k) eqn:E; [exists r1 | exists r2];
        (split; [auto | congruence]). }
    assert (exists n g',
               (nonempty r' = true -> 1 <= n) /\ n <= List.length s
               /\ (groups_mandatory r' = true -> map fst g' = closing_order r' ++ map fst g)
               /\ k (pos + n) (skipn n s) g' = Some x) as (n & g' & N & L & G & K).
    { destruct Hr as [-> | ->]; [apply IH1 | apply IH2]; exact H'. }
    exists n, g'. split; [| split; [| split]]; auto.
    + intros E. apply andb_true_iff in E. destruct E. destruct Hr as [-> | ->]; auto.
    + intros E. apply andb_true_iff in E. destruct E as [E1 E2].
      apply groupless_mandatory in E1, E2.
      destruct E1 as [M1 C1]. destruct E2 as [M2 C2].
      destruct Hr as [-> | ->]; [rewrite (G M1), C1 | rewrite (G M2), C2]; reflexivity.
  - intros H. destruct (run r pos s g k) eqn:E.
    + injection H as ->. apply IH in E. destruct E as (n & g' & N & L & G & K).
      exists n, g'. split; [| split; [| split]]; auto; [discriminate |].
      intros E. apply groupless_mandatory in E. destruct E as [E1 E2].
      rewrite (G E1), E2. reflexivity.
    + exists 0, g. rewrite Nat.add_0_r. cbn [skipn].
      split; [| split; [| split]]; auto with arith. discriminate.
  - intros H. apply IH in H. destruct H as (n & g' & N & L & G & K).
    exists n, ((i, (pos, pos + n)) :: g'). split; [| split; [| split]]; auto.
    intros E. cbn [map fst]. now rewrite (G E).
  - intros H. exists 0, g. rewrite Nat.add_0_r. cbn [skipn].
    split; [| split; [| split]]; auto with arith; [discriminate |].
    destruct s as [| c [| c' s]]; auto; [| discriminate].
    destruct (Ascii.eqb c newline); [auto | discriminate].
Qed.
End Inversion.

Lemma match_at_inv (r : regex) (pos : nat) (s : str) (m : match_object) (rest : str) :
  match_at r pos s = Some (m, rest) ->
  exists n,
    (nonempty r = true -> 1 <= n) /\ n <= List.length s
    /\ (groups_mandatory r = true -> map fst (m_spans m) = closing_order r)
    /\ m_start m = pos /\ m_end m = pos + n /\ rest = skipn n s.
Proof.
  unfold match_at. intros H. apply run_inv in H.
  destruct H as (n & g' & N & L & G & [= <- <-]).
  exists n. cbn [m_start m_end m_spans map] in *.
  rewrite app_nil_r in G. auto 10.
Qed.

Lemma search_inv (r : regex) (s : str) :
  forall (pos : nat) (m : match_object) (rest : str),
    search r pos s = Some (m, rest) ->
    exists d n,
      (nonempty r = true -> 1 <= n) /\ d + n <= List.length s
      /\ (groups_mandatory r = true -> map fst (m_spans m) = closing_order r)
      /\ m_start m = pos + d /\ m_end m = pos + d + n /\ rest = skipn (d + n) s.
Proof.
  induction s as [| c s IH]; intros pos m rest; cbn [search].
  - destruct (match_at r pos []) as [[m' rest'] |] eqn:E; [| discriminate].
    intros [= -> ->]. apply match_at_inv in E.
    destruct E as (n & N & L & G & St & E' & K).
    exists 0, n. rewrite Nat.add_0_r. cbn [Nat.add]. auto 10.
  - destruct (match_at r pos (c :: s)) as [[m' rest'] |] eqn:E.
    + intros [= -> ->]. apply match_at_inv in E.
      destruct E as (n & N & L & G & St & E' & K).
      exists 0, n. rewrite Nat.add_0_r. cbn [Nat.add]. auto 10.
    + intros H. apply IH in H. destruct H as (d & n & N & L & G & St & E' & K).
      exists (S d), n. cbn [List.length Nat.add skipn].
      rewrite <- !Nat.add_succ_comm. split; [auto |]. split; [lia | auto 10].
Qed.

(** The fuel of [finditer] is never what ends the iteration of a regular
    expression that cannot match the empty text. *)
Lemma finditer_from_fuel (r : regex) :
  nonempty r = true ->
  forall (fuel fuel' : nat) (pos : nat) (s : str),
    List.length s < fuel -> List.length s < fuel' ->
    finditer_from fuel r pos s = finditer_from fuel' r pos s.
Proof.
  intros Hr. induction fuel as [| fuel IH]; intros fuel' pos s H H'; [lia |].
  destruct fuel' as [| fuel']; [lia |]. cbn [finditer_from].
  destruct (search r pos s) as [[m rest] |] eqn:E; [| reflexivity].
  apply search_inv in E. destruct E as (d & n & N & L & _ & _ & _ & ->).
  specialize (N Hr). f_equal. apply IH; rewrite length_skipn; lia.
Qed.

Lemma finditer_from_groups (r : regex) :
  groups_mandatory r = true ->
  forall (fuel : nat) (pos : nat) (s : str) (m : match_object),
    In m (finditer_from fuel r pos s) -> map fst (m_spans m) = closing_order r.
Proof.
  intros Hr. induction fuel as [| fuel IH]; intros pos s m; cbn [finditer_from].
  - contradiction.
  - destruct (search r pos s) as [[m' rest] |] eqn:E; [| contradiction].
    intros [<- | H].
    + apply search_inv in E. destruct E as (d & n & _ & _ & G & _). auto.
    + eapply IH, H.
Qed.

End ReFacts.

(** Every match of the ingredient pattern consumes text, and its three
    groups have all taken part in it. *)
Lemma ingredient_pattern_fuel (line : str) (fuel : nat) :
  List.length line < fuel ->
  Re.finditer_from fuel ingredient_pattern 0 line = Re.finditer ingredient_pattern line.
Proof.
  intros H. apply ReFacts.finditer_from_fuel; [reflexivity | exact H | auto with arith].
Qed.

Lemma ingredient_pattern_groups (line : str) (m : Re.match_object) :
  In m (Re.finditer ingredient_pattern line) ->
  exists a b c : nat * nat, Re.m_spans m = [(3, c); (2, b); (1, a)].
Proof.
  intros H. apply ReFacts.finditer_from_groups in H; [| reflexivity].
  cbn in H. destruct (Re.m_spans m) as [| [i3 c] [| [i2 b] [| [i1 a] [| x l]]]];
    try discriminate H.
  injection H as -> -> ->. eauto.
Qed.

(** ** The line annotator *)


(** *** One match *)


Lemma annotate_match_ok (T : float) (line acc : str) (m : Re.match_object) (q g : float) :
  parse_quantity (strip (Re.group line m 1)) = Ok q ->
  convert_to_grams binary64 q (Re.group line m 2) (Re.group line m 3) T = Some g ->
  annotate_match T line acc m
  = replace1 (Re.group0 line m)
             (Re.group0 line m ++ annotation (PyFloat.round1 g)) acc.
Proof.
  intros Hq Hg. unfold annotate_match, try_annotate. rewrite Hq. cbn [bind].
  now rewrite Hg.
Qed.

Lemma replace1_first (old new pre post : str) :
  (forall i, i < List.length pre -> startswith old (skipn i (pre ++ old ++ post)) = false) ->
  replace1 old new (pre ++ old ++ post) = pre ++ new ++ post.
Proof.
  assert (here : forall s, startswith old (old ++ s) = true).
  { induction old as [| c old IH]; intros s; cbn [startswith app].
    - reflexivity.
    - now rewrite Ascii.eqb_refl, IH. }
  induction pre as [| c pre IH]; intros H.
  - cbn [app]. destruct old as [| c old].
    + destruct post; reflexivity.
    + assert (E := here post). cbn [app] in E. cbn [replace1 app]. rewrite E.
      cbn [List.length skipn]. now rewrite skipn_app, skipn_all, Nat.sub_diag.
  - assert (E := H 0 (Nat.lt_0_succ _)). cbn [skipn app] in E.
    cbn [app replace1]. rewrite E. f_equal. apply IH.
    intros i Hi. apply (H (S i)). cbn [List.length]. auto with arith.
Qed.



(** The first-occurrence rule at work (section 9 of the specification
    leaves it open): the text of a later match can occur earlier in the
    line, and its annotation is then placed there. *)
Example first_occurrence_example :
  printed (convert_recipe_to_grams "2 cups milk,2 cups milk" 20%float)
  = "2 cups milk (484.0g), (484.0g)2 cups milk"
  /\ printed (convert_recipe_to_grams "1/ 0 cup milk, 0 cup milk" 20%float)
     = "1/ 0 cup milk (0.0g), 0 cup milk".
Proof. split; vm_compute; reflexivity. Qed.

(** C2, as stated, fails: the text of a match runs up to and including the
    comma that ends it, so that the annotation comes after the comma. *)
Lemma annotation_comes_after_the_comma :
  convert_recipe_to_grams "1 cup all-purpose flour, sifted" 20%float
  = ("1 cup all-purpose flour, (120.0g) sifted" : str)
  /\ occurs "1 cup all-purpose flour (120.0g), sifted"
            (convert_recipe_to_grams "1 cup all-purpose flour, sifted" 20%float)
     = false.
Proof. split; vm_compute; reflexivity. Qed.

(** C2, amended.  Annotating "1 cup all-purpose flour, sifted" at 20
    degrees yields "1 cup all-purpose flour, (120.0g) sifted": the text of
    the match is "1 cup all-purpose flour," with its comma.  For a match
    that converts to [g] grams, the first occurrence of the text of the
    match in the line under construction, and only that one, is replaced
    by the same text followed by " (", [g] rounded to one decimal place,
    and "g)". *)
Theorem annotation_follows_matched_text :
  convert_recipe_to_grams "1 cup all-purpose flour, sifted" 20%float
  = ("1 cup all-purpose flour, (120.0g) sifted" : str)
  /\ map (Re.group0 "1 cup all-purpose flour, sifted")
         (Re.finditer ingredient_pattern "1 cup all-purpose flour, sifted")
     = [("1 cup all-purpose flour," : str)]
  /\ (forall (T : float) (line acc : str) (m : Re.match_object) (q g : float),
         parse_quantity (strip (Re.group line m 1)) = Ok q ->
         convert_to_grams binary64 q (Re.group line m 2) (Re.group line m 3) T = Some g ->
         annotate_match T line acc m
         = replace1 (Re.group0 line m)
                    (Re.group0 line m ++ (" (" : str)
                     ++ PyFloat.repr (PyFloat.round1 g) ++ ("g)" : str))
                    acc)
  /\ (forall old new pre post : str,
         (forall i, i < List.length pre ->
                    startswith old (skipn i (pre ++ old ++ post)) = false) ->
         replace1 old new (pre ++ old ++ post) = pre ++ new ++ post).
Proof.
  split; [vm_compute; reflexivity |].
  split; [vm_compute; reflexivity |].
  split.
  - intros T line acc m q g. apply annotate_match_ok.
  - apply replace1_first.
Qed.

(** C2, amended, at a match without a comma, and at a text in which the
    replaced text occurs twice. *)
Lemma annotation_follows_matched_text_witness :
  let line : str := "3/4 cup honey" in
  let m := Re.Match 0 13 [(3, (8, 13)); (2, (4, 7)); (1, (0, 3))] in
  (parse_quantity (strip (Re.group line m 1)) = Ok 0.75%float
   /\ convert_to_grams binary64 0.75%float (Re.group line m 2) (Re.group line m 3) 20%float
      = Some 255%float
   /\ annotate_match 20%float line line m
      = replace1 line (line ++ (" (" : str) ++ PyFloat.repr (PyFloat.round1 255)
                            ++ ("g)" : str)) line)
  /\ (forall i, i < List.length ("x" : str) ->
                startswith "ab" (skipn i (("x" : str) ++ ("ab" : str) ++ ("ab" : str))) = false)
  /\ replace1 "ab" "ab!" "xabab" = ("xab!ab" : str).
Proof.
  cbv zeta.
  assert (H : forall i, i < List.length ("x" : str) ->
                        startswith "ab" (skipn i (("x" : str) ++ ("ab" : str) ++ ("ab" : str)))
                        = false).
  { intros [| i] Hi; [reflexivity | cbn in Hi; lia]. }
  split; [split; [vm_compute; reflexivity | split; [vm_compute; reflexivity |]] | split].
  - apply (proj1 (proj2 (proj2 annotation_follows_matched_text))
                 20%float ("3/4 cup honey" : str) ("3/4 cup honey" : str)
                 (Re.Match 0 13 [(3, (8, 13)); (2, (4, 7)); (1, (0, 3))])
                 0.75%float 255%float);
      vm_compute; reflexivity.
  - exact H.
  - exact (proj2 (proj2 (proj2 annotation_follows_matched_text))
                 ("ab" : str) ("ab!" : str) ("x" : str) ("ab" : str) H).
Defined.

(** *** Lines *)

Lemma split_pieces (sep : ascii) (s : str) :
  forall piece, In piece (split sep s) -> ~ In sep piece.
Proof.
  induction s as [| c s IH]; cbn [split]; intros piece.
  - intros [<- | []]. auto.
  - destruct (Ascii.eqb c sep) eqn:E.
    + intros [<- | H]; auto.
    + destruct (split sep s) as [| first pieces].
      * intros [<- | []]. intros [-> | []]. now rewrite Ascii.eqb_refl in E.
      * intros [<- | H].
        -- intros [-> | H]; [now rewrite Ascii.eqb_refl in E |].
           now apply (IH first (or_introl eq_refl)).
        -- apply IH. now right.
Qed.

Lemma split_not_nil (sep : ascii) (s : str) : split sep s <> [].
Proof.
  destruct s as [| c s]; cbn [split]; [discriminate |].
  destruct (Ascii.eqb c sep); [discriminate |].
  destruct (split sep s); discriminate.
Qed.

Lemma split_cons_piece (sep : ascii) (piece s : str) (pieces : list str) :
  ~ In sep piece -> split sep s = [] :: pieces ->
  split sep (piece ++ s) = piece :: pieces.
Proof.
  induction piece as [| c piece IH]; intros H E; cbn [app split].
  - exact E.
  - destruct (Ascii.eqb c sep) eqn:Ec.
    + apply Ascii.eqb_eq in Ec. subst. exfalso. apply H. now left.
    + rewrite IH; auto. intros Hin. apply H. now right.
Qed.

(** Splitting what was joined gives the pieces back, when no piece
    contains the separator. *)
Lemma split_join (sep : ascii) (pieces : list str) :
  pieces <> [] ->
  (forall piece, In piece pieces -> ~ In sep piece) ->
  split sep (join [sep] pieces) = pieces.
Proof.
  induction pieces as [| piece rest IH]; intros Hne H; [contradiction |].
  destruct rest as [| next rest].
  - cbn [join]. rewrite <- (app_nil_r piece) at 1.
    apply split_cons_piece; [apply H; now left | reflexivity].
  - change (join [sep] (piece :: next :: rest))
      with (piece ++ sep :: join [sep] (next :: rest)).
    apply split_cons_piece; [apply H; now left |].
    cbn [split]. rewrite Ascii.eqb_refl. f_equal.
    apply IH; [discriminate |]. intros p Hp. apply H. now right.
Qed.

Lemma in_slice (c : ascii) (i j : nat) (s : str) : In c (slice i j s) -> In c s.
Proof.
  unfold slice. intros H.
  rewrite <- (firstn_skipn i s). apply in_or_app. right.
  rewrite <- (firstn_skipn (j - i) (skipn i s)). apply in_or_app. now left.
Qed.

Lemma in_replace1 (c : ascii) (old new s : str) :
  In c (replace1 old new s) -> In c new \/ In c s.
Proof.
  induction s as [| d s IH]; cbn [replace1].
  - destruct (startswith old []); [| contradiction].
    rewrite in_app_iff. intros [H | H]; [now left |].
    destruct (List.length old); contradiction.
  - destruct (startswith old (d :: s)).
    + rewrite in_app_iff. intros [H | H]; [now left |]. right.
      rewrite <- (firstn_skipn (List.length old) (d :: s)). apply in_or_app. now right.
    + intros [<- | H]; [right; now left |].
      destruct (IH H); [now left | right; now right].
Qed.

(** *** The text of a float has no line break *)

Module ReprFacts.
Import PyFloat.
Local Open Scope Z_scope.

Lemma digit_not_newline (n : Z) : ascii_of_N (Z.to_N (48 + n mod 10)) <> newline.
Proof.
  intros H. apply (f_equal N_of_ascii) in H.
  assert (B := Z.mod_pos_bound n 10 eq_refl).
  rewrite N_ascii_embedding in H by lia.
  change (N_of_ascii newline) with 10%N in H. lia.
Qed.

Lemma digits_of_clean (fuel : nat) :
  forall (n : Z) (acc : str), ~ In newline acc -> ~ In newline (digits_of fuel n acc).
Proof.
  induction fuel as [| fuel IH]; intros n acc H; cbn [digits_of]; [exact H |].
  assert (H' : ~ In newline (ascii_of_N (Z.to_N (48 + n mod 10)) :: acc)).
  { intros [E | E]; [now apply (digit_not_newline n) | now apply H]. }
  destruct (n <? 10); [exact H' | now apply IH].
Qed.

Lemma str_of_Z_clean (n : Z) : ~ In newline (str_of_Z n).
Proof. apply digits_of_clean. intros []. Qed.

Lemma in_rstrip_zeros (c : ascii) (l : str) : In c (rstrip_zeros l) -> In c l.
Proof.
  induction l as [| d l IH]; cbn [rstrip_zeros]; [auto |].
  destruct l as [| d' l]; [auto |].
  destruct (Ascii.eqb d "0"); [| auto]. intros H. right. now apply IH.
Qed.

Lemma zeros_clean (n : Z) : ~ In newline (zeros n).
Proof.
  unfold zeros. intros H. apply repeat_spec in H. discriminate H.
Qed.

Lemma literal_clean (s : string) :
  existsb (Ascii.eqb newline) (s : str) = false -> ~ In newline (s : str).
Proof.
  intros H Hin. assert (E : existsb (Ascii.eqb newline) (s : str) = true).
  { apply existsb_exists. exists newline. split; [exact Hin | apply Ascii.eqb_refl]. }
  congruence.
Qed.

Lemma clean_app (a b : str) : ~ In newline a -> ~ In newline b -> ~ In newline (a ++ b).
Proof. rewrite in_app_iff. tauto. Qed.

Lemma clean_cons (c : ascii) (s : str) :
  Ascii.eqb newline c = false -> ~ In newline s -> ~ In newline (c :: s).
Proof.
  intros E H [-> | Hin]; [now rewrite Ascii.eqb_refl in E | now apply H].
Qed.

Lemma clean_firstn (n : nat) (s : str) : ~ In newline s -> ~ In newline (firstn n s).
Proof.
  intros H Hin. apply H. rewrite <- (firstn_skipn n s). apply in_or_app. now left.
Qed.

Lemma clean_skipn (n : nat) (s : str) : ~ In newline s -> ~ In newline (skipn n s).
Proof.
  intros H Hin. apply H. rewrite <- (firstn_skipn n s). apply in_or_app. now right.
Qed.

Ltac clean :=
  repeat first
         [ assumption
         | apply zeros_clean
         | apply str_of_Z_clean
         | apply clean_app
         | apply clean_firstn
         | apply clean_skipn
         | apply clean_cons; [reflexivity |]
         | apply literal_clean; reflexivity
         | apply in_nil ].

Lemma layout_clean (ds : str) (decpt : Z) : ~ In newline ds -> ~ In newline (layout ds decpt).
Proof.
  intros H. unfold layout.
  destruct ((-4 <? decpt) && (decpt <=? 16)).
  - destruct (decpt <=? 0); [| destruct (_ <=? decpt)]; clean.
  - assert (H1 : ~ In newline
                   match ds with
                   | [] => []
                   | [d] => [d]
                   | d :: (_ :: _) as rest => d :: ("." : str) ++ rest
                   end).
    { destruct ds as [| d [| d' rest]]; [clean | exact H |].
      intros [E | Hin]; [apply H; now left |].
      cbn [of_string list_ascii_of_string app] in Hin.
      destruct Hin as [E | Hin]; [discriminate E | apply H; now right]. }
    destruct (_ <? 0); destruct (_ <? 10); clean.
Qed.

Lemma repr_clean (x : float) : ~ In newline (repr x).
Proof.
  unfold repr. destruct (Prim2SF x) as [s | s | | s m e].
  - destruct s; apply literal_clean; reflexivity.
  - destruct s; apply literal_clean; reflexivity.
  - apply literal_clean; reflexivity.
  - destruct (shortest _ _ _ _ _ _) as [D k].
    assert (H : ~ In newline (rev (rstrip_zeros (rev (str_of_Z D))))).
    { intros H. apply in_rev, in_rstrip_zeros, in_rev in H. now apply (str_of_Z_clean D). }
    apply (layout_clean _ (decimal_exponent
                             match e with Zneg _ => Zpos m | _ => Zpos m * 2 ^ e end
                             match e with Zneg k0 => Zpos (2 ^ k0) | _ => 1 end
                           - k + Z.of_nat (List.length (str_of_Z D)))) in H.
    destruct s; cbn [of_string list_ascii_of_string app]; [| exact H].
    intros [E | E]; [discriminate E | now apply H].
Qed.

End ReprFacts.

(** *** The annotator keeps the lines of the stripped text *)

Lemma annotate_match_clean (T : float) (line acc : str) (m : Re.match_object) :
  ~ In newline line -> ~ In newline acc -> ~ In newline (annotate_match T line acc m).
Proof.
  intros Hline Hacc. unfold annotate_match, try_annotate.
  destruct (parse_quantity _) as [q | e]; cbn [bind]; [| exact Hacc].
  destruct (convert_to_grams _ _ _ _ _) as [g |]; [| exact Hacc].
  intros H. apply in_replace1 in H. destruct H as [H | H]; [| now apply Hacc].
  apply in_app_iff in H. destruct H as [H | H].
  - apply Hline. eapply in_slice, H.
  - revert H. unfold annotation.
    repeat first [apply ReprFacts.clean_app | apply ReprFacts.repr_clean
                 | apply ReprFacts.literal_clean; reflexivity].
Qed.

Lemma convert_line_clean (T : float) (line : str) :
  ~ In newline line -> ~ In newline (convert_line T line).
Proof.
  intros H. unfold convert_line. destruct (strip line); [exact H |].
  assert (G : forall ms acc, ~ In newline acc ->
                             ~ In newline (fold_left (annotate_match T line) ms acc)).
  { induction ms as [| m ms IH]; intros acc Hacc; cbn [fold_left]; [exact Hacc |].
    apply IH. now apply annotate_match_clean. }
  now apply G.
Qed.

Lemma convert_line_blank (T : float) (line : str) :
  strip line = [] -> convert_line T line = line.
Proof. intros H. unfold convert_line. now rewrite H. Qed.

(** C3, as stated, fails: the text is stripped before it is split into
    lines, so that a blank first line is lost and the lines after it move
    up.  The text below has two lines, its annotation has one. *)
Lemma leading_blank_line_is_lost :
  let text : str := newline :: ("1 cup milk" : str) in
  split newline text = [[]; ("1 cup milk" : str)]
  /\ split newline (convert_recipe_to_grams text 20%float) = [("1 cup milk (242.0g)" : str)]
  /\ List.length (split newline (convert_recipe_to_grams text 20%float))
     <> List.length (split newline text).
Proof. cbv zeta. split; [| split]; vm_compute; [reflexivity | reflexivity | discriminate]. Qed.

(** C3, amended.  The output has exactly as many lines as the input text
    once its leading and trailing white space is stripped; the output
    line at each position is the annotation of the line of the stripped
    text at that position, and a blank line of the stripped text is
    found unchanged at its position in the output. *)
Theorem lines_of_stripped_text_are_kept (text : str) (T : float) :
  let lines := split newline (strip text) in
  let output := split newline (convert_recipe_to_grams text T) in
  output = map (convert_line T) lines
  /\ List.length output = List.length lines
  /\ (forall (i : nat) (line : str),
         nth_error lines i = Some line -> strip line = [] ->
         nth_error output i = Some line).
Proof.
  cbv zeta. unfold convert_recipe_to_grams.
  assert (E : split newline (join [newline] (map (convert_line T) (split newline (strip text))))
              = map (convert_line T) (split newline (strip text))).
  { apply split_join.
    - intros H. apply map_eq_nil in H. now apply split_not_nil in H.
    - intros piece H. apply in_map_iff in H. destruct H as (line & <- & H).
      apply convert_line_clean. eapply split_pieces, H. }
  rewrite E. split; [reflexivity | split; [apply length_map |]].
  intros i line Hi Hblank. rewrite nth_error_map, Hi. cbn [option_map].
  now rewrite convert_line_blank.
Qed.

(** C3, amended, at a text with a blank line between two lines. *)
Lemma lines_of_stripped_text_are_kept_witness :
  let text : str := ("  1 cup milk" : str) ++ [newline; newline] ++ ("stir" : str) ++ [newline] in
  nth_error (split newline (strip text)) 1 = Some []
  /\ strip [] = []
  /\ nth_error (split newline (convert_recipe_to_grams text 20%float)) 1 = Some [].
Proof.
  cbv zeta. split; [vm_compute; reflexivity | split; [reflexivity |]].
  apply (proj2 (proj2 (lines_of_stripped_text_are_kept
                         (("  1 cup milk" : str) ++ [newline; newline] ++ ("stir" : str) ++ [newline])
                         20%float)) 1 []);
    vm_compute; reflexivity.
Defined.

(** * The rest of the module *)

Module FloatSignFacts.
Import FloatSign.
Local Open Scope Z_scope.

Lemma shr_1_nonneg (r : shr_record) : 0 <= shr_m r -> 0 <= shr_m (shr_1 r).
Proof.
  destruct r as [m r s]. cbn [shr_m shr_1].
  destruct m as [| [p | p |] | p]; cbn [shr_m]; lia.
Qed.

Lemma iter_shr_1_nonneg (n : positive) :
  forall r, 0 <= shr_m r -> 0 <= shr_m (iter_pos shr_1 n r).
Proof.
  induction n as [n IH | n IH |]; intros r H; cbn [iter_pos].
  - apply IH, IH, shr_1_nonneg, H.
  - apply IH, IH, H.
  - apply shr_1_nonneg, H.
Qed.

Lemma shr_fexp_nonneg (m e : Z) (l : location) :
  0 <= m -> 0 <= shr_m (fst (shr_fexp prec emax m e l)).
Proof.
  intros H. unfold shr_fexp, shr.
  assert (H0 : 0 <= shr_m (shr_record_of_loc m l)).
  { destruct l as [| []]; exact H. }
  destruct (fexp prec emax (Zdigits2 m + e) - e); cbn [fst]; auto.
  now apply iter_shr_1_nonneg.
Qed.

Lemma round_nearest_even_nonneg (m : Z) (l : location) :
  0 <= m -> 0 <= round_nearest_even m l.
Proof.
  intros H. destruct l as [| []]; cbn [round_nearest_even]; try lia.
  destruct (Z.even m); lia.
Qed.

Lemma binary_round_aux_signed (s : bool) (mx ex : Z) (lx : location) :
  0 <= mx -> signed s (binary_round_aux prec emax s mx ex lx).
Proof.
  intros H. unfold binary_round_aux.
  assert (H1 := shr_fexp_nonneg mx ex lx H).
  destruct (shr_fexp prec emax mx ex lx) as [mrs' e']. cbn [fst] in H1.
  assert (H2 := shr_fexp_nonneg _ e' loc_Exact
                  (round_nearest_even_nonneg _ (loc_of_shr_record mrs') H1)).
  destruct (shr_fexp prec emax _ e' loc_Exact) as [mrs'' e'']. cbn [fst] in H2.
  destruct (shr_m mrs'') as [| m | m]; [| | lia].
  - split; [discriminate | reflexivity].
  - destruct (e'' <=? emax - prec); split; (discriminate || reflexivity).
Qed.

Lemma binary_round_signed (s : bool) (m : positive) (e : Z) :
  signed s (binary_round prec emax s m e).
Proof.
  unfold binary_round. destruct (shl_align _ _ _) as [mz ez].
  apply binary_round_aux_signed. lia.
Qed.

Lemma binary_normalize_signed (m e : Z) :
  0 <= m -> signed false (binary_normalize prec emax m e false).
Proof.
  intros H. destruct m as [| m | m]; cbn [binary_normalize]; [| | lia].
  - split; [discriminate | reflexivity].
  - apply binary_round_signed.
Qed.

Lemma SFmul_signbit (x y : spec_float) :
  sf_signbit x = false -> sf_signbit y = false ->
  sf_signbit (SFmul prec emax x y) = false.
Proof.
  destruct x as [sx | sx | | sx mx ex], y as [sy | sy | | sy my ey];
    cbn [sf_signbit SFmul]; intros Hx Hy; subst; try reflexivity.
  apply binary_round_aux_signed. lia.
Qed.

Lemma SFdiv_signbit (x y : spec_float) :
  sf_signbit x = false -> sf_signbit y = false ->
  sf_signbit (SFdiv prec emax x y) = false.
Proof.
  destruct x as [sx | sx | | sx mx ex], y as [sy | sy | | sy my ey];
    cbn [sf_signbit SFdiv]; intros Hx Hy; subst; try reflexivity.
  unfold SFdiv_core_binary.
  set (m' := match _ - _ - _ with Z0 => Zpos mx | Zpos _ => _ | Zneg _ => 0 end).
  assert (Hm : 0 <= m').
  { subst m'. destruct (_ - _ - _); try lia. apply Z.shiftl_nonneg. lia. }
  assert (Hq := Z.div_pos m' (Zpos my) Hm eq_refl).
  unfold Z.div in Hq. destruct (Z.div_eucl m' (Zpos my)) as [q r]. cbn [fst] in Hq.
  now apply binary_round_aux_signed.
Qed.

Lemma SFadd_signbit (x y : spec_float) :
  sf_signbit x = false -> sf_signbit y = false ->
  sf_signbit (SFadd prec emax x y) = false.
Proof.
  destruct x as [sx | sx | | sx mx ex], y as [sy | sy | | sy my ey];
    cbn [sf_signbit SFadd]; intros Hx Hy; subst; try reflexivity.
  cbn [cond_Zopp]. apply binary_normalize_signed. lia.
Qed.

Lemma signbit_mul (x y : float) :
  signbit x = false -> signbit y = false -> signbit (x * y) = false.
Proof. unfold signbit. rewrite mul_spec. apply SFmul_signbit. Qed.

Lemma signbit_div (x y : float) :
  signbit x = false -> signbit y = false -> signbit (x / y) = false.
Proof. unfold signbit. rewrite div_spec. apply SFdiv_signbit. Qed.

Lemma signbit_add (x y : float) :
  signbit x = false -> signbit y = false -> signbit (x + y) = false.
Proof. unfold signbit. rewrite add_spec. apply SFadd_signbit. Qed.

Lemma signbit_SF2Prim (y : spec_float) :
  sf_signbit y = false -> signbit (SF2Prim y) = false.
Proof.
  destruct y as [s | s | | s m e]; cbn [sf_signbit]; intros Hs; subst;
    [vm_compute; reflexivity | vm_compute; reflexivity | vm_compute; reflexivity |].
  unfold signbit, SF2Prim, Z.ldexp.
  rewrite ldshiftexp_spec, of_uint63_spec.
  assert (B := Uint63.to_Z_bounded (Uint63.of_Z (Zpos m))).
  destruct (binary_normalize_signed (Uint63.to_Z (Uint63.of_Z (Zpos m))) 0 (proj1 B)) as [N S].
  destruct (binary_normalize prec emax _ 0 false) as [s' | s' | | s' m' e'];
    cbn [sf_signbit SFldexp] in *; try assumption.
  subst s'. apply binary_round_signed.
Qed.

End FloatSignFacts.

Module ParseSign.
Import PyFloat FloatSign FloatSignFacts.
Local Open Scope Z_scope.

Lemma decimal_signbit (m x digits : Z) : signbit (decimal false m x digits) = false.
Proof.
  unfold decimal.
  destruct m as [| p | p]; [vm_compute; reflexivity | | vm_compute; reflexivity].
  destruct (400 <? x); [vm_compute; reflexivity |].
  destruct (x + digits <? -400); [vm_compute; reflexivity |].
  apply signbit_SF2Prim. destruct x as [| k | k].
  - apply binary_round_signed.
  - apply binary_round_signed.
  - now apply SFdiv_signbit.
Qed.

Lemma of_Q_signbit (q : Q) : (0 <= Qnum q)%Z -> signbit (of_Q q) = false.
Proof.
  intros H. unfold of_Q. apply signbit_SF2Prim.
  destruct (Qnum q) as [| n | n]; [reflexivity | now apply SFdiv_signbit | lia].
Qed.

Lemma in_drop_spaces (c : ascii) (s : str) : In c (drop_spaces s) -> In c s.
Proof.
  induction s as [| d s IH]; cbn [drop_spaces]; [auto |].
  destruct (float_space d); [right; auto | auto].
Qed.

Lemma in_drop_underscores (c : ascii) (s : str) :
  forall prev s', drop_underscores prev s = Some s' -> In c s' -> In c s.
Proof.
  induction s as [| d s IH]; intros prev s'; cbn [drop_underscores].
  - destruct (is_underscore prev); [discriminate |]. now intros [= <-].
  - destruct (is_underscore d).
    + destruct (isdigit prev); [| discriminate]. intros H Hin. right. eauto.
    + destruct (is_underscore prev && negb (isdigit d)); [discriminate |].
      destruct (drop_underscores d s) as [t |] eqn:E; [| discriminate].
      cbn [option_map]. intros [= <-] [-> | Hin]; [now left | right; eauto].
Qed.

Lemma parse_sign_negative (s body : str) :
  parse_sign s = (true, body) -> In "-"%char s.
Proof.
  destruct s as [| c s]; cbn [parse_sign]; [discriminate |].
  destruct (Ascii.eqb c "-") eqn:E.
  - apply Ascii.eqb_eq in E. subst. now left.
  - destruct (Ascii.eqb c "+"); discriminate.
Qed.

(** [float] yields no negative number, and no negative zero, from a text
    without a minus sign. *)
Lemma float_of_str_signbit (s : str) (v : float) :
  ~ In "-"%char s -> float_of_str s = Ok v -> signbit v = false.
Proof.
  intros Hs. unfold float_of_str.
  destruct (drop_underscores _ _) as [t |] eqn:Et; [| discriminate].
  destruct (parse_sign t) as [neg body] eqn:Ep.
  assert (neg = false) as ->.
  { destruct neg; [| reflexivity]. exfalso. apply Hs.
    apply parse_sign_negative in Ep.
    apply (in_drop_underscores _ _ _ _ Et) in Ep.
    apply in_rev, in_drop_spaces, in_rev, in_drop_spaces in Ep. exact Ep. }
  destruct (_ || _); [intros [= <-]; vm_compute; reflexivity |].
  destruct (PyStr.eqb _ "nan"); [intros [= <-]; vm_compute; reflexivity |].
  destruct (span_digits body) as [ip r1].
  destruct (match r1 with [] => _ | _ => _ end) as [fp r2].
  destruct (ip ++ fp); [discriminate |].
  destruct (parse_exponent r2); [| discriminate].
  intros [= <-]. apply decimal_signbit.
Qed.

End ParseSign.

Lemma in_split (sep c : ascii) (s : str) :
  forall piece, In piece (split sep s) -> In c piece -> In c s.
Proof.
  induction s as [| d s IH]; cbn [split]; intros piece.
  - intros [<- | []] [].
  - destruct (Ascii.eqb d sep).
    + intros [<- | H]; [intros [] | right; eauto].
    + destruct (split sep s) as [| first pieces].
      * intros [<- | []] [-> | []]. now left.
      * intros [<- | H].
        -- intros [-> | Hc]; [now left | right]. apply (IH first); [now left | exact Hc].
        -- intros Hc. right. apply (IH piece); [now right | exact Hc].
Qed.

Lemma in_split1 (sep c : ascii) (s : str) :
  forall piece, In piece (split1 sep s) -> In c piece -> In c s.
Proof.
  induction s as [| d s IH]; cbn [split1]; intros piece.
  - intros [<- | []] [].
  - destruct (Ascii.eqb d sep).
    + intros [<- | [<- | []]]; [intros [] | now right].
    + destruct (split1 sep s) as [| first pieces].
      * intros [<- | []] [-> | []]. now left.
      * intros [<- | H].
        -- intros [-> | Hc]; [now left | right]. apply (IH first); [now left | exact Hc].
        -- intros Hc. right. apply (IH piece); [now right | exact Hc].
Qed.

(** The quantity parser yields no negative quantity from a text without a
    minus sign: the sign bit of its result is clear. *)
Lemma parsed_quantity_is_not_negative (quantity_str : str) (quantity : float) :
  ~ In "-"%char quantity_str ->
  parse_quantity quantity_str = Ok quantity ->
  FloatSign.signbit quantity = false.
Proof.
  intros Hs. unfold parse_quantity.
  assert (F : forall piece v, (forall c, In c piece -> In c quantity_str) ->
                              PyFloat.float_of_str piece = Ok v ->
                              FloatSign.signbit v = false).
  { intros piece v Hp. apply ParseSign.float_of_str_signbit. intros H. apply Hs, Hp, H. }
  destruct (contains "/" quantity_str); [| apply F; auto].
  destruct (contains " " quantity_str).
  - destruct (split1 " " quantity_str) as [| whole [| fraction [| x l]]] eqn:E1;
      try discriminate.
    assert (Hw : forall c, In c whole -> In c quantity_str).
    { intros c. apply (in_split1 " " c quantity_str). rewrite E1. now left. }
    assert (Hf : forall c, In c fraction -> In c quantity_str).
    { intros c. apply (in_split1 " " c quantity_str). rewrite E1. right. now left. }
    destruct (split "/" fraction) as [| num [| denom [| x l]]] eqn:E2; try discriminate.
    assert (Hn : forall c, In c num -> In c quantity_str).
    { intros c Hc. apply Hf, (in_split "/" c fraction num); [rewrite E2; now left | exact Hc]. }
    assert (Hd : forall c, In c denom -> In c quantity_str).
    { intros c Hc. apply Hf, (in_split "/" c fraction denom);
        [rewrite E2; right; now left | exact Hc]. }
    destruct (PyFloat.float_of_str whole) as [w |] eqn:Ew; [| discriminate].
    destruct (PyFloat.float_of_str num) as [n |] eqn:En; [| discriminate].
    destruct (PyFloat.float_of_str denom) as [d |] eqn:Ed; [| discriminate].
    cbn [bind]. unfold PyFloat.truediv. destruct (PrimFloat.eqb d zero); [discriminate |].
    cbn [bind]. intros [= <-].
    apply FloatSignFacts.signbit_add; [eauto | apply FloatSignFacts.signbit_div; eauto].
  - destruct (split "/" quantity_str) as [| num [| denom [| x l]]] eqn:E2; try discriminate.
    assert (Hn : forall c, In c num -> In c quantity_str).
    { intros c. apply (in_split "/" c quantity_str). rewrite E2. now left. }
    assert (Hd : forall c, In c denom -> In c quantity_str).
    { intros c. apply (in_split "/" c quantity_str). rewrite E2. right. now left. }
    destruct (PyFloat.float_of_str num) as [n |] eqn:En; [| discriminate].
    destruct (PyFloat.float_of_str denom) as [d |] eqn:Ed; [| discriminate].
    cbn [bind]. unfold PyFloat.truediv. destruct (PrimFloat.eqb d zero); [discriminate |].
    intros [= <-]. apply FloatSignFacts.signbit_div; eauto.
Qed.

Module ReParseFacts.
Import Re ReParse.

Section Soundness.
Context {R : Type}.

Lemma repeat_greedy_sound (p : ascii -> bool) (s : str) :
  forall (pos : nat) (k : nat -> str -> option R) (x : R),
    repeat_greedy p pos s k = Some x ->
    exists c w rest,
      s = (c :: w) ++ rest /\ Forall (fun a => p a = true) (c :: w)
      /\ k (pos + List.length (c :: w)) rest = Some x.
Proof.
  induction s as [| c s IH]; intros pos k x; cbn [repeat_greedy]; [discriminate |].
  destruct (p c) eqn:Ec; [| discriminate].
  destruct (repeat_greedy p (S pos) s k) as [y |] eqn:E.
  - intros [= ->]. destruct (IH _ _ _ E) as (c' & w & rest & -> & F & K).
    exists c, (c' :: w), rest. split; [reflexivity | split; [now constructor |]].
    cbn [List.length] in *. now rewrite Nat.add_succ_r.
  - intros K. exists c, [], s. split; [reflexivity | split; [now repeat constructor |]].
    cbn [List.length]. now rewrite Nat.add_1_r.
Qed.

Lemma repeat_lazy_sound (p : ascii -> bool) (s : str) :
  forall (pos : nat) (k : nat -> str -> option R) (x : R),
    repeat_lazy p pos s k = Some x ->
    exists c w rest,
      s = (c :: w) ++ rest /\ Forall (fun a => p a = true) (c :: w)
      /\ k (pos + List.length (c :: w)) rest = Some x.
Proof.
  induction s as [| c s IH]; intros pos k x; cbn [repeat_lazy]; [discriminate |].
  destruct (p c) eqn:Ec; [| discriminate].
  destruct (k (S pos) s) as [y |] eqn:E.
  - intros [= ->]. exists c, [], s. split; [reflexivity | split; [now repeat constructor |]].
    cbn [List.length]. now rewrite Nat.add_1_r.
  - intros H. destruct (IH _ _ _ H) as (c' & w & rest & -> & F & K).
    exists c, (c' :: w), rest. split; [reflexivity | split; [now constructor |]].
    cbn [List.length] in *. now rewrite Nat.add_succ_r.
Qed.

Lemma startswith_app (l s : str) :
  startswith l s = true -> s = l ++ skipn (List.length l) s.
Proof.
  revert s. induction l as [| a l IH]; intros [| c s]; cbn [startswith app List.length skipn];
    try discriminate; auto.
  intros H. apply andb_true_iff in H. destruct H as [E H].
  apply Ascii.eqb_eq in E. subst. f_equal. now apply IH.
Qed.

(** The engine is sound: what it accepts is an instance of the regular
    expression, and the continuation ran on what follows it. *)
Lemma run_sound (r : regex) :
  forall (pos : nat) (s : str) (g : spans) (k : nat -> str -> spans -> option R) (x : R),
    run r pos s g k = Some x ->
    exists w rest g',
      s = w ++ rest /\ derives r pos w rest g g'
      /\ k (pos + List.length w) rest g' = Some x.
Proof.
  induction r as [greedy p | l | r1 IH1 r2 IH2 | r1 IH1 r2 IH2 | r IH | i r IH |];
    intros pos s g k x; cbn [run].
  - intros H.
    assert (exists c w rest, s = (c :: w) ++ rest /\ Forall (fun a => p a = true) (c :: w)
                             /\ k (pos + List.length (c :: w)) rest g = Some x)
      as (c & w & rest & -> & F & K).
    { destruct greedy; [apply repeat_greedy_sound in H | apply repeat_lazy_sound in H];
        exact H. }
    exists (c :: w), rest, g. split; [reflexivity | split; [now constructor | exact K]].
  - destruct (startswith l s) eqn:E; [| discriminate]. intros K.
    exists l, (skipn (List.length l) s), g.
    split; [now apply startswith_app | split; [constructor | exact K]].
  - intros H. apply IH1 in H. destruct H as (w1 & rest1 & g1 & -> & D1 & H).
    apply IH2 in H. destruct H as (w2 & rest & g2 & -> & D2 & K).
    exists (w1 ++ w2), rest, g2. rewrite <- app_assoc. split; [reflexivity |].
    split; [econstructor; eassumption |].
    now rewrite length_app, Nat.add_assoc.
  - destruct (run r1 pos s g k) as [y |] eqn:E.
    + intros [= ->]. apply IH1 in E. destruct E as (w & rest & g' & -> & D & K).
      exists w, rest, g'. split; [reflexivity | split; [now apply d_left | exact K]].
    + intros H. apply IH2 in H. destruct H as (w & rest & g' & -> & D & K).
      exists w, rest, g'. split; [reflexivity | split; [now apply d_right | exact K]].
  - destruct (run r pos s g k) as [y |] eqn:E.
    + intros [= ->]. apply IH in E. destruct E as (w & rest & g' & -> & D & K).
      exists w, rest, g'. split; [reflexivity | split; [now apply d_some | exact K]].
    + intros K. exists [], s, g. rewrite Nat.add_0_r.
      split; [reflexivity | split; [apply d_none | exact K]].
  - intros H. apply IH in H. destruct H as (w & rest & g' & -> & D & K).
    exists w, rest, ((i, (pos, pos + List.length w)) :: g').
    split; [reflexivity | split; [now constructor | exact K]].
  - intros H. exists [], s, g. rewrite Nat.add_0_r. split; [reflexivity |].
    split; [| destruct s as [| c [| c' s]]; try discriminate; auto;
              destruct (Ascii.eqb c newline); [exact H | discriminate]].
    constructor. destruct s as [| c [| c' s]]; try discriminate; auto.
    destruct (Ascii.eqb c newline) eqn:E; [| discriminate].
    apply Ascii.eqb_eq in E. subst. now right.
Qed.
End Soundness.

Lemma match_at_sound (r : regex) (pos : nat) (s : str) (m : match_object) (rest : str) :
  match_at r pos s = Some (m, rest) ->
  exists w,
    s = w ++ rest /\ derives r pos w rest [] (m_spans m)
    /\ m_start m = pos /\ m_end m = pos + List.length w.
Proof.
  unfold match_at. intros H. apply run_sound in H.
  destruct H as (w & rest' & g' & -> & D & [= <- <-]).
  exists w. cbn [m_start m_end m_spans]. auto.
Qed.

Lemma search_sound (r : regex) (s : str) :
  forall (pos : nat) (m : match_object) (rest : str),
    search r pos s = Some (m, rest) ->
    exists d, d <= List.length s /\ m_start m = pos + d
              /\ match_at r (pos + d) (skipn d s) = Some (m, rest).
Proof.
  induction s as [| c s IH]; intros pos m rest; cbn [search].
  - destruct (match_at r pos []) as [[m' rest'] |] eqn:E; [| discriminate].
    intros [= -> ->]. exists 0. rewrite Nat.add_0_r. cbn [skipn].
    split; [auto | split; [| exact E]].
    apply match_at_sound in E. now destruct E as (w & _ & _ & -> & _).
  - destruct (match_at r pos (c :: s)) as [[m' rest'] |] eqn:E.
    + intros [= -> ->]. exists 0. rewrite Nat.add_0_r. cbn [skipn].
      split; [auto with arith | split; [| exact E]].
      apply match_at_sound in E. now destruct E as (w & _ & _ & -> & _).
    + intros H. apply IH in H. destruct H as (d & L & St & M).
      exists (S d). cbn [List.length skipn]. rewrite <- Nat.add_succ_comm.
      split; [auto with arith | split; assumption].
Qed.

(** Every match that [finditer] yields is a match of the regular
    expression at its start in the text. *)
Lemma finditer_from_sound (r : regex) (line : str) :
  forall (fuel pos : nat) (m : match_object),
    pos <= List.length line ->
    In m (finditer_from fuel r pos (skipn pos line)) ->
    m_start m <= List.length line
    /\ exists rest,
        match_at r (m_start m) (skipn (m_start m) line) = Some (m, rest).
Proof.
  induction fuel as [| fuel IH]; intros pos m Hpos; cbn [finditer_from]; [contradiction |].
  destruct (search r pos (skipn pos line)) as [[m' rest] |] eqn:E; [| contradiction].
  apply search_sound in E. destruct E as (d & L & St & M).
  rewrite length_skipn in L. rewrite skipn_skipn, (Nat.add_comm d pos) in M.
  intros [<- | H].
  - rewrite St. split; [lia | eauto].
  - assert (M' := M). apply match_at_sound in M'.
    destruct M' as (w & E & _ & _ & En).
    assert (Hlen : pos + d + List.length w + List.length rest = List.length line).
    { assert (Hl := f_equal (@List.length ascii) E).
      rewrite length_skipn, length_app in Hl. lia. }
    assert (Er : rest = skipn (m_end m') line).
    { rewrite En, (Nat.add_comm (pos + d)), <- skipn_skipn, E.
      now rewrite skipn_app, skipn_all, Nat.sub_diag. }
    rewrite Er in H. apply IH in H; [exact H | lia].
Qed.

End ReParseFacts.

Module AnatomyFacts.
Import Re ReParse ReParseFacts Anatomy.

Ltac inv H := inversion H; subst; clear H.

Lemma all_app (p : ascii -> bool) (a b : str) : all p a -> all p b -> all p (a ++ b).
Proof. intros Ha Hb. apply Forall_app. now split. Qed.

Lemma all_weaken (p q : ascii -> bool) (s : str) :
  (forall c, p c = true -> q c = true) -> all p s -> all q s.
Proof. intros H. apply Forall_impl. exact H. Qed.

Lemma unit_inv (pos : nat) (w rest : str) (g g' : spans) :
  derives (Seq (Repeat1 true isword)
               (Optional (Seq (Repeat1 true isspace) (Repeat1 true isword))))
          pos w rest g g' ->
  g' = g /\ exists c u, w = c :: u /\ isword c = true /\ all word_or_space u.
Proof.
  intros H. inv H.
  match goal with H : derives (Repeat1 _ _) _ _ _ _ _ |- _ => inv H end.
  match goal with H : Forall _ (_ :: _) |- _ => inv H end.
  assert (W : forall s, all isword s -> all word_or_space s).
  { intros s. apply all_weaken. intros a Ha. unfold word_or_space. now rewrite Ha. }
  assert (S : forall s, all isspace s -> all word_or_space s).
  { intros s. apply all_weaken. intros a Ha. unfold word_or_space. rewrite Ha.
    apply orb_true_r. }
  match goal with H : derives (Optional _) _ _ _ _ _ |- _ => inv H end.
  - match goal with H : derives (Seq _ _) _ _ _ _ _ |- _ => inv H end.
    repeat match goal with H : derives (Repeat1 _ _) _ _ _ _ _ |- _ => inv H end.
    split; [reflexivity |]. eexists _, _. split; [reflexivity | split; [assumption |]].
    apply all_app; [now apply W | apply all_app; [now apply S | now apply W]].
  - split; [reflexivity |]. eexists _, _. split; [reflexivity | split; [assumption |]].
    apply all_app; [now apply W | constructor].
Qed.

Lemma of_inv (pos : nat) (w rest : str) (g g' : spans) :
  derives (Optional (Seq (Literal "of") (Repeat1 true isspace))) pos w rest g g' ->
  g' = g /\ (w = [] \/ exists ws, w = ("of" : str) ++ ws /\ ws <> [] /\ all isspace ws).
Proof.
  intros H. inv H.
  - match goal with H : derives (Seq _ _) _ _ _ _ _ |- _ => inv H end.
    match goal with H : derives (Literal _) _ _ _ _ _ |- _ => inv H end.
    match goal with H : derives (Repeat1 _ _) _ _ _ _ _ |- _ => inv H end.
    split; [reflexivity | right]. eexists. split; [reflexivity | split; [discriminate | assumption]].
  - auto.
Qed.

Lemma ending_inv (pos : nat) (w rest : str) (g g' : spans) :
  derives (Alt (Literal ",") (Alt Eol (Literal [newline]))) pos w rest g g' ->
  g' = g /\ (w = ("," : str) \/ w = [newline] \/ (w = [] /\ (rest = [] \/ rest = [newline]))).
Proof.
  intros H. inv H.
  - match goal with H : derives (Literal _) _ _ _ _ _ |- _ => inv H end. auto.
  - match goal with H : derives (Alt _ _) _ _ _ _ _ |- _ => inv H end.
    + match goal with H : derives Eol _ _ _ _ _ |- _ => inv H end. auto.
    + match goal with H : derives (Literal _) _ _ _ _ _ |- _ => inv H end. auto.
Qed.

(** An instance of the ingredient pattern, taken apart. *)
Lemma pattern_inv (pos : nat) (w rest : str) (g : spans) :
  derives ingredient_pattern pos w rest [] g ->
  exists x : parts,
    w = text_of x /\ well_formed x rest
    /\ let p2 := pos + List.length (quantity x) + List.length (gap1 x) in
       let p3 := p2 + List.length (unit_text x) + List.length (gap2 x)
                 + List.length (of_text x) in
       g = [(3, (p3, p3 + List.length (ingredient x)));
            (2, (p2, p2 + List.length (unit_text x)));
            (1, (pos, pos + List.length (quantity x)))].
Proof.
  unfold ingredient_pattern. intros H.
  inv H. match goal with H : derives (Group 1 _) _ _ _ _ _ |- _ => inv H end.
  match goal with H : derives (Repeat1 _ quantity_char) _ _ _ _ _ |- _ => inv H end.
  match goal with H : derives (Seq _ _) _ _ _ _ _ |- _ => inv H end.
  match goal with H : derives (Repeat1 _ isspace) _ _ _ _ _ |- _ => inv H end.
  match goal with H : derives (Seq _ _) _ _ _ _ _ |- _ => inv H end.
  match goal with H : derives (Group 2 _) _ _ _ _ _ |- _ => inv H end.
  match goal with H : derives (Seq (Repeat1 _ isword) _) _ _ _ _ _ |- _ =>
                  apply unit_inv in H; destruct H as (-> & cu & u & -> & Hcu & Hu) end.
  match goal with H : derives (Seq _ _) _ _ _ _ _ |- _ => inv H end.
  match goal with H : derives (Repeat1 _ isspace) _ _ _ _ _ |- _ => inv H end.
  match goal with H : derives (Seq _ _) _ _ _ _ _ |- _ => inv H end.
  match goal with H : derives (Optional _) _ _ _ _ _ |- _ =>
                  apply of_inv in H; destruct H as (-> & Hof) end.
  match goal with H : derives (Seq _ _) _ _ _ _ _ |- _ => inv H end.
  match goal with H : derives (Group 3 _) _ _ _ _ _ |- _ => inv H end.
  match goal with H : derives (Repeat1 _ any_char) _ _ _ _ _ |- _ => inv H end.
  match goal with H : derives (Alt _ _) _ _ _ _ _ |- _ =>
                  apply ending_inv in H; destruct H as (-> & Hend) end.
  match goal with
  | Hq : Forall _ (?cq :: ?q), Hs1 : Forall _ (?c1 :: ?s1), Hs2 : Forall _ (?c2 :: ?s2),
    Hi : Forall _ (?ci :: ?i) |- context [?cq :: ?q] =>
      match type of Hend with
      | ?t = _ \/ _ =>
          match goal with
          | Hof : ?o = [] \/ _ |- _ =>
              exists (Parts (cq :: q) (c1 :: s1) (cu :: u) (c2 :: s2) o (ci :: i) t)
          end
      end
  end.
  unfold text_of, well_formed. cbn [quantity gap1 unit_text gap2 of_text ingredient ending].
  split; [reflexivity |]. split.
  - repeat split; try discriminate; try assumption; eauto.
  - cbv zeta. cbn [List.length]. repeat f_equal; lia.
Qed.

End AnatomyFacts.

Lemma slice_inside (line : str) (pos : nat) (pre y post : str) :
  skipn pos line = pre ++ y ++ post ->
  slice (pos + List.length pre) (pos + List.length pre + List.length y) line = y.
Proof.
  intros H. unfold slice.
  rewrite (Nat.add_comm pos), <- skipn_skipn, H.
  rewrite skipn_app, skipn_all, Nat.sub_diag. cbn [skipn app].
  replace (List.length pre + pos + List.length y - (List.length pre + pos))
    with (List.length y + 0) by lia.
  rewrite firstn_app_2. cbn [firstn]. apply app_nil_r.
Qed.

Lemma slice_start (line : str) (pos : nat) (y post : str) :
  skipn pos line = y ++ post -> slice pos (pos + List.length y) line = y.
Proof.
  intros H. unfold slice. rewrite H.
  replace (pos + List.length y - pos) with (List.length y + 0) by lia.
  rewrite firstn_app_2. cbn [firstn]. apply app_nil_r.
Qed.

(** Every match found in a line is made of the seven parts, and its
    groups are the quantity, the unit and the ingredient. *)
Lemma finditer_anatomy (line : str) (m : Re.match_object) :
  In m (Re.finditer ingredient_pattern line) ->
  exists (x : Anatomy.parts) (rest : str),
    skipn (Re.m_start m) line = Anatomy.text_of x ++ rest
    /\ Anatomy.well_formed x rest
    /\ Re.m_end m = Re.m_start m + List.length (Anatomy.text_of x)
    /\ Re.group0 line m = Anatomy.text_of x
    /\ Re.group line m 1 = Anatomy.quantity x
    /\ Re.group line m 2 = Anatomy.unit_text x
    /\ Re.group line m 3 = Anatomy.ingredient x.
Proof.
  intros H. unfold Re.finditer in H.
  apply (ReParseFacts.finditer_from_sound ingredient_pattern line _ 0 m (Nat.le_0_l _)) in H.
  destruct H as (_ & rest & H).
  apply ReParseFacts.match_at_sound in H. destruct H as (w & E & D & _ & En).
  apply AnatomyFacts.pattern_inv in D. destruct D as (x & -> & WF & G).
  exists x, rest. cbv zeta in G.
  split; [exact E |]. split; [exact WF |]. split; [exact En |].
  unfold Re.group0, Re.group. rewrite G, En. cbn [Re.span_of Nat.eqb].
  unfold Anatomy.text_of in *.
  split; [| split; [| split]].
  - apply (slice_start line _ _ rest). exact E.
  - apply (slice_start line _ (Anatomy.quantity x)
                       (Anatomy.gap1 x ++ Anatomy.unit_text x ++ Anatomy.gap2 x
                        ++ Anatomy.of_text x ++ Anatomy.ingredient x ++ Anatomy.ending x
                        ++ rest)).
    rewrite E. now rewrite <- !app_assoc.
  - rewrite <- Nat.add_assoc, <- length_app.
    apply (slice_inside line _ (Anatomy.quantity x ++ Anatomy.gap1 x) (Anatomy.unit_text x)
                        (Anatomy.gap2 x ++ Anatomy.of_text x ++ Anatomy.ingredient x
                         ++ Anatomy.ending x ++ rest)).
    rewrite E. now rewrite <- !app_assoc.
  - replace (Re.m_start m + List.length (Anatomy.quantity x) + List.length (Anatomy.gap1 x)
             + List.length (Anatomy.unit_text x) + List.length (Anatomy.gap2 x)
             + List.length (Anatomy.of_text x))
      with (Re.m_start m
            + List.length (Anatomy.quantity x ++ Anatomy.gap1 x ++ Anatomy.unit_text x
                           ++ Anatomy.gap2 x ++ Anatomy.of_text x))
      by (rewrite !length_app; lia).
    apply (slice_inside line _ _ (Anatomy.ingredient x) (Anatomy.ending x ++ rest)).
    rewrite E. now rewrite <- !app_assoc.
Qed.

(** * More properties of the converter *)

Lemma mem_In (x : str) (l : list str) : mem x l = true <-> In x l.
Proof.
  unfold mem. rewrite existsb_exists. split.
  - intros (y & Hy & E). apply eqb_eq in E. now subst.
  - intros H. exists x. split; [exact H | apply eqb_refl].
Qed.

Lemma mem_false (x : str) (l : list str) : mem x l = false <-> ~ In x l.
Proof.
  rewrite <- mem_In. destruct (mem x l); split; congruence.
Qed.

Lemma lookup_None {V : Type} (key : str) (d : list (str * V)) :
  lookup key d = None <-> ~ In key (map fst d).
Proof.
  split; [| apply lookup_absent].
  induction d as [| [k v] d IH]; cbn [lookup map fst In]; intros H; [tauto |].
  destruct (PyStr.eqb key k) eqn:E; [discriminate |].
  intros [-> | H']; [now rewrite eqb_refl in E | now apply IH].
Qed.

Lemma convert_lookup {num : Type} (A : arith num) (q : num) (unit ingredient : str) (T : num)
      (e : ingredient_entry) :
  lookup (strip (lower ingredient)) load_ingredients_db = Some e ->
  convert_to_grams A q unit ingredient T =
  let u := strip (lower unit) in
  if counted_match e u then Some (mul A q (adjusted_density A e T))
  else
    match lookup u get_conversion_factors with
    | Some factor => Some (mul A (mul A q (literal A factor)) (adjusted_density A e T))
    | None =>
        if mem u ["gram" : str; "g" : str; "grams" : str] then Some q
        else if mem u ["kilogram" : str; "kg" : str; "kilograms" : str] then
          Some (mul A q (literal A 1000))
        else if mem u ["ounce" : str; "oz" : str; "ounces" : str] then
          Some (mul A q (literal A 28.35))
        else if mem u ["pound" : str; "lb" : str; "pounds" : str] then
          Some (mul A q (literal A 453.59))
        else None
    end.
Proof. intros H. unfold convert_to_grams. now rewrite H. Qed.

Lemma mass_units_split (u : str) :
  In u mass_units <->
  In u ["gram" : str; "g" : str; "grams" : str]
  \/ In u ["kilogram" : str; "kg" : str; "kilograms" : str]
  \/ In u ["ounce" : str; "oz" : str; "ounces" : str]
  \/ In u ["pound" : str; "lb" : str; "pounds" : str].
Proof. unfold mass_units. cbn [In]. tauto. Qed.

(** For a known ingredient, the units that are refused. *)
Lemma known_None {num : Type} (A : arith num) (q : num) (unit ingredient : str) (T : num)
      (e : ingredient_entry) :
  lookup (strip (lower ingredient)) load_ingredients_db = Some e ->
  convert_to_grams A q unit ingredient T = None <->
  counted_match e (strip (lower unit)) = false
  /\ ~ In (strip (lower unit)) volume_units
  /\ ~ In (strip (lower unit)) mass_units.
Proof.
  intros H. rewrite (convert_lookup A q unit ingredient T e H). cbv zeta.
  set (u := strip (lower unit)).
  rewrite mass_units_split. unfold volume_units. rewrite <- lookup_None, <- !mem_In.
  destruct (counted_match e u); [split; [discriminate | intros [? _]; discriminate] |].
  destruct (lookup u get_conversion_factors);
    [split; [discriminate | intros (_ & ? & _); discriminate] |].
  destruct (mem u ["gram" : str; "g" : str; "grams" : str]);
    [split; [discriminate | intros (_ & _ & N); exfalso; apply N; auto] |].
  destruct (mem u ["kilogram" : str; "kg" : str; "kilograms" : str]);
    [split; [discriminate | intros (_ & _ & N); exfalso; apply N; auto] |].
  destruct (mem u ["ounce" : str; "oz" : str; "ounces" : str]);
    [split; [discriminate | intros (_ & _ & N); exfalso; apply N; auto] |].
  destruct (mem u ["pound" : str; "lb" : str; "pounds" : str]);
    [split; [discriminate | intros (_ & _ & N); exfalso; apply N; auto] |].
  split; [| reflexivity]. intros _. repeat split; auto.
  intros [N | [N | [N | N]]]; discriminate N.
Qed.

(** The counted unit only adds "each" and "eachs", for eggs: the counted
    unit of the other two counted ingredients is a volume unit already. *)
Lemma counted_match_table (name u : str) (e : ingredient_entry) :
  In (name, e) load_ingredients_db ->
  ~ In u volume_units ->
  counted_match e u = false <->
  ~ (name = ("eggs" : str) /\ In u ["each" : str; "eachs" : str]).
Proof.
  intros Hin Hu. cbv [load_ingredients_db In] in Hin.
  assert (T : forall su : str, In su volume_units -> In (su ++ ("s" : str)) volume_units ->
                               PyStr.eqb u su || PyStr.eqb u (su ++ ("s" : str)) = false).
  { intros su H1 H2. apply orb_false_iff.
    split; (destruct (PyStr.eqb u _) eqn:E; [apply eqb_eq in E; subst; contradiction | auto]). }
  assert (E : counted_match (counted 50 0.02 "each") u = false <->
              ~ (("eggs" : str) = ("eggs" : str) /\ In u ["each" : str; "eachs" : str])).
  { unfold counted_match. cbn [special_unit counted]. rewrite orb_false_iff. cbn [In].
    change (("each" : str) ++ ("s" : str)) with ("eachs" : str).
    split.
    - intros [E1 E2] [_ [<- | [<- | []]]]; [now rewrite eqb_refl in E1 | now rewrite eqb_refl in E2].
    - intros N. split; (destruct (PyStr.eqb u _) eqn:E; [apply eqb_eq in E; subst; tauto | auto]). }
  repeat (destruct Hin as [Hin | Hin];
          [injection Hin as <- <-;
           first
             [ exact E
             | split; [intros _ [N _]; discriminate N | reflexivity]
             | unfold counted_match; cbn [special_unit counted];
               split; [intros _ [N _]; discriminate N | intros _; apply T; vm_compute; tauto] ] |]);
    try contradiction.
Qed.

(** ** The adjustment at the baseline and over the slider's range *)

Lemma baseline_adjustment (name : str) (e : ingredient_entry) :
  In (name, e) load_ingredients_db ->
  adjusted_density binary64 e 20%float = PyFloat.of_Q (density e).
Proof.
  intros Hin. cbv [load_ingredients_db In] in Hin.
  repeat (destruct Hin as [Hin | Hin]; [injection Hin as <- <-; vm_compute; reflexivity |]).
  contradiction.
Qed.

(** ** White space and case *)

Module StripFacts.



Lemma isspace_lower_char (c : ascii) : isspace (lower_char c) = isspace c.
Proof. destruct c as [[] [] [] [] [] [] [] []]; reflexivity. Qed.

Lemma lower_char_idem (c : ascii) : lower_char (lower_char c) = lower_char c.
Proof. destruct c as [[] [] [] [] [] [] [] []]; reflexivity. Qed.

Lemma lower_idem (s : str) : lower (lower s) = lower s.
Proof.
  unfold lower. rewrite map_map. apply map_ext. intros c. apply lower_char_idem.
Qed.

Lemma lower_app (a b : str) : lower (a ++ b) = lower a ++ lower b.
Proof. apply map_app. Qed.

Lemma blank_lower (s : str) : blank s -> blank (lower s).
Proof.
  unfold blank, lower. intros H. apply Forall_map.
  eapply Forall_impl; [| exact H]. intros c Hc. now rewrite isspace_lower_char.
Qed.

Lemma blank_rev (s : str) : blank s -> blank (rev s).
Proof. apply Forall_rev. Qed.

Lemma lstrip_blank (pre s : str) : blank pre -> lstrip (pre ++ s) = lstrip s.
Proof.
  induction 1 as [| c pre Hc _ IH]; [reflexivity |].
  cbn [app lstrip]. now rewrite Hc.
Qed.

Lemma lstrip_all_blank (s : str) : blank s -> lstrip s = [].
Proof.
  intros H. rewrite <- (app_nil_r s). now rewrite lstrip_blank.
Qed.

(** What [lstrip] leaves is empty or starts with a visible character. *)
Lemma lstrip_app (s post : str) :
  lstrip (s ++ post) = lstrip s ++ post \/ blank s.
Proof.
  induction s as [| c s IH]; [right; constructor |].
  cbn [app lstrip]. destruct (isspace c) eqn:E; [| now left].
  destruct IH as [IH | IH]; [now left | right; now constructor].
Qed.

Lemma rstrip_blank (s post : str) : blank post -> rstrip (s ++ post) = rstrip s.
Proof.
  intros H. unfold rstrip. rewrite rev_app_distr.
  now rewrite lstrip_blank by now apply blank_rev.
Qed.

Lemma rstrip_all_blank (s : str) : blank s -> rstrip s = [].
Proof.
  intros H. unfold rstrip. now rewrite lstrip_all_blank by now apply blank_rev.
Qed.

Lemma strip_padding (pre s post : str) :
  blank pre -> blank post -> strip (pre ++ s ++ post) = strip s.
Proof.
  intros Hpre Hpost. unfold strip. rewrite lstrip_blank by assumption.
  destruct (lstrip_app s post) as [E | B].
  - rewrite E. now apply rstrip_blank.
  - rewrite (lstrip_all_blank s B).
    rewrite lstrip_all_blank by (apply Forall_app; now split).
    reflexivity.
Qed.

End StripFacts.

(** ** Sorting and the choices of the page *)

Module PageFacts.

Lemma in_insert (x y : str) (l : list str) : In y (Page.insert x l) <-> y = x \/ In y l.
Proof.
  induction l as [| z l IH]; cbn [Page.insert In].
  - intuition.
  - destruct (Page.ltb x z); cbn [In]; [intuition | rewrite IH; intuition].
Qed.

Lemma in_sorted (y : str) (l : list str) : In y (Page.sorted l) <-> In y l.
Proof.
  unfold Page.sorted.
  assert (G : forall acc, In y (fold_left (fun acc x => Page.insert x acc) l acc)
                          <-> In y l \/ In y acc).
  { induction l as [| x l IH]; intros acc; cbn [fold_left In]; [tauto |].
    rewrite IH, in_insert. intuition. }
  rewrite G. cbn [In]. tauto.
Qed.

End PageFacts.

(** ** Sign of the result *)

Module SignFacts.
Import FloatSign FloatSignFacts.

Lemma signbit_ltb (x : float) : signbit x = false -> (x <? 0)%float = false.
Proof.
  unfold signbit. rewrite ltb_spec.
  destruct (Prim2SF x) as [s | s | | s m e]; cbn [sf_signbit]; intros Hs; subst; reflexivity.
Qed.

(** A float that is at least a positive number has a clear sign bit. *)
Lemma leb_signbit (lo x : float) :
  signbit lo = false -> (lo <=? x)%float = true -> (0 <? lo)%float = true -> signbit x = false.
Proof.
  unfold signbit. rewrite leb_spec, ltb_spec. change (Prim2SF 0) with (S754_zero false).
  destruct (Prim2SF lo) as [s | s | | s m e], (Prim2SF x) as [s' | s' | | s' m' e'];
    cbn [sf_signbit]; intros Hs H1 H2; subst; try discriminate; try reflexivity;
    destruct s'; try reflexivity; discriminate.
Qed.

Lemma round1_signbit (x : float) : signbit x = false -> signbit (PyFloat.round1 x) = false.
Proof.
  unfold PyFloat.round1. intros H. unfold signbit in H.
  destruct (Prim2SF x) as [s | s | | s m e] eqn:E; try exact (eq_trans (f_equal sf_signbit E) H).
  cbn [sf_signbit] in H. subst s. apply ParseSign.decimal_signbit.
Qed.

Lemma slider_adjustment :
  forallb (fun entry =>
             forallb (fun T => negb (signbit (adjusted_density binary64 (snd entry)
                                                               (Page.of_int T))))
                     Page.slider)
          load_ingredients_db = true.
Proof. vm_compute. reflexivity. Qed.

Lemma adjusted_density_signbit (name : str) (e : ingredient_entry) (T : Z) :
  In (name, e) load_ingredients_db -> In T Page.slider ->
  signbit (adjusted_density binary64 e (Page.of_int T)) = false.
Proof.
  intros He HT. assert (H := slider_adjustment).
  rewrite forallb_forall in H. specialize (H _ He). cbn [snd] in H.
  rewrite forallb_forall in H. specialize (H _ HT).
  now destruct (signbit _).
Qed.

Lemma factor_signbit (u : str) (f : Q) :
  In (u, f) get_conversion_factors -> signbit (PyFloat.of_Q f) = false.
Proof.
  intros H. apply ParseSign.of_Q_signbit.
  cbv [get_conversion_factors In] in H.
  repeat (destruct H as [H | H]; [injection H as <- <-; vm_compute; discriminate |]).
  contradiction.
Qed.

Lemma convert_signbit (q : float) (unit ingredient : str) (T : Z) (g : float) :
  In T Page.slider ->
  signbit q = false ->
  convert_to_grams binary64 q unit ingredient (Page.of_int T) = Some g ->
  signbit g = false.
Proof.
  intros HT Hq.
  destruct (lookup (strip (lower ingredient)) load_ingredients_db) as [e |] eqn:E.
  - rewrite (convert_lookup binary64 q unit ingredient (Page.of_int T) e E). cbv zeta.
    assert (Ha := adjusted_density_signbit _ e T (lookup_present _ _ _ E) HT).
    set (u := strip (lower unit)).
    destruct (counted_match e u); [intros [= <-]; now apply signbit_mul |].
    destruct (lookup u get_conversion_factors) as [f |] eqn:F.
    + intros [= <-]. apply signbit_mul; [| exact Ha].
      apply signbit_mul; [exact Hq |].
      exact (factor_signbit u f (lookup_present _ _ _ F)).
    + destruct (mem u _); [now intros [= <-] |].
      destruct (mem u _); [intros [= <-]; now apply signbit_mul |].
      destruct (mem u _); [intros [= <-]; now apply signbit_mul |].
      destruct (mem u _); [intros [= <-]; now apply signbit_mul | discriminate].
  - rewrite (convert_unknown binary64 q unit ingredient (Page.of_int T)); [discriminate |].
    now apply lookup_None.
Qed.

End SignFacts.

(** On the slider's range the difference [temperature - 20], which the
    source computes on integers, is the difference of the floats. *)
Lemma slider_difference (T : Z) :
  In T Page.slider -> (Page.of_int T - 20)%float = Page.of_int (T - 20).
Proof.
  intros H. cbv [Page.slider seq map In] in H.
  repeat (destruct H as [H | H]; [rewrite <- H; vm_compute; reflexivity |]).
  contradiction.
Qed.

(** ** What the converter accepts *)

Lemma convert_normal {num : Type} (A : arith num) (q : num) (unit unit' ingredient ingredient' : str)
      (T : num) :
  strip (lower unit) = strip (lower unit') ->
  strip (lower ingredient) = strip (lower ingredient') ->
  convert_to_grams A q unit ingredient T = convert_to_grams A q unit' ingredient' T.
Proof. intros Hu Hi. unfold convert_to_grams. now rewrite Hu, Hi. Qed.

(** X1. The converter answers [None] in two cases only: the ingredient,
    trimmed and in lower case, is not a key of the table; or the unit,
    trimmed and in lower case, is neither a volume unit, nor one of the
    twelve names of a mass unit, nor "each" or "eachs" for eggs. *)
Theorem not_convertible_iff {num : Type} (A : arith num) (q : num) (unit ingredient : str)
        (T : num) :
  convert_to_grams A q unit ingredient T = None <->
  ~ In (strip (lower ingredient)) (map fst load_ingredients_db)
  \/ (~ In (strip (lower unit)) volume_units
      /\ ~ In (strip (lower unit)) mass_units
      /\ ~ (strip (lower ingredient) = ("eggs" : str)
            /\ In (strip (lower unit)) ["each" : str; "eachs" : str])).
Proof.
  destruct (lookup (strip (lower ingredient)) load_ingredients_db) as [e |] eqn:E.
  - rewrite (known_None A q unit ingredient T e E).
    assert (Hin := lookup_present _ _ _ E).
    assert (Hk : In (strip (lower ingredient)) (map fst load_ingredients_db)).
    { change (strip (lower ingredient)) with (fst (strip (lower ingredient), e)).
      now apply in_map. }
    split.
    + intros (Hc & Hv & Hm). right. split; [exact Hv | split; [exact Hm |]].
      now apply (counted_match_table _ _ e Hin Hv).
    + intros [N | (Hv & Hm & Hc)]; [contradiction |].
      split; [| now split]. now apply (counted_match_table _ _ e Hin Hv).
  - split.
    + intros _. left. now apply lookup_None.
    + intros _. apply convert_unknown. now apply lookup_None.
Qed.

(** X2. At 20 degrees the temperature adjustment is exactly neutral, for
    every ingredient of the table and on the floats of the code: a counted
    unit gives the quantity times the density, and a volume unit gives the
    quantity times the factor of the unit, times the density. *)
Theorem baseline_is_unadjusted (name : str) (e : ingredient_entry) (q : float) (unit : str) :
  In (name, e) load_ingredients_db ->
  (counted_match e (strip (lower unit)) = true ->
   convert_to_grams binary64 q unit name 20%float = Some (q * PyFloat.of_Q (density e))%float)
  /\ (forall factor : Q,
         counted_match e (strip (lower unit)) = false ->
         lookup (strip (lower unit)) get_conversion_factors = Some factor ->
         convert_to_grams binary64 q unit name 20%float
         = Some (q * PyFloat.of_Q factor * PyFloat.of_Q (density e))%float).
Proof.
  intros Hin.
  rewrite (convert_lookup binary64 q unit name 20%float e (ingredient_lookup name e Hin)).
  cbv zeta. change (literal binary64) with PyFloat.of_Q. change (mul binary64) with PrimFloat.mul.
  rewrite (baseline_adjustment name e Hin).
  split.
  - intros ->. reflexivity.
  - intros factor -> ->. reflexivity.
Qed.

(** X2 at a pint and a half of honey, and at three eggs. *)
Lemma baseline_is_unadjusted_witness :
  In ("honey" : str, volume 340 0.03) load_ingredients_db
  /\ convert_to_grams binary64 1.5%float "pints" "honey" 20%float
     = Some (1.5 * 2 * 340)%float
  /\ In ("eggs" : str, counted 50 0.02 "each") load_ingredients_db
  /\ convert_to_grams binary64 3%float "each" "eggs" 20%float = Some (3 * 50)%float.
Proof.
  assert (H1 : In ("honey" : str, volume 340 0.03) load_ingredients_db).
  { cbv [load_ingredients_db In]. do 16 right. left. reflexivity. }
  assert (H2 : In ("eggs" : str, counted 50 0.02 "each") load_ingredients_db).
  { cbv [load_ingredients_db In]. do 21 right. left. reflexivity. }
  split; [exact H1 | split; [| split; [exact H2 |]]].
  - exact (proj2 (baseline_is_unadjusted ("honey" : str) (volume 340 0.03) 1.5%float
                                         ("pints" : str) H1) 2%Q eq_refl eq_refl).
  - exact (proj1 (baseline_is_unadjusted ("eggs" : str) (counted 50 0.02 "each") 3%float
                                         ("each" : str) H2) eq_refl).
Defined.

(** X3. The spelling of the unit and of the ingredient is normalised:
    white space around either of them, and the case of their letters, do
    not change the result. *)
Theorem spelling_is_normalised {num : Type} (A : arith num) (q : num) (unit ingredient : str)
        (T : num) (pre post pre' post' : str) :
  blank pre -> blank post -> blank pre' -> blank post' ->
  convert_to_grams A q (pre ++ unit ++ post) (pre' ++ ingredient ++ post') T
  = convert_to_grams A q unit ingredient T
  /\ convert_to_grams A q (lower unit) (lower ingredient) T
     = convert_to_grams A q unit ingredient T.
Proof.
  intros H1 H2 H3 H4. split; apply convert_normal.
  - rewrite !StripFacts.lower_app.
    apply StripFacts.strip_padding; now apply StripFacts.blank_lower.
  - rewrite !StripFacts.lower_app.
    apply StripFacts.strip_padding; now apply StripFacts.blank_lower.
  - now rewrite StripFacts.lower_idem.
  - now rewrite StripFacts.lower_idem.
Qed.

(** X3 at " Cups" of "MILK" followed by a line break. *)
Lemma spelling_is_normalised_witness :
  convert_to_grams binary64 2%float ((" " : str) ++ ("Cups" : str) ++ [])
                   ([] ++ ("MILK" : str) ++ [newline]) 25%float
  = convert_to_grams binary64 2%float "Cups" "MILK" 25%float
  /\ convert_to_grams binary64 2%float (lower "Cups") (lower "MILK") 25%float
     = convert_to_grams binary64 2%float "Cups" "MILK" 25%float.
Proof.
  apply (spelling_is_normalised binary64 2%float ("Cups" : str) ("MILK" : str) 25%float
                                (" " : str) [] [] [newline]);
    repeat constructor.
Defined.

(** X4. The abbreviation of a counted unit is not the counted unit.  For
    the two ingredients counted by the teaspoon, "teaspoon" and
    "teaspoons" give the quantity times the adjusted density, while "tsp"
    is taken for a volume: the quantity is multiplied by 0.0208333 cups
    first. *)
Theorem counted_unit_abbreviation {num : Type} (A : arith num) (name : str) (d t : Q)
        (q T : num) :
  In (name, counted d t "teaspoon") load_ingredients_db ->
  convert_to_grams A q "teaspoon" name T = Some (mul A q (adjusted_density A (counted d t "teaspoon") T))
  /\ convert_to_grams A q "teaspoons" name T
     = Some (mul A q (adjusted_density A (counted d t "teaspoon") T))
  /\ convert_to_grams A q "tsp" name T
     = Some (mul A (mul A q (literal A 0.0208333))
                 (adjusted_density A (counted d t "teaspoon") T)).
Proof.
  intros Hin.
  rewrite !(convert_lookup A q _ name T _ (ingredient_lookup name _ Hin)).
  repeat split.
Qed.

(** X4 at a teaspoon of yeast at 20 degrees: 3 grams by the word,
    0.0624999 grams by the abbreviation. *)
Lemma counted_unit_abbreviation_witness :
  convert_to_grams binary64 1%float "teaspoon" "yeast" 20%float = Some 3%float
  /\ convert_to_grams binary64 1%float "tsp" "yeast" 20%float = Some (PyFloat.of_Q 0.0624999).
Proof.
  assert (Hin : In ("yeast" : str, counted 3 0.005 "teaspoon") load_ingredients_db).
  { cbv [load_ingredients_db In]. do 23 right. left. reflexivity. }
  destruct (counted_unit_abbreviation binary64 ("yeast" : str) 3 0.005 1%float 20%float Hin)
    as (H1 & _ & H3).
  split; [rewrite H1 | rewrite H3]; vm_compute; reflexivity.
Defined.

(** X5. At the temperatures of the page, 15 to 35 degrees, a quantity that
    is not negative never gives a negative result: the sign bit of the
    result is clear, so that [grams < 0] is false, and it stays clear when
    the result is rounded to one decimal place. *)
Theorem grams_are_not_negative (q : float) (unit ingredient : str) (T : Z) (g : float) :
  In T Page.slider ->
  FloatSign.signbit q = false ->
  convert_to_grams binary64 q unit ingredient (Page.of_int T) = Some g ->
  FloatSign.signbit g = false
  /\ (g <? 0)%float = false
  /\ FloatSign.signbit (PyFloat.round1 g) = false.
Proof.
  intros HT Hq H.
  assert (Hg := SignFacts.convert_signbit q unit ingredient T g HT Hq H).
  split; [exact Hg | split].
  - now apply SignFacts.signbit_ltb.
  - now apply SignFacts.round1_signbit.
Qed.

(** X5 at a tablespoon of butter at 15 degrees. *)
Lemma grams_are_not_negative_witness :
  In 15%Z Page.slider
  /\ FloatSign.signbit 1%float = false
  /\ convert_to_grams binary64 1%float "tbsp" "butter" (Page.of_int 15) = Some (PyFloat.of_Q 13.8328125)
  /\ FloatSign.signbit (PyFloat.of_Q 13.8328125) = false
  /\ (PyFloat.of_Q 13.8328125 <? 0)%float = false
  /\ FloatSign.signbit (PyFloat.round1 (PyFloat.of_Q 13.8328125)) = false.
Proof.
  assert (HT : In 15%Z Page.slider) by (left; reflexivity).
  assert (Hq : FloatSign.signbit 1%float = false) by reflexivity.
  assert (H : convert_to_grams binary64 1%float "tbsp" "butter" (Page.of_int 15)
              = Some (PyFloat.of_Q 13.8328125)) by (vm_compute; reflexivity).
  split; [exact HT | split; [exact Hq | split; [exact H |]]].
  exact (grams_are_not_negative 1%float ("tbsp" : str) ("butter" : str) 15%Z _ HT Hq H).
Defined.

(** * More properties of the annotator *)

(** ** Parts of a text *)

Module SubFacts.

Lemma substring_refl (s : str) : substring s s.
Proof. exists [], []. now rewrite app_nil_r. Qed.

Lemma substring_trans (a b c : str) : substring a b -> substring b c -> substring a c.
Proof.
  intros (p1 & s1 & ->) (p2 & s2 & ->). exists (p2 ++ p1), (s1 ++ s2).
  now rewrite <- !app_assoc.
Qed.

Lemma substring_in (c : ascii) (a s : str) : substring a s -> In c a -> In c s.
Proof.
  intros (pre & post & ->) H. apply in_or_app. right. apply in_or_app. now left.
Qed.

Lemma substring_lower (a s : str) : substring a s -> substring (lower a) (lower s).
Proof.
  intros (pre & post & ->). exists (lower pre), (lower post).
  now rewrite !StripFacts.lower_app.
Qed.

Lemma lstrip_substring (s : str) : substring (lstrip s) s.
Proof.
  induction s as [| c s IH]; cbn [lstrip]; [apply substring_refl |].
  destruct (isspace c); [| apply substring_refl].
  destruct IH as (pre & post & E). exists (c :: pre), post. cbn [app]. now rewrite <- E.
Qed.

Lemma substring_rev (a s : str) : substring a s -> substring (rev a) (rev s).
Proof.
  intros (pre & post & ->). exists (rev post), (rev pre).
  now rewrite !rev_app_distr, <- app_assoc.
Qed.

Lemma rstrip_substring (s : str) : substring (rstrip s) s.
Proof.
  unfold rstrip. rewrite <- (rev_involutive s) at 2.
  apply substring_rev, lstrip_substring.
Qed.

Lemma strip_substring (s : str) : substring (strip s) s.
Proof.
  unfold strip. eapply substring_trans; [apply rstrip_substring | apply lstrip_substring].
Qed.

Lemma in_strip (c : ascii) (s : str) : In c (strip s) -> In c s.
Proof. apply substring_in, strip_substring. Qed.

Lemma slice_substring (i j : nat) (s : str) : substring (slice i j s) s.
Proof.
  unfold slice. exists (firstn i s), (skipn (j - i) (skipn i s)).
  now rewrite firstn_skipn, firstn_skipn.
Qed.

Lemma join_cons (sep : str) (c : ascii) (piece : str) (pieces : list str) :
  join sep ((c :: piece) :: pieces) = c :: join sep (piece :: pieces).
Proof. destruct pieces; reflexivity. Qed.

(** Joining what was split gives the text back. *)
Lemma join_split (sep : ascii) (s : str) : join [sep] (split sep s) = s.
Proof.
  induction s as [| c s IH]; cbn [split]; [reflexivity |].
  destruct (Ascii.eqb c sep) eqn:E.
  - apply Ascii.eqb_eq in E. subst c.
    destruct (split sep s) as [| first pieces] eqn:Es; [now apply split_not_nil in Es |].
    change (join [sep] ([] :: first :: pieces)) with (sep :: join [sep] (first :: pieces)).
    now rewrite IH.
  - destruct (split sep s) as [| first pieces] eqn:Es; [now apply split_not_nil in Es |].
    rewrite join_cons. now rewrite IH.
Qed.

Lemma join_substring (sep : str) (pieces : list str) :
  forall piece, In piece pieces -> substring piece (join sep pieces).
Proof.
  induction pieces as [| first rest IH]; intros piece; [intros [] |].
  destruct rest as [| next rest].
  - intros [<- | []]. apply substring_refl.
  - change (join sep (first :: next :: rest)) with (first ++ sep ++ join sep (next :: rest)).
    intros [<- | H].
    + now exists [], (sep ++ join sep (next :: rest)).
    + destruct (IH _ H) as (pre & post & E). exists (first ++ sep ++ pre), post.
      rewrite E. now rewrite <- !app_assoc.
Qed.

Lemma split_substring (sep : ascii) (s piece : str) :
  In piece (split sep s) -> substring piece s.
Proof.
  intros H. rewrite <- (join_split sep s) at 1. now apply join_substring.
Qed.

Lemma startswith_prefix (a post : str) : startswith a (a ++ post) = true.
Proof.
  induction a as [| c a IH]; cbn [app startswith]; [now destruct post |].
  now rewrite Ascii.eqb_refl, IH.
Qed.

Lemma occurs_substring (a s : str) : substring a s -> occurs a s = true.
Proof.
  intros (pre & post & ->).
  induction pre as [| c pre IH].
  - cbn [app]. destruct (a ++ post) eqn:E; cbn [occurs];
      rewrite <- E, startswith_prefix; reflexivity.
  - cbn [app occurs]. rewrite IH. apply orb_true_r.
Qed.

End SubFacts.

(** ** Inserting annotations *)

Module AnnotatedFacts.

Lemma annotated_weaken (P Q : float -> Prop) (s s' : str) :
  (forall g, P g -> Q g) -> annotated P s s' -> annotated Q s s'.
Proof.
  intros H. induction 1 as [| s pre post g _ IH Hg]; [constructor |].
  apply annotated_insert; auto.
Qed.

Lemma annotated_trans (P : float -> Prop) (a b c : str) :
  annotated P a b -> annotated P b c -> annotated P a c.
Proof.
  intros Hab. induction 1 as [| b pre post g _ IH Hg]; [exact Hab |].
  apply annotated_insert; auto.
Qed.

Lemma annotated_frame (P : float -> Prop) (a b pre post : str) :
  annotated P a b -> annotated P (pre ++ a ++ post) (pre ++ b ++ post).
Proof.
  induction 1 as [| a x y g _ IH Hg]; [constructor |].
  replace (pre ++ (x ++ annotation g ++ y) ++ post)
    with ((pre ++ x) ++ annotation g ++ (y ++ post)) by now rewrite <- !app_assoc.
  apply annotated_insert; [| exact Hg].
  now rewrite <- !app_assoc in IH |- *.
Qed.

Lemma annotated_join (P : float -> Prop) (sep : str) (ls ls' : list str) :
  Forall2 (annotated P) ls ls' -> annotated P (join sep ls) (join sep ls').
Proof.
  induction 1 as [| a a' l l' Ha Hl IH]; [constructor |].
  destruct Hl as [| b b' l l' Hb Hl].
  - exact Ha.
  - change (join sep (a :: b :: l)) with (a ++ sep ++ join sep (b :: l)).
    change (join sep (a' :: b' :: l')) with (a' ++ sep ++ join sep (b' :: l')).
    apply annotated_trans with (b := a' ++ sep ++ join sep (b :: l)).
    + apply (annotated_frame P a a' [] (sep ++ join sep (b :: l))), Ha.
    + rewrite !app_assoc.
      rewrite <- (app_nil_r (join sep (b :: l))), <- (app_nil_r (join sep (b' :: l'))).
      apply annotated_frame, IH.
Qed.

(** [replace(old, old + new, 1)] leaves the text or inserts [new]. *)
Lemma replace1_inserts (old new acc : str) :
  replace1 old (old ++ new) acc = acc
  \/ exists pre post, acc = pre ++ post /\ replace1 old (old ++ new) acc = pre ++ new ++ post.
Proof.
  induction acc as [| c acc IH].
  - cbn [replace1]. destruct (startswith old []) eqn:E; [| now left].
    right. exists old, (skipn (List.length old) []).
    split; [now apply ReParseFacts.startswith_app | now rewrite <- app_assoc].
  - cbn [replace1]. destruct (startswith old (c :: acc)) eqn:E.
    + right. exists old, (skipn (List.length old) (c :: acc)).
      split; [now apply ReParseFacts.startswith_app | now rewrite <- app_assoc].
    + destruct IH as [-> | (pre & post & E1 & ->)]; [now left |].
      right. exists (c :: pre), post. split; [now rewrite E1 | reflexivity].
Qed.

Lemma annotate_match_annotated (P : float -> Prop) (T : float) (line acc : str)
      (m : Re.match_object) :
  (forall q g, parse_quantity (strip (Re.group line m 1)) = Ok q ->
               convert_to_grams binary64 q (Re.group line m 2) (Re.group line m 3) T = Some g ->
               P (PyFloat.round1 g)) ->
  annotated P line acc -> annotated P line (annotate_match T line acc m).
Proof.
  intros HP Hacc. unfold annotate_match, try_annotate.
  destruct (parse_quantity _) as [q | e]; cbn [bind]; [| exact Hacc].
  destruct (convert_to_grams _ _ _ _ _) as [g |] eqn:Eg; [| exact Hacc].
  destruct (replace1_inserts (Re.group0 line m) (annotation (PyFloat.round1 g)) acc)
    as [-> | (pre & post & E & ->)]; [exact Hacc |].
  apply annotated_insert; [now rewrite <- E | now apply (HP q g)].
Qed.

Lemma convert_line_annotated (P : float -> Prop) (T : float) (line : str) :
  (forall m q g, In m (Re.finditer ingredient_pattern line) ->
                 parse_quantity (strip (Re.group line m 1)) = Ok q ->
                 convert_to_grams binary64 q (Re.group line m 2) (Re.group line m 3) T = Some g ->
                 P (PyFloat.round1 g)) ->
  annotated P line (convert_line T line).
Proof.
  intros HP. unfold convert_line. destruct (strip line); [constructor |].
  revert HP. generalize (Re.finditer ingredient_pattern line). intros ms HP.
  assert (G : forall acc, annotated P line acc ->
                          annotated P line (fold_left (annotate_match T line) ms acc)).
  { induction ms as [| m ms IH]; intros acc Hacc; cbn [fold_left]; [exact Hacc |].
    apply IH.
    - intros m' q g Hm. apply HP. now right.
    - apply annotate_match_annotated; [| exact Hacc].
      intros q g. apply HP. now left. }
  apply G. constructor.
Qed.

Lemma convert_recipe_annotated (P : float -> Prop) (T : float) (text : str) :
  (forall line m q g,
      In m (Re.finditer ingredient_pattern line) ->
      parse_quantity (strip (Re.group line m 1)) = Ok q ->
      convert_to_grams binary64 q (Re.group line m 2) (Re.group line m 3) T = Some g ->
      P (PyFloat.round1 g)) ->
  annotated P (strip text) (convert_recipe_to_grams text T).
Proof.
  intros HP. unfold convert_recipe_to_grams.
  rewrite <- (SubFacts.join_split newline (strip text)) at 1.
  apply annotated_join.
  induction (split newline (strip text)) as [| line lines IH]; cbn [map]; constructor.
  - apply convert_line_annotated. intros m q g. apply HP.
  - exact IH.
Qed.

End AnnotatedFacts.

(** ** What a match holds *)

Module MatchFacts.

Lemma group_substring (line : str) (m : Re.match_object) (i : nat) :
  substring (Re.group line m i) line.
Proof.
  unfold Re.group. destruct (Re.span_of i (Re.m_spans m)) as [[a b] |].
  - apply SubFacts.slice_substring.
  - exists [], line. reflexivity.
Qed.

Lemma quantity_char_minus (s : str) :
  Anatomy.all quantity_char s -> ~ In "-"%char s.
Proof.
  intros H Hin. unfold Anatomy.all in H. rewrite Forall_forall in H.
  specialize (H _ Hin). discriminate H.
Qed.

Lemma quantity_signbit (line : str) (m : Re.match_object) (q : float) :
  In m (Re.finditer ingredient_pattern line) ->
  parse_quantity (strip (Re.group line m 1)) = Ok q ->
  FloatSign.signbit q = false.
Proof.
  intros Hm. destruct (finditer_anatomy line m Hm) as (x & rest & _ & W & _ & _ & E1 & _).
  rewrite E1. apply parsed_quantity_is_not_negative.
  intros H. apply SubFacts.in_strip in H. revert H.
  apply quantity_char_minus. apply W.
Qed.

(** No annotation without a known ingredient in the line. *)
Lemma annotate_match_unknown (T : float) (line acc : str) (m : Re.match_object) :
  (forall name, In name (map fst load_ingredients_db) -> occurs name (lower line) = false) ->
  annotate_match T line acc m = acc.
Proof.
  intros H. unfold annotate_match, try_annotate.
  destruct (parse_quantity _) as [q | e]; cbn [bind]; [| reflexivity].
  rewrite convert_unknown; [reflexivity |].
  intros Hin. specialize (H _ Hin).
  rewrite SubFacts.occurs_substring in H; [discriminate |].
  eapply SubFacts.substring_trans; [apply SubFacts.strip_substring |].
  apply SubFacts.substring_lower, group_substring.
Qed.

Lemma convert_line_unknown (T : float) (line : str) :
  (forall name, In name (map fst load_ingredients_db) -> occurs name (lower line) = false) ->
  convert_line T line = line.
Proof.
  intros H. unfold convert_line. destruct (strip line); [reflexivity |].
  generalize (Re.finditer ingredient_pattern line). intros ms.
  assert (G : forall acc, fold_left (annotate_match T line) ms acc = acc).
  { induction ms as [| m ms IH]; intros acc; cbn [fold_left]; [reflexivity |].
    rewrite annotate_match_unknown by exact H. apply IH. }
  apply G.
Qed.

Lemma occurs_false_substring (name a s : str) :
  substring a s -> occurs name s = false -> occurs name a = false.
Proof.
  intros Ha Hs. destruct (occurs name a) eqn:E; [| reflexivity].
  rewrite <- Hs. symmetry. 
  assert (G : forall x, occurs name x = true -> substring name x).
  { induction x as [| c x IH]; cbn [occurs].
    - rewrite orb_false_r. intros S. apply ReParseFacts.startswith_app in S.
      exists [], (skipn (List.length name) []). exact S.
    - intros S. apply orb_true_iff in S. destruct S as [S | S].
      + apply ReParseFacts.startswith_app in S.
        exists [], (skipn (List.length name) (c :: x)). exact S.
      + destruct (IH S) as (pre & post & ->). now exists (c :: pre), post. }
  apply SubFacts.occurs_substring. eapply SubFacts.substring_trans; [apply G, E | exact Ha].
Qed.

End MatchFacts.

(** ** The annotator, match by match and as a whole *)

(** X6. Every match of the ingredient pattern in a line is made of seven
    parts: a non-empty run of digits, dots, slashes and white space; white
    space; a unit that starts with a word character and holds word
    characters and white space only; white space; possibly "of" and white
    space; a non-empty ingredient without a line break; and a comma, a
    line break or nothing before the end of the line.  The three groups
    are the first, the third and the sixth part, so that each of them has
    taken part in the match. *)
Theorem match_anatomy (line : str) (m : Re.match_object) :
  In m (Re.finditer ingredient_pattern line) ->
  exists (x : Anatomy.parts) (rest : str),
    skipn (Re.m_start m) line = Anatomy.text_of x ++ rest
    /\ Anatomy.well_formed x rest
    /\ Re.m_end m = Re.m_start m + List.length (Anatomy.text_of x)
    /\ Re.group0 line m = Anatomy.text_of x
    /\ Re.group line m 1 = Anatomy.quantity x
    /\ Re.group line m 2 = Anatomy.unit_text x
    /\ Re.group line m 3 = Anatomy.ingredient x.
Proof. apply finditer_anatomy. Qed.

(** X6 at the second match of "2 cups of milk, 1 tsp salt". *)
Lemma match_anatomy_witness :
  let line : str := "2 cups of milk, 1 tsp salt" in
  let m := Re.Match 15 26 [(3, (22, 26)); (2, (18, 21)); (1, (15, 17))] in
  In m (Re.finditer ingredient_pattern line)
  /\ exists (x : Anatomy.parts) (rest : str),
      skipn (Re.m_start m) line = Anatomy.text_of x ++ rest
      /\ Anatomy.well_formed x rest
      /\ Re.m_end m = Re.m_start m + List.length (Anatomy.text_of x)
      /\ Re.group0 line m = Anatomy.text_of x
      /\ Re.group line m 1 = Anatomy.quantity x
      /\ Re.group line m 2 = Anatomy.unit_text x
      /\ Re.group line m 3 = Anatomy.ingredient x.
Proof.
  cbv zeta.
  assert (H : In (Re.Match 15 26 [(3, (22, 26)); (2, (18, 21)); (1, (15, 17))])
                 (Re.finditer ingredient_pattern "2 cups of milk, 1 tsp salt")).
  { vm_compute. right. left. reflexivity. }
  split; [exact H |].
  exact (match_anatomy ("2 cups of milk, 1 tsp salt" : str) _ H).
Defined.

(** X7. No negative quantity reaches the converter from a recipe text:
    when the quantity parser accepts the quantity of a match, the sign bit
    of the number is clear, so that [quantity < 0] is false.  The pattern
    admits no minus sign. *)
Theorem matched_quantity_is_not_negative (line : str) (m : Re.match_object) (q : float) :
  In m (Re.finditer ingredient_pattern line) ->
  parse_quantity (strip (Re.group line m 1)) = Ok q ->
  FloatSign.signbit q = false /\ (q <? 0)%float = false.
Proof.
  intros Hm Hq. assert (H := MatchFacts.quantity_signbit line m q Hm Hq).
  split; [exact H | now apply SignFacts.signbit_ltb].
Qed.

(** X7 at "-3 cups milk": the match starts after the minus sign. *)
Lemma matched_quantity_is_not_negative_witness :
  let line : str := "-3 cups milk" in
  let m := Re.Match 1 12 [(3, (8, 12)); (2, (3, 7)); (1, (1, 2))] in
  Re.finditer ingredient_pattern line = [m]
  /\ parse_quantity (strip (Re.group line m 1)) = Ok 3%float
  /\ FloatSign.signbit 3%float = false /\ (3 <? 0)%float = false.
Proof.
  cbv zeta.
  assert (H : Re.finditer ingredient_pattern "-3 cups milk"
              = [Re.Match 1 12 [(3, (8, 12)); (2, (3, 7)); (1, (1, 2))]])
    by (vm_compute; reflexivity).
  split; [exact H | split; [vm_compute; reflexivity |]].
  apply (matched_quantity_is_not_negative ("-3 cups milk" : str)
           (Re.Match 1 12 [(3, (8, 12)); (2, (3, 7)); (1, (1, 2))]) 3%float).
  - rewrite H. left. reflexivity.
  - vm_compute. reflexivity.
Defined.

(** X8. The annotator only inserts.  Its result is the stripped text with
    annotations " (<grams>g)" inserted, where <grams> is a number rounded
    to one decimal place: no character of the stripped text is removed,
    changed or moved. *)
Theorem annotator_only_inserts (text : str) (T : float) :
  annotated (fun grams => exists x, grams = PyFloat.round1 x)
            (strip text) (convert_recipe_to_grams text T).
Proof.
  apply AnnotatedFacts.convert_recipe_annotated. intros line m q g _ _ _. now exists g.
Qed.

(** X9. A text that names no ingredient of the table, whatever the case of
    its letters, is returned as it is, stripped: nothing is annotated at
    any temperature. *)
Theorem text_without_ingredient_is_unchanged (text : str) (T : float) :
  (forall name, In name (map fst load_ingredients_db) -> occurs name (lower text) = false) ->
  convert_recipe_to_grams text T = strip text.
Proof.
  intros H. unfold convert_recipe_to_grams.
  rewrite <- (SubFacts.join_split newline (strip text)) at 2.
  f_equal. rewrite <- (map_id (split newline (strip text))) at 2.
  apply map_ext_in. intros line Hline.
  apply MatchFacts.convert_line_unknown. intros name Hname.
  apply (MatchFacts.occurs_false_substring name (lower line) (lower text)); [| now apply H].
  apply SubFacts.substring_lower.
  eapply SubFacts.substring_trans; [eapply SubFacts.split_substring, Hline |].
  apply SubFacts.strip_substring.
Qed.

(** X9 at the message of the recipe generator for a failed request, in
    which the pattern finds "404. Make sure Ollama ...". *)
Lemma text_without_ingredient_is_unchanged_witness :
  let text : str := "Error: 404. Make sure Ollama is running with TinyLLama model." in
  (forall name, In name (map fst load_ingredients_db) -> occurs name (lower text) = false)
  /\ List.length (Re.finditer ingredient_pattern text) = 1
  /\ convert_recipe_to_grams text 25%float = strip text.
Proof.
  cbv zeta.
  assert (H : forall name, In name (map fst load_ingredients_db) ->
                           occurs name (lower "Error: 404. Make sure Ollama is running with TinyLLama model.")
                           = false).
  { intros name Hn. cbv [load_ingredients_db map fst In] in Hn.
    repeat (destruct Hn as [Hn | Hn]; [rewrite <- Hn; vm_compute; reflexivity |]).
    contradiction. }
  split; [exact H | split; [vm_compute; reflexivity |]].
  exact (text_without_ingredient_is_unchanged _ 25%float H).
Defined.

(** X10. At the temperatures of the page, 15 to 35 degrees, no annotation
    shows a negative number: the result of the annotator is the stripped
    text with annotations inserted whose numbers have a clear sign bit. *)
Theorem page_annotations_are_not_negative (text : str) (T : Z) :
  In T Page.slider ->
  annotated (fun grams => FloatSign.signbit grams = false)
            (strip text) (convert_recipe_to_grams text (Page.of_int T)).
Proof.
  intros HT. apply AnnotatedFacts.convert_recipe_annotated. intros line m q g Hm Hq Hg.
  apply SignFacts.round1_signbit.
  apply (SignFacts.convert_signbit q (Re.group line m 2) (Re.group line m 3) T g HT);
    [| exact Hg].
  exact (MatchFacts.quantity_signbit line m q Hm Hq).
Qed.

(** X10 at 35 degrees. *)
Lemma page_annotations_are_not_negative_witness :
  In 35%Z Page.slider
  /\ annotated (fun grams => FloatSign.signbit grams = false)
               (strip "1/2 cup butter, melted")
               (convert_recipe_to_grams "1/2 cup butter, melted" (Page.of_int 35)).
Proof.
  assert (HT : In 35%Z Page.slider) by (vm_compute; tauto).
  split; [exact HT |].
  exact (page_annotations_are_not_negative ("1/2 cup butter, melted" : str) 35%Z HT).
Defined.

(** ** The page *)

Lemma unit_choice_normal (unit : str) :
  In unit Page.units ->
  strip (lower unit) = unit /\ (In unit volume_units \/ In unit mass_units).
Proof.
  intros H. unfold Page.units in H. apply (proj1 (PageFacts.in_sorted _ _)) in H.
  cbv [get_conversion_factors map fst app In] in H.
  repeat (destruct H as [H | H];
          [rewrite <- H; split; [vm_compute; reflexivity | vm_compute; tauto] |]).
  contradiction.
Qed.

(** X11. The single-ingredient converter never shows its error message
    and never shows a negative result: for every ingredient, every unit
    and every temperature the page offers, and every quantity from 0.1,
    the least one the page accepts, the conversion succeeds, the result
    is shown, and the sign bit of the rounded result is clear. *)
Theorem page_choices_always_convert (quantity : float) (unit selected_ingredient : str)
        (convert_temp : Z) :
  In selected_ingredient Page.ingredients ->
  In unit Page.units ->
  In convert_temp Page.slider ->
  (PyFloat.of_Q 0.1 <=? quantity)%float = true ->
  exists grams : float,
    convert_to_grams binary64 quantity unit selected_ingredient (Page.of_int convert_temp)
    = Some grams
    /\ Page.convert_button quantity unit selected_ingredient convert_temp
       = Page.Markdown
           (("<div class=" : str) ++ Page.dquote ++ ("converter-result" : str) ++ Page.dquote
            ++ (">" : str) ++ PyFloat.repr quantity ++ (" " : str) ++ unit
            ++ (" of " : str) ++ selected_ingredient ++ (" = " : str)
            ++ PyFloat.repr (PyFloat.round1 grams) ++ ("g</div>" : str))
    /\ FloatSign.signbit (PyFloat.round1 grams) = false.
Proof.
  intros Hi Hu HT Hq. unfold Page.ingredients in Hi.
  apply (proj1 (PageFacts.in_sorted _ _)) in Hi. apply in_map_iff in Hi.
  destruct Hi as ([name e] & <- & Hin). cbn [fst].
  destruct (unit_choice_normal unit Hu) as [En Hk].
  unfold Page.convert_button.
  destruct (convert_to_grams binary64 quantity unit name (Page.of_int convert_temp))
    as [grams |] eqn:E.
  - exists grams. split; [reflexivity | split; [reflexivity |]].
    apply SignFacts.round1_signbit.
    apply (SignFacts.convert_signbit quantity unit name convert_temp grams HT); [| exact E].
    apply (SignFacts.leb_signbit (PyFloat.of_Q 0.1) quantity); [reflexivity | exact Hq | reflexivity].
  - apply (known_None binary64 quantity unit name (Page.of_int convert_temp) e
                      (ingredient_lookup name e Hin)) in E.
    rewrite En in E. tauto.
Qed.

(** X11 at two fluid ounces of honey at 20 degrees. *)
Lemma page_choices_always_convert_witness :
  In ("honey" : str) Page.ingredients
  /\ In ("fl oz" : str) Page.units
  /\ In 20%Z Page.slider
  /\ (PyFloat.of_Q 0.1 <=? 2)%float = true
  /\ exists grams : float,
      convert_to_grams binary64 2%float "fl oz" "honey" (Page.of_int 20) = Some grams
      /\ Page.convert_button 2%float "fl oz" "honey" 20
         = Page.Markdown
             (("<div class=" : str) ++ Page.dquote ++ ("converter-result" : str) ++ Page.dquote
              ++ (">" : str) ++ PyFloat.repr 2 ++ (" " : str) ++ ("fl oz" : str)
              ++ (" of " : str) ++ ("honey" : str) ++ (" = " : str)
              ++ PyFloat.repr (PyFloat.round1 grams) ++ ("g</div>" : str))
      /\ FloatSign.signbit (PyFloat.round1 grams) = false.
Proof.
  assert (Hi : In ("honey" : str) Page.ingredients) by (vm_compute; tauto).
  assert (Hu : In ("fl oz" : str) Page.units) by (vm_compute; tauto).
  assert (HT : In 20%Z Page.slider) by (vm_compute; tauto).
  assert (Hq : (PyFloat.of_Q 0.1 <=? 2)%float = true) by (vm_compute; reflexivity).
  split; [exact Hi | split; [exact Hu | split; [exact HT | split; [exact Hq |]]]].
  exact (page_choices_always_convert 2%float ("fl oz" : str) ("honey" : str) 20%Z Hi Hu HT Hq).
Defined.

(** ** The order in which the pattern is tried *)

Module ReOrderFacts.
Import Re ReOrder.

Section Order.
Context {R : Type}.

Lemma greedy_stops (p : ascii -> bool) (pos : nat) (s : str) (k : nat -> str -> option R) :
  stops p s -> repeat_greedy p pos s k = None.
Proof. destruct s as [| c s]; cbn [stops repeat_greedy]; [reflexivity | now intros ->]. Qed.

(** A greedy repetition takes the whole run when the rest of the pattern
    matches after it. *)
Lemma greedy_longest (p : ascii -> bool) (a rest : str) (k : nat -> str -> option R) (x : R) :
  a <> [] -> Forall (fun c => p c = true) a -> stops p rest ->
  forall pos pos', pos' = pos + List.length a ->
  k pos' rest = Some x ->
  repeat_greedy p pos (a ++ rest) k = Some x.
Proof.
  intros Ha Hp Hs. induction Hp as [| c a Hc Hp IH]; [contradiction |].
  intros pos pos' -> Hk. cbn [app repeat_greedy]. rewrite Hc.
  destruct a as [| d a].
  - cbn [app]. rewrite (greedy_stops p (S pos) rest k Hs).
    cbn [List.length] in Hk. now rewrite Nat.add_1_r in Hk.
  - rewrite (IH ltac:(discriminate) (S pos) (pos + List.length (c :: d :: a))); auto.
    cbn [List.length]. lia.
Qed.

(** A run of one character: the repetition fails when the rest of the
    pattern fails after it. *)
Lemma greedy_one_none (p : ascii -> bool) (c : ascii) (rest : str)
      (k : nat -> str -> option R) (pos : nat) :
  p c = true -> stops p rest -> k (S pos) rest = None ->
  repeat_greedy p pos (c :: rest) k = None.
Proof.
  intros Hc Hs Hk. cbn [repeat_greedy]. rewrite Hc.
  now rewrite (greedy_stops p (S pos) rest k Hs).
Qed.

(** It gives one character back when the rest of the pattern fails after
    the whole run and matches one character earlier. *)
Lemma greedy_backoff (p : ascii -> bool) (a : str) (c : ascii) (rest : str)
      (k : nat -> str -> option R) (x : R) :
  a <> [] -> Forall (fun c => p c = true) a -> p c = true -> stops p rest ->
  forall pos pos', pos' = pos + List.length a ->
  k (S pos') rest = None ->
  k pos' (c :: rest) = Some x ->
  repeat_greedy p pos (a ++ c :: rest) k = Some x.
Proof.
  intros Ha Hp Hc Hs. induction Hp as [| d a Hd Hp IH]; [contradiction |].
  intros pos pos' -> Hn Hk. cbn [app repeat_greedy]. rewrite Hd.
  destruct a as [| d' a].
  - cbn [app repeat_greedy]. rewrite Hc. rewrite (greedy_stops p _ rest k Hs).
    cbn [List.length] in Hn, Hk. rewrite Nat.add_1_r in Hn, Hk. now rewrite Hn.
  - rewrite (IH ltac:(discriminate) (S pos) (pos + List.length (d :: d' :: a))); auto.
    cbn [List.length]. lia.
Qed.

(** A lazy repetition runs to the end of the text when the rest of the
    pattern matches nowhere before. *)
Lemma lazy_to_end (p : ascii -> bool) (s : str) (k : nat -> str -> option R) (x : R) :
  s <> [] -> Forall (fun c => p c = true) s ->
  (forall pos' c s', In c s -> k pos' (c :: s') = None) ->
  forall pos pos', pos' = pos + List.length s ->
  k pos' [] = Some x ->
  repeat_lazy p pos s k = Some x.
Proof.
  intros Hne Hp. induction Hp as [| c s Hc Hp IH]; [contradiction |].
  intros Hk pos pos' -> Hx. cbn [repeat_lazy]. rewrite Hc.
  destruct s as [| d s].
  - cbn [List.length] in Hx. rewrite Nat.add_1_r in Hx. now rewrite Hx.
  - rewrite (Hk (S pos) d s) by (right; now left).
    apply (IH ltac:(discriminate)) with (pos' := pos + List.length (c :: d :: s)).
    + intros q e t Hin. apply Hk. now right.
    + cbn [List.length]. lia.
    + exact Hx.
Qed.

End Order.

Lemma search_first (r : regex) (pos : nat) (s : str) (m : match_object * str) :
  match_at r pos s = Some m -> search r pos s = Some m.
Proof. intros H. destruct s; cbn [search]; now rewrite H. Qed.

End ReOrderFacts.

(** ** A quantity, a one-word unit and two more words *)

Module Shape.
Import Re ReOrder ReOrderFacts.

Lemma isword_not_space (c : ascii) : isword c = true -> isspace c = false.
Proof. destruct c as [[] [] [] [] [] [] [] []]; intros H; try reflexivity; discriminate H. Qed.

Lemma space_is_quantity_char (c : ascii) : isspace c = true -> quantity_char c = true.
Proof. intros H. unfold quantity_char. rewrite H. apply orb_true_r. Qed.

Lemma stops_word (p : ascii -> bool) (w rest : str) :
  (forall c, isword c = true -> p c = false) ->
  w <> [] -> Forall (fun c => isword c = true) w -> stops p (w ++ rest).
Proof.
  intros H Hne Hw. destruct Hw as [| c w Hc _]; [contradiction |]. cbn [app stops]. auto.
Qed.

Lemma ending_fails {R : Type} (pos : nat) (c : ascii) (s : str) (g : spans)
      (k : nat -> str -> spans -> option R) :
  ingredient_char c = true -> run pattern_ending pos (c :: s) g k = None.
Proof.
  unfold ingredient_char, any_char. intros H.
  apply andb_true_iff in H. destruct H as [H1 H2].
  apply negb_true_iff in H1, H2.
  rewrite Ascii.eqb_sym in H2. assert (H3 := H1). rewrite Ascii.eqb_sym in H3.
  unfold pattern_ending. cbn [run]. 
  change (startswith "," (c :: s)) with (Ascii.eqb "," c && true).
  change (startswith [newline] (c :: s)) with (Ascii.eqb newline c && true).
  rewrite H2, H3. cbn [andb].
  destruct s; [rewrite H1 |]; reflexivity.
Qed.

Section Line.
Variables Q U W I : str.
Hypothesis Q_some : Q <> [].
Hypothesis Q_chars : Forall (fun c => quantity_char c = true) Q.
Hypothesis U_some : U <> [].
Hypothesis U_start : stops quantity_char U.
Hypothesis U_word : Forall (fun c => isword c = true) U.
Hypothesis W_some : W <> [].
Hypothesis W_word : Forall (fun c => isword c = true) W.
Hypothesis I_some : I <> [].
Hypothesis I_start : stops isspace I.
Hypothesis I_chars : Forall (fun c => ingredient_char c = true) I.
Hypothesis I_of : startswith "of" I = false.

Let line : str := Q ++ " "%char :: U ++ " "%char :: W ++ " "%char :: I.
Let p2 : nat := List.length Q + 1.
Let e2 : nat := p2 + List.length U + 1 + List.length W.
Let p3 : nat := e2 + 1.
Let the_match : match_object :=
  Match 0 (p3 + List.length I)
        [(3, (p3, p3 + List.length I)); (2, (p2, e2)); (1, (0, List.length Q))].

Lemma line_match_at : match_at ingredient_pattern 0 line = Some (the_match, []).
Proof.
  assert (Usp : stops isspace (U ++ " "%char :: W ++ " "%char :: I)).
  { apply stops_word; auto. apply isword_not_space. }
  assert (Wsp : stops isspace (W ++ " "%char :: I)).
  { apply stops_word; auto. apply isword_not_space. }
  assert (Uq : stops quantity_char (U ++ " "%char :: W ++ " "%char :: I)).
  { destruct U; [contradiction | exact U_start]. }
  unfold match_at, ingredient_pattern, line. cbn [run].
  apply greedy_backoff with (pos' := List.length Q); auto.
  - now apply greedy_stops.
  - apply (greedy_longest isspace [" "%char]) with (pos' := p2);
      [discriminate | repeat constructor | exact Usp | reflexivity |].
    apply greedy_longest with (pos' := p2 + List.length U);
      [exact U_some | exact U_word | reflexivity | reflexivity |].
    match goal with
    | |- match ?a with _ => _ end = ?b => assert (E : a = b); [| now rewrite E]
    end.
    apply (greedy_longest isspace [" "%char]) with (pos' := p2 + List.length U + 1);
      [discriminate | repeat constructor | exact Wsp | reflexivity |].
    apply greedy_longest with (pos' := e2);
      [exact W_some | exact W_word | reflexivity | reflexivity |].
    apply (greedy_longest isspace [" "%char]) with (pos' := p3);
      [discriminate | repeat constructor | exact I_start | reflexivity |].
    rewrite I_of.
    apply lazy_to_end with (pos' := p3 + List.length I).
    + exact I_some.
    + eapply Forall_impl; [| exact I_chars].
      intros c Hc. unfold ingredient_char in Hc. now apply andb_true_iff in Hc.
    + intros pos' c s' Hin. rewrite Forall_forall in I_chars.
      exact (ending_fails pos' c s' [(3, (p3, pos')); (2, (p2, e2)); (1, (0, List.length Q))]
                          (fun pos s g => Some (Match 0 pos g, s)) (I_chars c Hin)).
    + reflexivity.
    + reflexivity.
Qed.

Lemma line_finditer : finditer ingredient_pattern line = [the_match].
Proof.
  unfold finditer. cbn [finditer_from].
  rewrite (search_first _ _ _ _ line_match_at). cbn [m_end the_match].
  f_equal. destruct (List.length line); reflexivity.
Qed.

Lemma line_groups :
  group line the_match 1 = Q
  /\ group line the_match 2 = U ++ " "%char :: W
  /\ group line the_match 3 = I.
Proof.
  unfold group, the_match. cbn [m_spans span_of Nat.eqb]. repeat split.
  - apply (slice_start line 0 Q (" "%char :: U ++ " "%char :: W ++ " "%char :: I)). reflexivity.
  - replace e2 with (0 + List.length (Q ++ [" "%char]) + List.length (U ++ " "%char :: W)).
    + replace p2 with (0 + List.length (Q ++ [" "%char])) by (rewrite length_app; reflexivity).
      apply (slice_inside line 0 (Q ++ [" "%char]) (U ++ " "%char :: W) (" "%char :: I)).
      unfold line. cbn [skipn]. now rewrite <- !app_assoc.
    + unfold e2, p2. rewrite !length_app. cbn [List.length]. lia.
  - replace (p3 + List.length I)
      with (0 + List.length (Q ++ " "%char :: U ++ " "%char :: W ++ [" "%char]) + List.length I).
    + replace p3 with (0 + List.length (Q ++ " "%char :: U ++ " "%char :: W ++ [" "%char])).
      * apply (slice_inside line 0 (Q ++ " "%char :: U ++ " "%char :: W ++ [" "%char]) I []).
        unfold line. cbn [skipn]. rewrite app_nil_r. rewrite <- !app_assoc. cbn [app].
        rewrite <- !app_assoc. cbn [app]. rewrite <- !app_assoc. reflexivity.
      * unfold p3, e2, p2. rewrite !length_app. cbn [List.length]. rewrite !length_app.
        cbn [List.length]. rewrite !length_app. cbn [List.length]. lia.
    + unfold p3, e2, p2. rewrite !length_app. cbn [List.length]. rewrite !length_app.
      cbn [List.length]. rewrite !length_app. cbn [List.length]. lia.
Qed.

(** The line is left as it is when the unit and the ingredient that the
    match holds are not convertible. *)
Lemma line_unchanged (T : float) :
  (forall q, convert_to_grams binary64 q (U ++ " "%char :: W) I T = None) ->
  convert_line T line = line.
Proof.
  intros H. unfold convert_line. destruct (strip line); [reflexivity |].
  rewrite line_finditer. cbn [fold_left]. unfold annotate_match, try_annotate.
  destruct line_groups as (_ & -> & ->).
  destruct (parse_quantity _) as [q | e]; cbn [bind]; [| reflexivity].
  now rewrite H.
Qed.

End Line.

Lemma strip_id (s : str) : stops isspace s -> stops isspace (rev s) -> strip s = s.
Proof.
  assert (L : forall t, stops isspace t -> lstrip t = t).
  { intros [| c t]; cbn [stops lstrip]; [reflexivity | now intros ->]. }
  intros H1 H2. unfold strip, rstrip. rewrite (L s H1), (L _ H2). apply rev_involutive.
Qed.

(** A unit followed by "of" is no unit. *)
Lemma unit_with_of (U : str) :
  U <> [] -> Forall (fun c => isword c = true) U ->
  let u := strip (lower (U ++ " "%char :: ("of" : str))) in
  ~ In u volume_units /\ ~ In u mass_units /\ ~ In u ["each" : str; "eachs" : str].
Proof.
  intros Hne Hw. cbv zeta.
  assert (E : strip (lower (U ++ " "%char :: ("of" : str))) = lower U ++ (" of" : str)).
  { rewrite StripFacts.lower_app. change (lower (" "%char :: ("of" : str))) with (" of" : str).
    apply strip_id.
    - destruct Hw as [| c U' Hc _]; [contradiction |]. cbn [lower map app stops].
      rewrite StripFacts.isspace_lower_char. now apply isword_not_space.
    - rewrite rev_app_distr. reflexivity. }
  rewrite E.
  assert (Hr : forall k : str, k = lower U ++ (" of" : str) ->
                               exists t, rev k = "f"%char :: "o"%char :: " "%char :: t).
  { intros k ->. rewrite rev_app_distr. now exists (rev (lower U)). }
  repeat split; intros H;
    cbv [volume_units mass_units get_conversion_factors map fst In] in H;
    repeat (destruct H as [H | H];
            [destruct (Hr _ H) as [t Ht]; vm_compute in Ht; discriminate Ht |]);
    contradiction.
Qed.

End Shape.

Lemma word_has_no_space (w : str) :
  Forall (fun c => isword c = true) w -> contains " " w = false.
Proof.
  induction 1 as [| c w Hc _ IH]; [reflexivity |].
  unfold contains in *. cbn [existsb]. rewrite IH, orb_false_r.
  destruct (Ascii.eqb " " c) eqn:E; [| reflexivity].
  apply Ascii.eqb_eq in E. subst c. discriminate Hc.
Qed.

(** X12. The unit takes the word that follows it.  In a line made of a
    quantity, a one-word unit that does not start with a digit, a word and
    more text, separated by single spaces, the pattern finds one match: its
    unit is the unit with the word after it, and its ingredient is what
    follows that word.  The text after the word is not empty, holds no
    comma and no line break, and starts with neither white space nor
    "of". *)
Theorem unit_takes_the_next_word (Q U W I : str) :
  Q <> [] -> Forall (fun c => quantity_char c = true) Q ->
  U <> [] -> ReOrder.stops quantity_char U -> Forall (fun c => isword c = true) U ->
  W <> [] -> Forall (fun c => isword c = true) W ->
  I <> [] -> ReOrder.stops isspace I -> Forall (fun c => ingredient_char c = true) I ->
  startswith "of" I = false ->
  let line := Q ++ " "%char :: U ++ " "%char :: W ++ " "%char :: I in
  exists m : Re.match_object,
    Re.finditer ingredient_pattern line = [m]
    /\ Re.group0 line m = line
    /\ Re.group line m 1 = Q
    /\ Re.group line m 2 = U ++ " "%char :: W
    /\ Re.group line m 3 = I.
Proof.
  intros H1 H2 H3 H4 H5 H6 H7 H8 H9 H10 H11. cbv zeta.
  eexists. split; [exact (Shape.line_finditer Q U W I H1 H2 H3 H4 H5 H6 H7 H8 H9 H10 H11) |].
  split; [| exact (Shape.line_groups Q U W I)].
  unfold Re.group0. cbn [Re.m_start Re.m_end].
  set (line := Q ++ " "%char :: U ++ " "%char :: W ++ " "%char :: I).
  replace (List.length Q + 1 + List.length U + 1 + List.length W + 1 + List.length I)
    with (0 + List.length line).
  - apply (slice_start line 0 line []). cbn [skipn]. now rewrite app_nil_r.
  - unfold line. rewrite !length_app. cbn [List.length]. rewrite !length_app.
    cbn [List.length]. rewrite !length_app. cbn [List.length]. lia.
Qed.

(** X12 at "2 cups brown sugar": the unit is "cups brown" and the
    ingredient is "sugar". *)
Lemma unit_takes_the_next_word_witness :
  let line : str := "2 cups brown sugar" in
  exists m : Re.match_object,
    Re.finditer ingredient_pattern line = [m]
    /\ Re.group0 line m = line
    /\ Re.group line m 1 = ("2" : str)
    /\ Re.group line m 2 = ("cups brown" : str)
    /\ Re.group line m 3 = ("sugar" : str).
Proof.
  apply (unit_takes_the_next_word ("2" : str) ("cups" : str) ("brown" : str) ("sugar" : str));
    try discriminate; try reflexivity; repeat constructor.
Defined.

Lemma forallb_Forall (p : ascii -> bool) (s : str) :
  Forall (fun c => p c = true) s <-> forallb p s = true.
Proof. rewrite forallb_forall, Forall_forall. reflexivity. Qed.

(** X13. The ingredients whose name starts with a word and a space are
    missed after a one-word unit: a line made of a quantity, a one-word
    unit that does not start with a digit and such a name of the table,
    separated by single spaces, is left without annotation at every
    temperature.  The first word of the name is taken for a part of the
    unit.  Sixteen of the twenty-four names are of this kind. *)
Theorem two_word_ingredients_are_missed (Q U W I : str) (e : ingredient_entry) (T : float) :
  Q <> [] -> Forall (fun c => quantity_char c = true) Q ->
  U <> [] -> ReOrder.stops quantity_char U -> Forall (fun c => isword c = true) U ->
  Forall (fun c => isword c = true) W ->
  In (W ++ " "%char :: I, e) load_ingredients_db ->
  convert_line T (Q ++ " "%char :: U ++ " "%char :: W ++ " "%char :: I)
  = Q ++ " "%char :: U ++ " "%char :: W ++ " "%char :: I.
Proof.
  intros H1 H2 H3 H4 H5 H7 Hin.
  assert (Hs := split1_at " " W I (word_has_no_space W H7)).
  apply forallb_Forall in H7.
  cbv [load_ingredients_db In] in Hin.
  repeat (destruct Hin as [Hin | Hin];
          [injection Hin as Hn _; rewrite <- Hn in Hs; vm_compute in Hs;
           first
             [ discriminate Hs
             | injection Hs as <- <-;
               first
                 [ discriminate H7
                 | apply Shape.line_unchanged;
                   [ exact H1 | exact H2 | exact H3 | exact H4 | exact H5
                   | discriminate | apply forallb_Forall; exact H7
                   | discriminate | reflexivity | apply forallb_Forall; reflexivity
                   | reflexivity
                   | intros q; apply convert_unknown; absent_key ] ] ] |]).
  contradiction.
Qed.

(** X13 at "1 1/2 cups whole wheat flour". *)
Lemma two_word_ingredients_are_missed_witness :
  convert_line 20%float "1 1/2 cups whole wheat flour" = ("1 1/2 cups whole wheat flour" : str).
Proof.
  assert (Hin : In (("whole" : str) ++ " "%char :: ("wheat flour" : str), volume 130 0.02)
                   load_ingredients_db).
  { cbv [load_ingredients_db In]. do 3 right. left. reflexivity. }
  apply (two_word_ingredients_are_missed ("1 1/2" : str) ("cups" : str) ("whole" : str)
                                         ("wheat flour" : str) (volume 130 0.02) 20%float);
    [discriminate | repeat constructor | discriminate | reflexivity | repeat constructor
    | repeat constructor | exact Hin].
Defined.

(** X14. A one-word unit followed by "of" is never converted: a line made
    of a quantity, a one-word unit that does not start with a digit, "of"
    and any text, separated by single spaces, is left without annotation
    at every temperature.  The word "of" is taken for a part of the unit.
    The text is not empty, holds no comma and no line break, and starts
    with neither white space nor "of". *)
Theorem unit_with_of_is_missed (Q U I : str) (T : float) :
  Q <> [] -> Forall (fun c => quantity_char c = true) Q ->
  U <> [] -> ReOrder.stops quantity_char U -> Forall (fun c => isword c = true) U ->
  I <> [] -> ReOrder.stops isspace I -> Forall (fun c => ingredient_char c = true) I ->
  startswith "of" I = false ->
  convert_line T (Q ++ " "%char :: U ++ " "%char :: ("of" : str) ++ " "%char :: I)
  = Q ++ " "%char :: U ++ " "%char :: ("of" : str) ++ " "%char :: I.
Proof.
  intros H1 H2 H3 H4 H5 H8 H9 H10 H11.
  apply Shape.line_unchanged; auto; [discriminate | repeat constructor |].
  intros q. apply not_convertible_iff. right.
  destruct (Shape.unit_with_of U H3 H5) as (Hv & Hm & He).
  split; [exact Hv | split; [exact Hm |]]. intros [_ N]. now apply He.
Qed.

(** X14 at "2 cups of milk". *)
Lemma unit_with_of_is_missed_witness :
  convert_line 20%float "2 cups of milk" = ("2 cups of milk" : str).
Proof.
  apply (unit_with_of_is_missed ("2" : str) ("cups" : str) ("milk" : str) 20%float);
    try discriminate; try reflexivity; repeat constructor.
Defined.

(** ** A quantity, a one-word unit and an ingredient whose first word is
    not followed by white space *)

Module Simple.
Import Re ReOrder ReOrderFacts.

(** A greedy repetition fails when the rest of the pattern fails after
    every part of the run. *)
Lemma greedy_fails {R : Type} (p : ascii -> bool) (a rest : str) (k : nat -> str -> option R) :
  (forall pos' a', (exists pre, pre ++ a' = a) -> k pos' (a' ++ rest) = None) ->
  Forall (fun c => p c = true) a -> stops p rest ->
  forall pos, repeat_greedy p pos (a ++ rest) k = None.
Proof.
  intros Hk Hp Hs. induction Hp as [| c a Hc Hp IH]; intros pos.
  - now apply greedy_stops.
  - cbn [app repeat_greedy]. rewrite Hc. rewrite IH.
    + apply Hk. now exists [c].
    + intros pos' a' (pre & E). apply Hk. exists (c :: pre). cbn [app]. now rewrite E.
Qed.

Lemma word_or_space_stops (r : str) :
  stops Anatomy.word_or_space r -> stops isword r /\ stops isspace r.
Proof.
  destruct r as [| c r]; cbn [stops]; [auto |]. unfold Anatomy.word_or_space.
  intros H. apply orb_false_iff in H. exact H.
Qed.

Lemma word_part_stops_space (w a' r : str) :
  Forall (fun c => isword c = true) w -> stops isspace r ->
  (exists pre, pre ++ a' = w) -> stops isspace (a' ++ r).
Proof.
  intros Hw Hr (pre & E). destruct a' as [| c a']; [exact Hr |].
  cbn [app stops]. apply Shape.isword_not_space.
  rewrite Forall_forall in Hw. apply Hw. rewrite <- E. apply in_or_app. right. now left.
Qed.

Lemma strip_nil (s : str) : strip s = [] -> blank s.
Proof.
  assert (L : forall t, lstrip t = [] -> blank t).
  { induction t as [| c t IH]; cbn [lstrip]; [constructor |].
    destruct (isspace c) eqn:E; [| discriminate]. intros H.
    constructor; [exact E | exact (IH H)]. }
  assert (N : forall t, lstrip t = [] \/ stops isspace (lstrip t) /\ lstrip t <> []).
  { induction t as [| c t IH]; cbn [lstrip]; [now left |].
    destruct (isspace c) eqn:E; [exact IH | right]. split; [exact E | discriminate]. }
  unfold strip, rstrip. intros H.
  apply (f_equal (@rev ascii)) in H. rewrite rev_involutive in H. cbn [rev] in H.
  apply L in H. apply Forall_rev in H. rewrite rev_involutive in H.
  destruct (N s) as [E | [E1 E2]]; [now apply L |].
  destruct (lstrip s) as [| c t]; [contradiction |].
  cbn [stops] in E1. inversion H as [| ? ? Hc _]. congruence.
Qed.

Section Line.
Variables Q U w r : str.
Hypothesis Q_some : Q <> [].
Hypothesis Q_chars : Forall (fun c => quantity_char c = true) Q.
Hypothesis U_some : U <> [].
Hypothesis U_start : stops quantity_char U.
Hypothesis U_word : Forall (fun c => isword c = true) U.
Hypothesis w_word : Forall (fun c => isword c = true) w.
Hypothesis r_start : stops Anatomy.word_or_space r.
Hypothesis N_some : w ++ r <> [].
Hypothesis N_start : stops isspace (w ++ r).
Hypothesis N_chars : Forall (fun c => ingredient_char c = true) (w ++ r).
Hypothesis N_of : startswith "of" (w ++ r) = false.

Let line : str := Q ++ " "%char :: U ++ " "%char :: w ++ r.
Let p2 : nat := List.length Q + 1.
Let e2 : nat := p2 + List.length U.
Let p3 : nat := e2 + 1.
Let the_match : match_object :=
  Match 0 (p3 + List.length (w ++ r))
        [(3, (p3, p3 + List.length (w ++ r))); (2, (p2, e2)); (1, (0, List.length Q))].

Lemma simple_match_at : match_at ingredient_pattern 0 line = Some (the_match, []).
Proof.
  assert (Usp : stops isspace (U ++ " "%char :: w ++ r)).
  { apply Shape.stops_word; auto. apply Shape.isword_not_space. }
  assert (Uq : stops quantity_char (U ++ " "%char :: w ++ r)).
  { destruct U; [contradiction | exact U_start]. }
  destruct (word_or_space_stops r r_start) as [rw rs].
  unfold match_at, ingredient_pattern, line. cbn [run].
  apply greedy_backoff with (pos' := List.length Q); auto.
  - now apply greedy_stops.
  - apply (greedy_longest isspace [" "%char]) with (pos' := p2);
      [discriminate | repeat constructor | exact Usp | reflexivity |].
    apply greedy_longest with (pos' := e2);
      [exact U_some | exact U_word | reflexivity | reflexivity |].
    match goal with
    | |- match ?a with _ => _ end = ?b => assert (E : a = None); [| rewrite E]
    end.
    + apply greedy_one_none; [reflexivity | exact N_start |].
      apply greedy_fails; [| exact w_word | exact rw].
      intros pos'' a' Ha. apply greedy_stops.
      now apply (word_part_stops_space w a' r).
    + apply (greedy_longest isspace [" "%char]) with (pos' := p3);
        [discriminate | repeat constructor | exact N_start | reflexivity |].
      rewrite N_of.
      apply lazy_to_end with (pos' := p3 + List.length (w ++ r)).
      * exact N_some.
      * eapply Forall_impl; [| exact N_chars].
        intros c Hc. unfold ingredient_char in Hc. now apply andb_true_iff in Hc.
      * intros pos' c s' Hin. rewrite Forall_forall in N_chars.
        exact (Shape.ending_fails pos' c s'
                 [(3, (p3, pos')); (2, (p2, e2)); (1, (0, List.length Q))]
                 (fun pos s g => Some (Match 0 pos g, s)) (N_chars c Hin)).
      * reflexivity.
      * reflexivity.
Qed.

Lemma simple_finditer : finditer ingredient_pattern line = [the_match].
Proof.
  unfold finditer. cbn [finditer_from].
  rewrite (search_first _ _ _ _ simple_match_at). cbn [m_end the_match].
  f_equal. destruct (List.length line); reflexivity.
Qed.

Lemma simple_groups :
  group0 line the_match = line
  /\ group line the_match 1 = Q
  /\ group line the_match 2 = U
  /\ group line the_match 3 = w ++ r.
Proof.
  unfold group0, group, the_match. cbn [m_start m_end m_spans span_of Nat.eqb]. repeat split.
  - replace (p3 + List.length (w ++ r)) with (0 + List.length line).
    + apply (slice_start line 0 line []). cbn [skipn]. now rewrite app_nil_r.
    + unfold p3, e2, p2, line. rewrite !length_app. cbn [List.length]. rewrite !length_app.
      cbn [List.length]. rewrite !length_app. lia.
  - apply (slice_start line 0 Q (" "%char :: U ++ " "%char :: w ++ r)). reflexivity.
  - replace e2 with (0 + List.length (Q ++ [" "%char]) + List.length U).
    + replace p2 with (0 + List.length (Q ++ [" "%char])) by (rewrite length_app; reflexivity).
      apply (slice_inside line 0 (Q ++ [" "%char]) U (" "%char :: w ++ r)).
      unfold line. cbn [skipn]. now rewrite <- !app_assoc.
    + unfold e2, p2. rewrite !length_app. cbn [List.length]. lia.
  - replace (p3 + List.length (w ++ r))
      with (0 + List.length (Q ++ " "%char :: U ++ [" "%char]) + List.length (w ++ r)).
    + replace p3 with (0 + List.length (Q ++ " "%char :: U ++ [" "%char])).
      * apply (slice_inside line 0 (Q ++ " "%char :: U ++ [" "%char]) (w ++ r) []).
        unfold line. cbn [skipn]. rewrite app_nil_r. rewrite <- !app_assoc. cbn [app].
        rewrite <- !app_assoc. reflexivity.
      * unfold p3, e2, p2. rewrite !length_app. cbn [List.length]. rewrite !length_app.
        cbn [List.length]. lia.
    + unfold p3, e2, p2. rewrite !length_app. cbn [List.length]. rewrite !length_app.
      cbn [List.length]. lia.
Qed.

Lemma line_not_blank : strip line <> [].
Proof.
  intros H. apply strip_nil in H. unfold blank, line in H.
  apply Forall_app in H. destruct H as [_ H]. inversion H as [| ? ? _ H']. subst.
  apply Forall_app in H'. destruct H' as [H' _].
  destruct U_word as [| c U' Hc _]; [contradiction |].
  inversion H' as [| ? ? Hs _]. apply Shape.isword_not_space in Hc. congruence.
Qed.

Lemma replace1_whole (s new : str) : replace1 s new s = new.
Proof.
  destruct s as [| c s]; unfold replace1; fold replace1.
  - cbn. apply app_nil_r.
  - rewrite <- (app_nil_r (c :: s)) at 2. rewrite SubFacts.startswith_prefix.
    rewrite skipn_all. apply app_nil_r.
Qed.

(** The line is annotated at its end when the quantity parses and the
    conversion succeeds, and left as it is otherwise. *)
Lemma line_annotated (T : float) :
  convert_line T line
  = match parse_quantity (strip Q) with
    | Ok q =>
        match convert_to_grams binary64 q U (w ++ r) T with
        | Some g => line ++ annotation (PyFloat.round1 g)
        | None => line
        end
    | Raise _ => line
    end.
Proof.
  unfold convert_line. destruct (strip line) eqn:E; [now apply line_not_blank in E |].
  rewrite simple_finditer. cbn [fold_left]. unfold annotate_match, try_annotate.
  destruct simple_groups as (-> & -> & -> & ->).
  destruct (parse_quantity _) as [q | e]; cbn [bind]; [| reflexivity].
  destruct (convert_to_grams _ _ _ _ _) as [g |]; [| reflexivity].
  apply replace1_whole.
Qed.

End Line.
End Simple.

(** X15. A line made of a quantity, a one-word unit that does not start
    with a digit and an ingredient, separated by single spaces, where the
    first word of the ingredient is not followed by white space (the
    ingredient is one word, or goes on with a hyphen, say), is annotated
    at its end with the grams, rounded to one decimal place, when the
    quantity parses and the conversion succeeds, and is left as it is
    otherwise.  The ingredient is not empty, holds no comma and no line
    break, and does not start with "of". *)
Theorem simple_line_is_annotated (Q U w r : str) (T : float) :
  Q <> [] -> Forall (fun c => quantity_char c = true) Q ->
  U <> [] -> ReOrder.stops quantity_char U -> Forall (fun c => isword c = true) U ->
  Forall (fun c => isword c = true) w -> ReOrder.stops Anatomy.word_or_space r ->
  w ++ r <> [] -> ReOrder.stops isspace (w ++ r) ->
  Forall (fun c => ingredient_char c = true) (w ++ r) ->
  startswith "of" (w ++ r) = false ->
  let line := Q ++ " "%char :: U ++ " "%char :: w ++ r in
  convert_line T line
  = match parse_quantity (strip Q) with
    | Ok q =>
        match convert_to_grams binary64 q U (w ++ r) T with
        | Some g => line ++ annotation (PyFloat.round1 g)
        | None => line
        end
    | Raise _ => line
    end.
Proof. intros. now apply Simple.line_annotated. Qed.

(** X15 at "1 cup all-purpose flour" at 20 degrees. *)
Lemma simple_line_is_annotated_witness :
  convert_line 20%float "1 cup all-purpose flour" = ("1 cup all-purpose flour (120.0g)" : str).
Proof.
  assert (H := simple_line_is_annotated ("1" : str) ("cup" : str) ("all" : str)
                 ("-purpose flour" : str) 20%float).
  cbv zeta in H.
  change ("1 cup all-purpose flour" : str)
    with (("1" : str) ++ " "%char :: ("cup" : str) ++ " "%char
          :: ("all" : str) ++ ("-purpose flour" : str)).
  rewrite H;
    [vm_compute; reflexivity | discriminate | repeat constructor | discriminate | reflexivity
    | repeat constructor | repeat constructor | reflexivity | discriminate | reflexivity
    | repeat constructor | reflexivity].
Defined.

(** ** The saved recipes *)

Module SessionFacts.
Import PyFloat.
Local Open Scope Z_scope.

Lemma digit_value_digit (m : Z) :
  0 <= m < 10 -> digit_value (ascii_of_N (Z.to_N (48 + m))) = m.
Proof.
  intros H. unfold digit_value, ord. rewrite N_ascii_embedding; lia.
Qed.

Lemma digits_of_value (fuel : nat) :
  forall n acc, 0 <= n < 2 ^ Z.of_nat fuel ->
    exists D, digits_of fuel n acc = D ++ acc
              /\ forall a, fold_left (fun acc c => 10 * acc + digit_value c) D a = a * 10 ^ Z.of_nat (List.length D) + n.
Proof.
  induction fuel as [| fuel IH]; intros n acc Hn.
  - exists []. split; [reflexivity |]. intros a. cbn. change (2 ^ Z.of_nat 0) with 1 in Hn. lia.
  - cbn [digits_of]. destruct (n <? 10) eqn:E.
    + apply Z.ltb_lt in E. exists [ascii_of_N (Z.to_N (48 + n mod 10))].
      split; [reflexivity |]. intros a. cbn [fold_left List.length].
      rewrite digit_value_digit by (apply Z.mod_pos_bound; lia).
      rewrite Z.mod_small by lia. change (10 ^ Z.of_nat 1) with 10. lia.
    + apply Z.ltb_ge in E.
      destruct (IH (n / 10) (ascii_of_N (Z.to_N (48 + n mod 10)) :: acc)) as (D & E1 & E2).
      { split; [apply Z.div_pos; lia |].
        rewrite Nat2Z.inj_succ, Z.pow_succ_r in Hn by lia.
        apply Z.div_lt_upper_bound; lia. }
      exists (D ++ [ascii_of_N (Z.to_N (48 + n mod 10))]).
      split; [rewrite E1, <- app_assoc; reflexivity |].
      intros a. rewrite fold_left_app, E2. cbn [fold_left].
      rewrite digit_value_digit by (apply Z.mod_pos_bound; lia).
      rewrite length_app, Nat2Z.inj_add. cbn [List.length].
      change (Z.of_nat 1) with 1. rewrite Z.pow_add_r, Z.pow_1_r by lia.
      assert (H := Z.div_mod n 10 ltac:(lia)). lia.
Qed.

(** Reading the digits of a number gives the number back. *)
Lemma digits_value_str_of_Z (n : Z) : 0 <= n -> digits_value (str_of_Z n) = n.
Proof.
  intros Hn. unfold str_of_Z.
  destruct (digits_of_value (S (Z.to_nat (Z.log2 n))) n []) as (D & E1 & E2).
  { split; [exact Hn |]. rewrite Nat2Z.inj_succ, Z2Nat.id by apply Z.log2_nonneg.
    destruct (Z.eq_dec n 0) as [-> | N]; [reflexivity |].
    apply Z.log2_spec. lia. }
  rewrite E1, app_nil_r. unfold digits_value.
  rewrite E2. lia.
Qed.

Lemma recipe_key_inj (i j : nat) : Page.recipe_key i = Page.recipe_key j -> i = j.
Proof.
  unfold Page.recipe_key, Page.str_of_len. intros H. apply app_inv_head in H.
  apply (f_equal digits_value) in H. rewrite !digits_value_str_of_Z in H; lia.
Qed.

Local Close Scope Z_scope.

Lemma setitem_fresh {V : Type} (key : str) (value : V) (d : list (str * V)) :
  ~ In key (map fst d) -> Page.setitem key value d = d ++ [(key, value)].
Proof.
  induction d as [| [k v] d IH]; cbn [Page.setitem map fst In app]; intros H; [reflexivity |].
  destruct (PyStr.eqb k key) eqn:E.
  - apply eqb_eq in E. exfalso. auto.
  - rewrite IH; auto.
Qed.

Lemma numbered_app (l l' : list Page.press) :
  forall i, Page.numbered i (l ++ l') = Page.numbered i l ++ Page.numbered (i + List.length l) l'.
Proof.
  induction l as [| p l IH]; intros i; cbn [app Page.numbered List.length].
  - now rewrite Nat.add_0_r.
  - rewrite IH. now rewrite Nat.add_succ_r.
Qed.

Lemma numbered_length (l : list Page.press) :
  forall i, List.length (Page.numbered i l) = List.length l.
Proof. induction l as [| p l IH]; intros i; cbn [Page.numbered List.length]; auto. Qed.

Lemma numbered_keys (l : list Page.press) :
  forall i key, In key (map fst (Page.numbered i l)) ->
                exists j, i <= j < i + List.length l /\ key = Page.recipe_key j.
Proof.
  induction l as [| p l IH]; intros i key; cbn [Page.numbered map fst In List.length];
    [intros [] |].
  intros [<- | H].
  - exists i. split; [lia | reflexivity].
  - destruct (IH _ _ H) as (j & Hj & E). exists j. split; [lia | exact E].
Qed.

Lemma generate_button_numbered (p : Page.press) (l : list Page.press) (history : list (str * str)) :
  Page.has_text p = true ->
  Page.generate_button (Page.recipe_input p) (Page.recipe_output p) (Page.kitchen_temp p)
                       (Page.Session history (Page.numbered 1 l))
  = Page.Session (history ++ Page.messages p) (Page.numbered 1 (l ++ [p])).
Proof.
  unfold Page.has_text, Page.generate_button. destruct (Page.recipe_input p) eqn:E; [discriminate |].
  intros _. cbn [Page.recipe_db Page.chat_history]. f_equal.
  - unfold Page.messages, Page.saved. cbn [snd]. now rewrite E.
  - rewrite numbered_length, numbered_app. cbn [Page.numbered].
    rewrite (Nat.add_comm (List.length l) 1).
    change (("recipe_" : str) ++ Page.str_of_len (1 + List.length l))
      with (Page.recipe_key (1 + List.length l)).
    rewrite setitem_fresh; [unfold Page.saved; now rewrite E |].
    intros H. apply numbered_keys in H. destruct H as (j & Hj & Ej).
    apply recipe_key_inj in Ej. lia.
Qed.

Lemma after_numbered (presses : list Page.press) :
  forall (l : list Page.press) (history : list (str * str)),
    fold_left (fun state p =>
                 Page.generate_button (Page.recipe_input p) (Page.recipe_output p)
                                      (Page.kitchen_temp p) state)
              presses (Page.Session history (Page.numbered 1 l))
    = Page.Session (history ++ flat_map Page.messages (filter Page.has_text presses))
                   (Page.numbered 1 (l ++ filter Page.has_text presses)).
Proof.
  induction presses as [| p presses IH]; intros l history; cbn [fold_left filter flat_map].
  - now rewrite !app_nil_r.
  - destruct (Page.has_text p) eqn:E.
    + rewrite (generate_button_numbered p l history E), IH.
      cbn [flat_map]. now rewrite <- !app_assoc.
    + unfold Page.generate_button at 2. unfold Page.has_text in E.
      destruct (Page.recipe_input p); [apply IH | discriminate].
Qed.

End SessionFacts.

(** X16. The saved recipes are never overwritten.  After any series of
    presses of the button, the dictionary of the saved recipes holds one
    entry for each press with a text, in the order of the presses, under
    the keys recipe_1, recipe_2 and so on, and the conversation holds the
    request and the annotated recipe of each of them. *)
Theorem saved_recipes_are_kept (presses : list Page.press) :
  let with_text := filter Page.has_text presses in
  Page.recipe_db (Page.after presses) = Page.numbered 1 with_text
  /\ Page.chat_history (Page.after presses) = flat_map Page.messages with_text.
Proof.
  cbv zeta. unfold Page.after, Page.initial.
  change (Page.Session [] []) with (Page.Session [] (Page.numbered 1 [])).
  rewrite SessionFacts.after_numbered. split; reflexivity.
Qed.

(** ** The tables *)

Lemma factor_lookup (unit : str) (factor : Q) :
  In (unit, factor) get_conversion_factors ->
  lookup unit get_conversion_factors = Some factor
  /\ strip (lower unit) = unit /\ (0 < factor)%Q.
Proof.
  intros H. cbv [get_conversion_factors In] in H.
  repeat (destruct H as [H | H];
          [injection H as <- <-; split; [| split]; vm_compute; reflexivity |]).
  contradiction.
Qed.

Lemma entry_lookup (name : str) (e : ingredient_entry) :
  In (name, e) load_ingredients_db ->
  lookup name load_ingredients_db = Some e
  /\ strip (lower name) = name /\ (0 < density e)%Q /\ (0 < temp_factor e)%Q.
Proof.
  intros H. cbv [load_ingredients_db In] in H.
  repeat (destruct H as [H | H];
          [injection H as <- <-; split; [| split; [| split]]; vm_compute; reflexivity |]).
  contradiction.
Qed.

(** X17. The two tables are well formed.  Every key is already trimmed
    and in lower case and occurs once, so that every entry is the one the
    lookup of its key returns; every density, every temperature factor
    and every factor of a volume unit is positive. *)
Theorem tables_are_well_formed (name : str) (e : ingredient_entry) (unit : str) (factor : Q) :
  In (name, e) load_ingredients_db ->
  In (unit, factor) get_conversion_factors ->
  (lookup name load_ingredients_db = Some e
   /\ strip (lower name) = name /\ (0 < density e)%Q /\ (0 < temp_factor e)%Q)
  /\ (lookup unit get_conversion_factors = Some factor
      /\ strip (lower unit) = unit /\ (0 < factor)%Q).
Proof.
  intros H1 H2. split; [now apply entry_lookup | now apply factor_lookup].
Qed.

(** X17 at yeast and at the millilitre. *)
Lemma tables_are_well_formed_witness :
  (lookup "yeast" load_ingredients_db = Some (counted 3 0.005 "teaspoon")
   /\ strip (lower "yeast") = ("yeast" : str) /\ (0 < 3)%Q /\ (0 < 0.005)%Q)
  /\ (lookup "ml" get_conversion_factors = Some 0.00422675%Q
      /\ strip (lower "ml") = ("ml" : str) /\ (0 < 0.00422675)%Q).
Proof.
  apply (tables_are_well_formed ("yeast" : str) (counted 3 0.005 "teaspoon") ("ml" : str)
                                0.00422675%Q).
  - cbv [load_ingredients_db In]. do 23 right. left. reflexivity.
  - cbv [get_conversion_factors In]. do 13 right. left. reflexivity.
Defined.
